(** * Multi-Phone WiFi Control System: coordinate mapping and action fan-out

    A shallow embedding of [src/phone_controller.py] and
    [src/screen_mirror_controller.py], and the properties of the
    geometry, classification and dispatch layer proved over it.

    Conventions of the embedding.
    - Python [int] is [Z]; Python [float] is IEEE-754 binary64, taken as
      the executable specification [spec_float] of the Standard Library
      (precision 53, exponent bound 1024, round to nearest even).
    - Python [str] is [string]; a character is a code point below 256.
      On that range [\d] is [0-9], [\s] is what [str.isspace] accepts,
      and case folding touches the letters [A-Z] only.
    - A Python exception is a constructor of [exn]; a value that may
      raise lives in [result].
    - [subprocess.run] is an oracle [adb] from the number of processes
      spawned so far and the argument vector to an [Outcome]; the
      session records every argument vector in [trace].  The [timeout=]
      argument is not recorded: whether a call times out is the
      oracle's answer.
    - [print] has no effect on any value and is left out. *)

From Stdlib Require Import ZArith String Ascii List Lia Bool DecimalString.
From Stdlib Require Import Floats.SpecFloat Sorting.Permutation.
From stdpp Require Import base option gmap strings.

Open Scope string_scope.
Open Scope Z_scope.

(** ** Exceptions and fallible values *)

Inductive exn : Type :=
| IndexError            (* re.Match.group: no such group *)
| KeyError              (* a dict read at a missing key *)
| UnboundLocalError     (* a local read before assignment *)
| OverflowError         (* int too large for a float, int(inf) *)
| ValueError            (* int(nan) *)
| ZeroDivisionError
| TimeoutExpired        (* subprocess.TimeoutExpired *)
| CalledProcessError    (* subprocess.run(check=True), non-zero exit *)
| OSError               (* the bridge executable cannot be spawned *)
| Win32Error.           (* pywintypes.error from a win32gui call *)

Inductive result (A : Type) : Type :=
| Ok (a : A)
| Raise (e : exn).
Arguments Ok {A} a.
Arguments Raise {A} e.

Definition is_ok {A} (r : result A) : bool :=
  match r with Ok _ => true | Raise _ => false end.

Definition rbind {A B} (r : result A) (k : A -> result B) : result B :=
  match r with Ok a => k a | Raise e => Raise e end.

Declare Scope res_scope.
Delimit Scope res_scope with res.
Notation "'do' x <~ c ; k" := (rbind c (fun x => k))
  (at level 10, x name, c at level 100, k at level 200) : res_scope.

(** ** Floats: binary64 *)

Module Py.

Definition float := spec_float.

Definition prec : Z := 53.
Definition emax : Z := 1024.

Definition fmul : float -> float -> float := SFmul prec emax.
Definition fdiv : float -> float -> float := SFdiv prec emax.
Definition fsub : float -> float -> float := SFsub prec emax.
Definition fabs : float -> float := SFabs.
(** [a < b] on floats; false when either is a NaN. *)
Definition flt : float -> float -> bool := SFltb.
Definition fgt (a b : float) : bool := SFltb b a.

Definition is_finite (f : float) : bool :=
  match f with
  | S754_zero _ | S754_finite _ _ _ => true
  | _ => false
  end.

Definition is_zero (f : float) : bool :=
  match f with S754_zero _ => true | _ => false end.

(** [float(n)] for an int [n]: correctly rounded, [OverflowError] when
    [n] is beyond the largest finite double. *)
Definition float_of_int (n : Z) : result float :=
  let f := binary_normalize prec emax n 0 false in
  if is_finite f then Ok f else Raise OverflowError.

(** [a / b] for ints: the exact quotient, correctly rounded.  The
    quotient is taken with at least 56 significant bits and a sticky
    bit, which rounds as the exact value does. *)
Definition truediv (a b : Z) : result float :=
  if b =? 0 then Raise ZeroDivisionError
  else
    let neg := xorb (a <? 0) (b <? 0) in
    let a' := Z.abs a in
    let b' := Z.abs b in
    let k := Z.max 0 (Z.log2 b' - Z.log2 a' + 56) in
    let q := (a' * 2 ^ k) / b' in
    let sticky := if (a' * 2 ^ k) mod b' =? 0 then 0 else 1 in
    let m := 2 * q + sticky in
    let f := binary_normalize prec emax (if neg then - m else m) (- (k + 1)) neg in
    if is_finite f then Ok f else Raise OverflowError.

(** [n * f] for an int [n] and a float [f]. *)
Definition mul_int_float (n : Z) (f : float) : result float :=
  (do n' <~ float_of_int n ; Ok (fmul n' f))%res.

(** [n / f] for an int [n] and a float [f]. *)
Definition div_int_float (n : Z) (f : float) : result float :=
  (do n' <~ float_of_int n ;
   if is_zero f then Raise ZeroDivisionError else Ok (fdiv n' f))%res.

(** [int(f)]: truncation towards zero. *)
Definition int_of_float (f : float) : result Z :=
  match f with
  | S754_zero _ => Ok 0
  | S754_finite s m e =>
      let v := if 0 <=? e then Z.pos m * 2 ^ e else Z.pos m / 2 ^ (- e) in
      Ok (if s then - v else v)
  | S754_infinity _ => Raise OverflowError
  | S754_nan => Raise ValueError
  end.

(** [min(a, b)] on floats: the first argument unless the second is
    smaller. *)
Definition fmin (a b : float) : float := if flt b a then b else a.

(** The literal [0.01]. *)
Definition f0_01 : float := S754_finite false 5764607523034235 (-59).

(** [int(n * f)], the scaling step every mapping uses. *)
Definition scaled (n : Z) (f : float) : result Z :=
  (do p <~ mul_int_float n f ; int_of_float p)%res.

(** [max(0, min(v, hi))] on ints. *)
Definition clamp (v hi : Z) : Z := Z.max 0 (Z.min v hi).

End Py.

(** ** Text *)

Module Text.

Definition code (c : ascii) : N := N_of_ascii c.

Definition is_digit (c : ascii) : bool :=
  ((48 <=? code c) && (code c <=? 57))%N.

(** [str.isspace] on one character below 256; [\s] matches the same. *)
Definition is_space (c : ascii) : bool :=
  (((9 <=? code c) && (code c <=? 13))
   || ((28 <=? code c) && (code c <=? 32))
   || (code c =? 133) || (code c =? 160))%N.

Definition lower (c : ascii) : ascii :=
  if ((65 <=? code c) && (code c <=? 90))%N
  then ascii_of_N (code c + 32) else c.

Definition char_eqb (ignorecase : bool) (a b : ascii) : bool :=
  if ignorecase then Ascii.eqb (lower a) (lower b) else Ascii.eqb a b.

Fixpoint drop_while (p : ascii -> bool) (s : string) : string :=
  match s with
  | String c s' => if p c then drop_while p s' else s
  | EmptyString => s
  end.

Fixpoint take_while (p : ascii -> bool) (s : string) : string :=
  match s with
  | String c s' => if p c then String c (take_while p s') else EmptyString
  | EmptyString => EmptyString
  end.

Fixpoint rev_onto (s acc : string) : string :=
  match s with
  | String c s' => rev_onto s' (String c acc)
  | EmptyString => acc
  end.

Definition rev (s : string) : string := rev_onto s EmptyString.

(** [s.strip()] *)
Definition strip (s : string) : string :=
  rev (drop_while is_space (rev (drop_while is_space s))).

(** [s.replace(old, new)] for a one-character [old]. *)
Fixpoint replace (old : ascii) (new : string) (s : string) : string :=
  match s with
  | String c s' =>
      if Ascii.eqb c old then new ++ replace old new s'
      else String c (replace old new s')
  | EmptyString => EmptyString
  end.

(** [s.split(sep)] for a one-character [sep]. *)
Fixpoint split_on (sep : ascii) (s : string) : list string :=
  match s with
  | EmptyString => [EmptyString]
  | String c s' =>
      if Ascii.eqb c sep then EmptyString :: split_on sep s'
      else match split_on sep s' with
           | w :: ws => String c w :: ws
           | [] => [String c EmptyString]
           end
  end.

(** [needle in s] *)
Fixpoint contains (needle s : string) : bool :=
  String.prefix needle s
  || match s with
     | String _ s' => contains needle s'
     | EmptyString => false
     end.

(** [int(s)] for a string of decimal digits. *)
Fixpoint int_of_digits_from (acc : Z) (s : string) : Z :=
  match s with
  | String c s' => int_of_digits_from (10 * acc + (Z.of_N (code c) - 48)) s'
  | EmptyString => acc
  end.

Definition int_of_digits (s : string) : Z := int_of_digits_from 0 s.

(** [str(n)], as an f-string renders an int. *)
Definition str (n : Z) : string := NilZero.string_of_int (Z.to_int n).

Definition dquote : string := String (ascii_of_N 34) EmptyString.
Definition tab : ascii := ascii_of_N 9.
Definition newline : ascii := ascii_of_N 10.
Definition backslash : ascii := ascii_of_N 92.

(** *** The regular expressions of the source

    Every pattern the source searches for is a sequence of literal
    characters, [\s*] and capturing [(\d+)].  In each of them a [\s*]
    or [(\d+)] is followed by something that cannot start with a
    character of its own class, so the greedy choice is the only one
    that can succeed and the matcher needs no backtracking. *)

Inductive atom : Type :=
| Lit (c : ascii)
| Spaces            (* \s*   *)
| Digits.           (* (\d+) *)

Fixpoint lit (s : string) : list atom :=
  match s with
  | String c s' => Lit c :: lit s'
  | EmptyString => []
  end.

(** The groups captured by a match of [p] at the start of [s]. *)
Fixpoint match_here (ignorecase : bool) (p : list atom) (s : string)
  : option (list string) :=
  match p with
  | [] => Some []
  | Lit c :: p' =>
      match s with
      | String d s' =>
          if char_eqb ignorecase c d then match_here ignorecase p' s' else None
      | EmptyString => None
      end
  | Spaces :: p' => match_here ignorecase p' (drop_while is_space s)
  | Digits :: p' =>
      match take_while is_digit s with
      | EmptyString => None
      | ds => option_map (cons ds)
                (match_here ignorecase p' (drop_while is_digit s))
      end
  end.

(** [re.search(p, s)]: the leftmost match. *)
Fixpoint search (ignorecase : bool) (p : list atom) (s : string)
  : option (list string) :=
  match match_here ignorecase p s with
  | Some g => Some g
  | None =>
      match s with
      | String _ s' => search ignorecase p s'
      | EmptyString => None
      end
  end.

(** [m.group(i)] for [i >= 1]: [IndexError] when the pattern has fewer
    groups. *)
Definition group (m : list string) (i : nat) : result string :=
  match nth_error m (Nat.pred i) with
  | Some g => Ok g
  | None => Raise IndexError
  end.

(** [r'(\d+)\s*x\s*(\d+)'] *)
Definition re_size : list atom := [Digits; Spaces; Lit "x"; Spaces; Digits].
(** [r'Override size:\s*(\d+)\s*x\s*(\d+)'] *)
Definition re_override : list atom := lit "Override size:" ++ Spaces :: re_size.
(** [r'Physical size:\s*(\d+)\s*x\s*(\d+)'] *)
Definition re_physical : list atom := lit "Physical size:" ++ Spaces :: re_size.
(** [r'mDisplayWidth=(\d+)'] *)
Definition re_display_width : list atom := lit "mDisplayWidth=" ++ [Digits].
(** [r'mDisplayHeight=(\d+)'] *)
Definition re_display_height : list atom := lit "mDisplayHeight=" ++ [Digits].
(** [r'(\d+)x(\d+)'] *)
Definition re_wxh : list atom := [Digits; Lit "x"; Digits].

End Text.

(** ** The device bridge and the session state *)

(** What [subprocess.run] hands back when the process ran to its end. *)
Record Completed : Type := mkCompleted {
  returncode : Z;
  stdout : string;
  stderr : string }.

(** The outcome of spawning one process: it completes, or
    [subprocess.run] raises ([TimeoutExpired], [OSError], ...). *)
Definition Outcome : Type := result Completed.

(** A screen-size dict: [{'width': w, 'height': h}] with an optional
    ['is_override'] key. *)
Record Size : Type := mkSize {
  width : Z;
  height : Z;
  is_override : option bool }.

(** The zero-geometry sentinel [{'width': 0, 'height': 0}]. *)
Definition zero_size : Size := mkSize 0 0 None.

(** The dict [PhoneController.execute_command] returns.  ['error'] is
    the process's stderr, the text ['Command timeout'], or [str(e)] of
    the exception caught. *)
Inductive ErrorText : Type :=
| Stderr (s : string)
| Message (s : string)
| StrOf (e : exn).

Record CmdResult : Type := mkCmdResult {
  device_id : string;
  success : bool;
  output : option string;
  error : option ErrorText }.

(** The dicts [execute_on_slaves] and [mirror_tap] collect in
    [results]. *)
Record SlaveResult : Type := mkSlaveResult {
  device : string;
  delivered : bool;                (* 'success' *)
  coords : option (Z * Z);         (* 'coords', before formatting *)
  screen : option (Z * Z);         (* 'screen', before formatting *)
  failure : option exn }.          (* 'error' = str(e) *)

(** The mutable state of one controlling session: the bridge calls made
    so far, [PhoneController.devices], the two geometry caches of
    [ScreenMirrorController], and the variables the pynput callbacks
    close over. *)
Record Session : Type := mkSession {
  trace : list (list string);
  devices : list string;
  master_screen_size : option Size;
  slave_screen_sizes : gmap string Size;
  running : bool;
  hwnd : option Z;
  drag_start : option (Z * Z);
  drag_active : bool }.

Definition set_trace (t : list (list string)) (s : Session) : Session :=
  mkSession t (devices s) (master_screen_size s) (slave_screen_sizes s)
            (running s) (hwnd s) (drag_start s) (drag_active s).
Definition set_devices (d : list string) (s : Session) : Session :=
  mkSession (trace s) d (master_screen_size s) (slave_screen_sizes s)
            (running s) (hwnd s) (drag_start s) (drag_active s).
Definition set_master_screen_size (m : option Size) (s : Session) : Session :=
  mkSession (trace s) (devices s) m (slave_screen_sizes s)
            (running s) (hwnd s) (drag_start s) (drag_active s).
Definition set_slave_screen_sizes (m : gmap string Size) (s : Session) : Session :=
  mkSession (trace s) (devices s) (master_screen_size s) m
            (running s) (hwnd s) (drag_start s) (drag_active s).
Definition set_drag (p : option (Z * Z)) (a : bool) (s : Session) : Session :=
  mkSession (trace s) (devices s) (master_screen_size s) (slave_screen_sizes s)
            (running s) (hwnd s) p a.

(** [start_mirroring] and [stop_mirroring] set [running]; the window
    search of [_monitor_with_pynput] sets [hwnd]. *)
Definition set_listening (r : bool) (h : option Z) (s : Session) : Session :=
  mkSession (trace s) (devices s) (master_screen_size s) (slave_screen_sizes s)
            r h (drag_start s) (drag_active s).

(** Computations over a session that may raise.  The state survives an
    exception, as the attributes of a Python object do. *)
Definition M (A : Type) : Type := Session -> result A * Session.

Definition ret {A} (a : A) : M A := fun s => (Ok a, s).
Definition raise {A} (e : exn) : M A := fun s => (Raise e, s).
Definition bind {A B} (m : M A) (k : A -> M B) : M B :=
  fun s => match m s with
           | (Ok a, s') => k a s'
           | (Raise e, s') => (Raise e, s')
           end.
Definition lift {A} (r : result A) : M A := fun s => (r, s).
Definition get : M Session := fun s => (Ok s, s).
Definition modify (f : Session -> Session) : M unit := fun s => (Ok tt, f s).
(** [try: m  except Exception: h] *)
Definition try_except {A} (m : M A) (h : exn -> M A) : M A :=
  fun s => match m s with
           | (Ok a, s') => (Ok a, s')
           | (Raise e, s') => h e s'
           end.

Declare Scope py_scope.
Delimit Scope py_scope with py.
Notation "'do' x <- c ; k" := (bind c (fun x => k))
  (at level 10, x name, c at level 100, k at level 200) : py_scope.
Notation "c ;; k" := (bind c (fun _ => k))
  (at level 100, k at level 200, right associativity) : py_scope.
Open Scope py_scope.

Section Bridge.

(** The bridge: the answer to the [n]-th process spawned in the
    session, given its argument vector. *)
Variable adb : nat -> list string -> Outcome.

(** [subprocess.run(argv, capture_output=True, text=True, check=check)] *)
Definition subprocess_run (check : bool) (argv : list string) : M Completed :=
  fun s =>
    let s' := set_trace (trace s ++ [argv]) s in
    match adb (length (trace s)) argv with
    | Ok c =>
        if check && negb (returncode c =? 0)
        then (Raise CalledProcessError, s')
        else (Ok c, s')
    | Raise e => (Raise e, s')
    end.

(** *** PhoneController *)

Definition device_line (line : string) : bool :=
  negb (String.eqb (Text.strip line) "")
  && Text.contains (String Text.tab "device") line.

Definition scan_devices : M (list string) :=
  try_except
    (do r <- subprocess_run true ["adb"; "devices"];
     let lines := tl (Text.split_on Text.newline (Text.strip (stdout r))) in
     let found :=
       map (fun line => hd "" (Text.split_on Text.tab line))
           (filter device_line lines) in
     modify (set_devices found) ;;
     ret found)
    (fun _ => ret []).

Definition execute_command (device_id command : string) : M CmdResult :=
  try_except
    (do r <- subprocess_run false ["adb"; "-s"; device_id; "shell"; command];
     ret (mkCmdResult device_id (returncode r =? 0)
                      (Some (stdout r)) (Some (Stderr (stderr r)))))
    (fun e =>
       match e with
       | TimeoutExpired =>
           ret (mkCmdResult device_id false None
                            (Some (Message "Command timeout")))
       | _ => ret (mkCmdResult device_id false None (Some (StrOf e)))
       end).

(** [[f(d) for d in ds]], in order. *)
Fixpoint for_each {A B} (f : A -> M B) (l : list A) : M (list B) :=
  match l with
  | [] => ret []
  | a :: l' => do b <- f a; do bs <- for_each f l'; ret (b :: bs)
  end.

Section ExecuteAll.

(** The order in which [as_completed] yields the futures: some
    rearrangement of the results, decided by timing. *)
Variable as_completed : list CmdResult -> list CmdResult.

(** The workers are started in submission order, one per device; the
    results are collected as they complete. *)
Definition execute_all (command : string) (parallel : bool)
  : M (list CmdResult) :=
  do s <- get;
  match devices s with
  | [] => ret []
  | ds =>
      if parallel
      then do rs <- for_each (fun d => execute_command d command) ds;
           ret (as_completed rs)
      else for_each (fun d => execute_command d command) ds
  end.

Definition tap_all (x y : Z) : M (list CmdResult) :=
  execute_all ("input tap " ++ Text.str x ++ " " ++ Text.str y) true.

End ExecuteAll.

Definition tap (device_id : string) (x y : Z) : M CmdResult :=
  execute_command device_id ("input tap " ++ Text.str x ++ " " ++ Text.str y).

Definition escape (text : string) : string :=
  Text.replace "&" (String Text.backslash "&") (Text.replace " " "%s" text).

(** [f'input text "{text}"'] *)
Definition input_text_command (text : string) : string :=
  "input text " ++ Text.dquote ++ text ++ Text.dquote.

Definition input_text (device_id text : string) : M CmdResult :=
  let text := escape text in
  execute_command device_id (input_text_command text).

(** The size a two-group match gives. *)
Definition size_of_match (m : list string) (ov : option bool) : result Size :=
  (do w <~ Text.group m 1;
   do h <~ Text.group m 2;
   Ok (mkSize (Text.int_of_digits w) (Text.int_of_digits h) ov))%res.

(** The three searches both resolvers run over the output of [wm size],
    in the order of the source. *)
Definition parse_wm_size (output : string) : option (result Size) :=
  match Text.search true Text.re_override output with
  | Some m => Some (size_of_match m (Some true))
  | None =>
      match Text.search true Text.re_physical output with
      | Some m => Some (size_of_match m (Some false))
      | None =>
          match Text.search true Text.re_size output with
          | Some m => Some (size_of_match m (Some false))
          | None => None
          end
      end
  end.

(** The [dumpsys window displays] branch: [width_match.group(1)] and
    [height_match.group(2)], as written. *)
Definition parse_dumpsys (output : string) : option (result Size) :=
  match Text.search false Text.re_display_width output,
        Text.search false Text.re_display_height output with
  | Some wm, Some hm =>
      Some (do w <~ Text.group wm 1;
            do h <~ Text.group hm 2;
            Ok (mkSize (Text.int_of_digits w) (Text.int_of_digits h) None))%res
  | _, _ => None
  end.

(** [result['output']]: the key is absent from the dicts built in the
    [except] branches. *)
Definition item_output (r : CmdResult) : result string :=
  match output r with
  | Some o => Ok o
  | None => Raise KeyError
  end.

(** The second half of [get_screen_info]: "Alternative: Try using
    dumpsys window displays". *)
Definition get_screen_info_dumpsys (device_id : string) : M Size :=
  do result <- execute_command device_id "dumpsys window displays";
  do found <- (if success result
               then do output <- lift (item_output result);
                    ret (parse_dumpsys output)
               else ret None);
  match found with
  | Some size => lift size
  | None => ret zero_size
  end.

Definition get_screen_info (device_id : string) : M Size :=
  do result <- execute_command device_id "wm size";
  do found <- (if success result
               then do output <- lift (item_output result);
                    ret (parse_wm_size (Text.strip output))
               else ret None);
  match found with
  | Some size => lift size
  | None => get_screen_info_dumpsys device_id
  end.

(** *** ScreenMirrorController *)

Section Controller.

(** The endpoints, fixed when the controller is built. *)
Variable master_device : string.
Variable slave_devices : list string.

Definition shell (device command : string) : list string :=
  ["adb"; "-s"; device; "shell"; command].

Definition input_tap (x y : Z) : string :=
  "input tap " ++ Text.str x ++ " " ++ Text.str y.

Definition input_swipe (x1 y1 x2 y2 duration : Z) : string :=
  "input swipe " ++ Text.str x1 ++ " " ++ Text.str y1 ++ " "
  ++ Text.str x2 ++ " " ++ Text.str y2 ++ " " ++ Text.str duration.

(** The [try] block of [get_master_screen_size].  A size that is found
    is stored in [master_screen_size] and returned; [None] stands for
    leaving the block without a [return]. *)
Definition resolve_master : M (option Size) :=
  let store (size : Size) : M (option Size) :=
    modify (set_master_screen_size (Some size)) ;; ret (Some size) in
  do result <- subprocess_run true
                 ["adb"; "-s"; master_device; "shell"; "wm"; "size"];
  match parse_wm_size (Text.strip (stdout result)) with
  | Some found => do size <- lift found; store size
  | None =>
      do result <- subprocess_run true
                     ["adb"; "-s"; master_device; "shell";
                      "dumpsys"; "window"; "displays"];
      match parse_dumpsys (stdout result) with
      | Some found => do size <- lift found; store size
      | None => ret None
      end
  end.

(** The [try] block run, and the sentinel when it raised or found
    nothing.  The flag tells whether the dict returned is the very
    object [master_screen_size] now holds or a fresh one. *)
Definition resolve_or_sentinel : M (Size * bool) :=
  do r <- try_except resolve_master (fun _ => ret None);
  ret (match r with
       | Some size => (size, true)
       | None => (zero_size, false)
       end).

(** [get_master_screen_size], with the flag: a cache hit returns the
    cached object. *)
Definition get_master_screen_size_ref : M (Size * bool) :=
  do s <- get;
  match master_screen_size s with
  | Some cached =>
      if 0 <? width cached then ret (cached, true) else resolve_or_sentinel
  | None => resolve_or_sentinel
  end.

Definition get_master_screen_size : M Size :=
  do r <- get_master_screen_size_ref; ret (fst r).

(** [for slave in slaves: body(slave)] *)
Fixpoint for_ (l : list string) (body : string -> M unit) : M unit :=
  match l with
  | [] => ret tt
  | a :: l' => body a ;; for_ l' body
  end.

Definition cache_slave (slave : string) (size : Size) : M unit :=
  do s <- get;
  modify (set_slave_screen_sizes (<[slave := size]> (slave_screen_sizes s))).

Definition _cache_screen_sizes : M unit :=
  do size <- get_master_screen_size;
  modify (set_master_screen_size (Some size)) ;;
  for_ slave_devices (fun slave =>
    do size <- get_screen_info slave;
    if 0 <? width size then cache_slave slave size else ret tt).

(** [ScreenMirrorController(master_device, slave_devices)], from a
    session in which nothing has run. *)
Definition new_session : Session :=
  mkSession [] [] None ∅ false None None false.

Definition init : M unit :=
  modify (set_devices []) ;;
  scan_devices ;;
  modify (set_master_screen_size None) ;;
  modify (set_slave_screen_sizes ∅) ;;
  _cache_screen_sizes.

(** One pass of a loop that sends [command] to [slave] and records the
    outcome, as [execute_on_slaves] and the fallback of [mirror_tap]
    do. *)
Definition send_plain (slave command : string) : M SlaveResult :=
  try_except
    (do result <- subprocess_run false (shell slave command);
     ret (mkSlaveResult slave (returncode result =? 0) None None None))
    (fun e => ret (mkSlaveResult slave false None None (Some e))).

Definition execute_on_slaves (command : string) : M (list SlaveResult) :=
  for_each (fun slave => send_plain slave command) slave_devices.

(** The master's own command: sent inside [try], every exception
    swallowed. *)
Definition send_master (command : string) : M unit :=
  try_except
    (subprocess_run false (shell master_device command) ;; ret tt)
    (fun _ => ret tt).

(** "Get slave screen size (use cache if available)" *)
Definition slave_size_of (slave : string) : M Size :=
  do s <- get;
  match slave_screen_sizes s !! slave with
  | Some size => ret size
  | None =>
      do size <- get_screen_info slave;
      (if 0 <? width size then cache_slave slave size else ret tt) ;;
      ret size
  end.

(** The body of the slave loop of [mirror_tap]. *)
Definition tap_slave (x y : Z) (ratio_x ratio_y : Py.float) (slave : string)
  : M SlaveResult :=
  do slave_size <- slave_size_of slave;
  if (0 <? width slave_size) && (0 <? height slave_size)
  then
    do slave_x <- lift (Py.scaled (width slave_size) ratio_x);
    do slave_y <- lift (Py.scaled (height slave_size) ratio_y);
    let slave_x := Py.clamp slave_x (width slave_size - 1) in
    let slave_y := Py.clamp slave_y (height slave_size - 1) in
    try_except
      (do result <- subprocess_run false (shell slave (input_tap slave_x slave_y));
       ret (mkSlaveResult slave (returncode result =? 0)
              (Some (slave_x, slave_y))
              (Some (width slave_size, height slave_size)) None))
      (fun e => ret (mkSlaveResult slave false None None (Some e)))
  else send_plain slave (input_tap x y).

(** [mirror_tap] up to the point where [results] is read for the
    report: the value of the local [results] there, or the
    [UnboundLocalError] of reading it when no branch assigned it. *)
Definition mirror_tap_results (x y : Z) : M (list SlaveResult) :=
  do master_size <- get_master_screen_size;
  if (width master_size =? 0) || (height master_size =? 0)
  then
    send_master (input_tap x y) ;;
    match slave_devices with
    | [] => raise UnboundLocalError
    | _ => execute_on_slaves (input_tap x y)
    end
  else
    do ratio_x <- lift (Py.truediv x (width master_size));
    do ratio_y <- lift (Py.truediv y (height master_size));
    send_master (input_tap x y) ;;
    for_each (tap_slave x y ratio_x ratio_y) slave_devices.

Definition mirror_tap (x y : Z) : M unit :=
  mirror_tap_results x y ;; ret tt.

(** The body of the slave loop of [mirror_swipe]. *)
Definition swipe_slave (x1 y1 x2 y2 duration : Z)
    (ratio_x1 ratio_y1 ratio_x2 ratio_y2 : Py.float) (slave : string) : M unit :=
  do slave_size <- slave_size_of slave;
  if (0 <? width slave_size) && (0 <? height slave_size)
  then
    do slave_x1 <- lift (Py.scaled (width slave_size) ratio_x1);
    do slave_y1 <- lift (Py.scaled (height slave_size) ratio_y1);
    do slave_x2 <- lift (Py.scaled (width slave_size) ratio_x2);
    do slave_y2 <- lift (Py.scaled (height slave_size) ratio_y2);
    try_except
      (subprocess_run false
         (shell slave (input_swipe slave_x1 slave_y1 slave_x2 slave_y2 duration)) ;;
       ret tt)
      (fun _ => ret tt)
  else
    try_except
      (subprocess_run false (shell slave (input_swipe x1 y1 x2 y2 duration)) ;;
       ret tt)
      (fun _ => ret tt).

Definition mirror_swipe (x1 y1 x2 y2 duration : Z) : M unit :=
  do master_size <- get_master_screen_size;
  if (width master_size =? 0) || (height master_size =? 0)
  then
    send_master (input_swipe x1 y1 x2 y2 duration) ;;
    match slave_devices with
    | [] => ret tt
    | _ => execute_on_slaves (input_swipe x1 y1 x2 y2 duration) ;; ret tt
    end
  else
    do ratio_x1 <- lift (Py.truediv x1 (width master_size));
    do ratio_y1 <- lift (Py.truediv y1 (height master_size));
    do ratio_x2 <- lift (Py.truediv x2 (width master_size));
    do ratio_y2 <- lift (Py.truediv y2 (height master_size));
    send_master (input_swipe x1 y1 x2 y2 duration) ;;
    for_ slave_devices
      (swipe_slave x1 y1 x2 y2 duration ratio_x1 ratio_y1 ratio_x2 ratio_y2).

Definition mirror_key (keycode : string) : M unit :=
  send_master ("input keyevent " ++ keycode) ;;
  match slave_devices with
  | [] => ret tt
  | _ => execute_on_slaves ("input keyevent " ++ keycode) ;; ret tt
  end.

Definition mirror_text (text : string) : M unit :=
  match slave_devices with
  | [] => ret tt
  | _ =>
      let text := escape text in
      execute_on_slaves (input_text_command text) ;;
      ret tt
  end.

(** *** ScrcpyInputMirror: the pynput callbacks *)

(** What the window system answers about the mirroring window while one
    event is handled: [GetWindowRect] and [GetClientRect] as
    [(left, top, right, bottom)], [ClientToScreen(hwnd, (0, 0))]. *)
Record Window : Type := mkWindow {
  GetWindowRect : result (Z * Z * Z * Z);
  GetClientRect : result (Z * Z * Z * Z);
  ClientToScreen : result (Z * Z) }.

(** [mouse.Button] *)
Inductive Button : Type := button_left | button_right | button_middle.

(** The truth value of a window handle: [None] and [0] are false. *)
Definition truthy (hwnd : option Z) : bool :=
  match hwnd with
  | Some h => negb (h =? 0)
  | None => false
  end.

Definition is_point_in_window (x y : Z) (hwnd : option Z) (win : Window) : bool :=
  if negb (truthy hwnd) then false
  else match GetWindowRect win with
       | Ok (l, t, r, b) =>
           (l <=? x) && (x <=? r) && (t <=? y) && (y <=? b)
       | Raise _ => false
       end.

(** The client-relative position of a screen point, clamped to the
    client area. *)
Definition client_point (win_left win_top win_height client_width client_height : Z)
    (win : Window) (window_x window_y : Z) : Z * Z :=
  let '(client_screen_left, client_screen_top) :=
    match ClientToScreen win with
    | Ok p => p
    | Raise _ => (win_left, win_top + (win_height - client_height))
    end in
  let rel_x := window_x - client_screen_left in
  let rel_y := window_y - client_screen_top in
  (Z.max 0 (Z.min rel_x client_width), Z.max 0 (Z.min rel_y client_height)).

(** The scaling of a clamped client point to the phone, for a client
    area of positive width and height.  The debug [print] that follows
    the clamping in the source formats window coordinates as floats;
    those are Win32 [LONG]s, far below the range where [float(int)]
    overflows, so it cannot raise and is left out. *)
Definition scale_point (screen_size : Size) (client_width client_height : Z)
    (rel_x rel_y : Z) : result (option (Z * Z)) :=
  (do window_aspect <~ (if 0 <? client_height
                        then Py.truediv client_width client_height
                        else Ok (S754_zero false));
   do phone_aspect <~ (if 0 <? height screen_size
                       then Py.truediv (width screen_size) (height screen_size)
                       else Ok (S754_zero false));
   do scale_x <~ Py.truediv (width screen_size) client_width;
   do scale_y <~ Py.truediv (height screen_size) client_height;
   do phone <~
     (if Py.fgt (Py.fabs (Py.fsub window_aspect phone_aspect)) Py.f0_01
      then
        let scale := Py.fmin scale_x scale_y in
        if Py.fgt window_aspect phone_aspect
        then
          do visible_width <~
            (do v <~ Py.mul_int_float client_height phone_aspect;
             Py.int_of_float v);
          let letterbox_x := (client_width - visible_width) / 2 in
          if (rel_x <? letterbox_x) || (letterbox_x + visible_width <? rel_x)
          then Ok None
          else
            let content_x := rel_x - letterbox_x in
            do phone_x <~ Py.scaled content_x scale;
            do phone_y <~ Py.scaled rel_y scale;
            Ok (Some (phone_x, phone_y))
        else
          do visible_height <~
            (do v <~ Py.div_int_float client_width phone_aspect;
             Py.int_of_float v);
          let letterbox_y := (client_height - visible_height) / 2 in
          if (rel_y <? letterbox_y) || (letterbox_y + visible_height <? rel_y)
          then Ok None
          else
            let content_y := rel_y - letterbox_y in
            do phone_x <~ Py.scaled rel_x scale;
            do phone_y <~ Py.scaled content_y scale;
            Ok (Some (phone_x, phone_y))
      else
        do phone_x <~ Py.scaled rel_x scale_x;
        do phone_y <~ Py.scaled rel_y scale_y;
        Ok (Some (phone_x, phone_y)));
   match phone with
   | None => Ok None
   | Some (phone_x, phone_y) =>
       Ok (Some (Py.clamp phone_x (width screen_size - 1),
                 Py.clamp phone_y (height screen_size - 1)))
   end)%res.

(** The [try] block of [convert_to_phone_coords]. *)
Definition convert_main (screen_size : Size) (win : Window)
    (window_x window_y : Z) : result (option (Z * Z)) :=
  (do wr <~ GetWindowRect win;
   let '(win_left, win_top, win_right, win_bottom) := wr in
   let win_height := win_bottom - win_top in
   do cr <~ GetClientRect win;
   let '(client_left, client_top, client_right, client_bottom) := cr in
   let client_width := client_right - client_left in
   let client_height := client_bottom - client_top in
   let '(rel_x, rel_y) :=
     client_point win_left win_top win_height client_width client_height
                  win window_x window_y in
   if (0 <? client_width) && (0 <? client_height)
   then scale_point screen_size client_width client_height rel_x rel_y
   else Ok None)%res.

(** Its [except] block: scaling by the whole window rectangle. *)
Definition convert_fallback (screen_size : Size) (win : Window)
    (window_x window_y : Z) : result (option (Z * Z)) :=
  (do wr <~ GetWindowRect win;
   let '(win_left, win_top, win_right, win_bottom) := wr in
   let rel_x := window_x - win_left in
   let rel_y := window_y - win_top in
   let win_width := win_right - win_left in
   let win_height := win_bottom - win_top in
   if (0 <? win_width) && (0 <? win_height)
   then
     do scale_x <~ Py.truediv (width screen_size) win_width;
     do scale_y <~ Py.truediv (height screen_size) win_height;
     do phone_x <~ Py.scaled rel_x scale_x;
     do phone_y <~ Py.scaled rel_y scale_y;
     Ok (Some (Py.clamp phone_x (width screen_size),
               Py.clamp phone_y (height screen_size)))
   else Ok None)%res.

(** [(None, None)] is [None]; a pair of ints is [Some]. *)
Definition convert_with (screen_size : Size) (win : Window)
    (window_x window_y : Z) : option (Z * Z) :=
  if (width screen_size =? 0) || (height screen_size =? 0) then None
  else match convert_main screen_size win window_x window_y with
       | Ok p => p
       | Raise _ =>
           match convert_fallback screen_size win window_x window_y with
           | Ok p => p
           | Raise _ => None
           end
       end.

Definition convert_to_phone_coords (win : Window) (window_x window_y : Z)
  : M (option (Z * Z)) :=
  do screen_size <- get_master_screen_size;
  ret (convert_with screen_size win window_x window_y).

Definition drag_threshold : Z := 10.

(** [on_click(x, y, button, pressed)]; the value is what the callback
    returns ([None] when it falls off the end). *)
Definition on_click (win : Window) (x y : Z) (button : Button) (pressed : bool)
  : M (option bool) :=
  do s <- get;
  if negb (running s) then ret (Some false)
  else if negb (truthy (hwnd s)) then ret (Some true)
  else if is_point_in_window x y (hwnd s) win
  then
    match button with
    | button_left =>
        if pressed
        then
          do p <- convert_to_phone_coords win x y;
          match p with
          | Some (phone_x, phone_y) =>
              modify (set_drag (Some (phone_x, phone_y)) true) ;;
              get_master_screen_size ;;
              ret None
          | None => ret None
          end
        else
          match (if drag_active s then drag_start s else None) with
          | Some (start_x, start_y) =>
              do p <- convert_to_phone_coords win x y;
              match p with
              | Some (phone_x, phone_y) =>
                  let dx := Z.abs (phone_x - start_x) in
                  let dy := Z.abs (phone_y - start_y) in
                  if (drag_threshold <? dx) || (drag_threshold <? dy)
                  then mirror_swipe start_x start_y phone_x phone_y 300
                  else get_master_screen_size ;; mirror_tap phone_x phone_y
              | None => ret tt
              end ;;
              modify (set_drag None false) ;;
              ret None
          | None => ret None
          end
    | button_right =>
        if pressed then mirror_key "KEYCODE_BACK" ;; ret None else ret None
    | button_middle => ret None
    end
  else
    if drag_active s then modify (set_drag None false) ;; ret None
    else ret None.

Definition swipe_distance : Z := 300.

Definition on_scroll (win : Window) (x y dx dy : Z) : M (option bool) :=
  do s <- get;
  if negb (running s) then ret (Some false)
  else if truthy (hwnd s) && is_point_in_window x y (hwnd s) win
  then
    do p <- convert_to_phone_coords win x y;
    match p with
    | Some (phone_x, phone_y) =>
        if 0 <? dy
        then mirror_swipe phone_x (phone_y - swipe_distance)
                          phone_x (phone_y + swipe_distance) 300 ;; ret None
        else if dy <? 0
        then mirror_swipe phone_x (phone_y + swipe_distance)
                          phone_x (phone_y - swipe_distance) 300 ;; ret None
        else ret None
    | None => ret None
    end
  else ret None.

(** The start of [_monitor_adb_events]: when the master's size comes
    back with width 0, one more [wm size] is parsed and written into
    the dict returned, which may be the cached object itself. *)
Definition monitor_adb_events_setup : M unit :=
  do r <- get_master_screen_size_ref;
  let '(screen_size, shared) := r in
  if width screen_size =? 0
  then
    try_except
      (do result <- subprocess_run false
                      ["adb"; "-s"; master_device; "shell"; "wm"; "size"];
       match Text.search false Text.re_wxh (stdout result) with
       | Some m =>
           do w <- lift (Text.group m 1);
           do h <- lift (Text.group m 2);
           if shared
           then modify (set_master_screen_size
                          (Some (mkSize (Text.int_of_digits w)
                                        (Text.int_of_digits h)
                                        (is_override screen_size))))
           else ret tt
       | None => ret tt
       end)
      (fun _ => ret tt)
  else ret tt.

End Controller.
End Bridge.

(** ** Reference definitions the properties are stated against *)

(** Escaping, character by character: a space becomes [%s], an
    ampersand becomes a backslash and an ampersand, anything else stays. *)
Definition escape_char (c : ascii) : string :=
  if Ascii.eqb c " " then "%s"
  else if Ascii.eqb c "&" then String Text.backslash "&"
  else String c EmptyString.

Fixpoint escape_each (s : string) : string :=
  match s with
  | String c s' => escape_char c ++ escape_each s'
  | EmptyString => EmptyString
  end.

Definition wm_size_argv (master : string) : list string :=
  ["adb"; "-s"; master; "shell"; "wm"; "size"].

(** No usable master geometry is cached: none at all, or one whose
    width is not positive. *)
Definition master_cache_cold (s : Session) : Prop :=
  match master_screen_size s with
  | Some cached => (0 <? width cached) = false
  | None => True
  end.

(** The strategies run over the output of [wm size], in priority
    order: the pattern searched for and the ['is_override'] flag of the
    size it yields. *)
Definition strategies : list (list Text.atom * option bool) :=
  [(Text.re_override, Some true);
   (Text.re_physical, Some false);
   (Text.re_size, Some false)].

(** The first strategy whose pattern occurs decides; what it parsed is
    taken as it is. *)
Fixpoint first_match (l : list (list Text.atom * option bool)) (output : string)
  : option (result Size) :=
  match l with
  | [] => None
  | (p, ov) :: l' =>
      match Text.search true p output with
      | Some m => Some (size_of_match m ov)
      | None => first_match l' output
      end
  end.



(** What a computation returned, [[]] when it raised. *)
Definition value_of {A} (r : result (list A)) : list A :=
  match r with Ok l => l | Raise _ => [] end.

(** The value of a conversion that did not raise. *)
Definition value (r : result Z) : Z :=
  match r with Ok v => v | Raise _ => 0 end.

(** The point a slave of geometry [size] is sent for the ratios
    [ratio_x], [ratio_y] of a master point: each ratio scaled by the
    slave's dimension, truncated, and clamped to the slave's screen. *)
Definition slave_point (ratio_x ratio_y : Py.float) (size : Size) : Z * Z :=
  (Py.clamp (value (Py.scaled (width size) ratio_x)) (width size - 1),
   Py.clamp (value (Py.scaled (height size) ratio_y)) (height size - 1)).

(** The command a slave with cached geometry [size] is sent for a tap
    at [(x, y)]: the scaled point, or [(x, y)] itself when the geometry
    is not usable. *)
Definition slave_tap_command (x y : Z) (ratio_x ratio_y : Py.float)
    (size : Size) : string :=
  if (0 <? width size) && (0 <? height size)
  then input_tap (fst (slave_point ratio_x ratio_y size))
                 (snd (slave_point ratio_x ratio_y size))
  else input_tap x y.

(** Both scalings of a usable geometry go through. *)
Definition scales (ratio_x ratio_y : Py.float) (size : Size) : Prop :=
  (0 <? width size) && (0 <? height size) = true ->
  is_ok (Py.scaled (width size) ratio_x) = true
  /\ is_ok (Py.scaled (height size) ratio_y) = true.

Definition scalesb (ratio_x ratio_y : Py.float) (size : Size) : bool :=
  if (0 <? width size) && (0 <? height size)
  then is_ok (Py.scaled (width size) ratio_x)
       && is_ok (Py.scaled (height size) ratio_y)
  else true.

(** A command counts as delivered when its process exits with status 0. *)
Definition completed_ok (o : Outcome) : bool :=
  match o with
  | Ok c => returncode c =? 0
  | Raise _ => false
  end.

(** A bridge call that carries an [input ...] command, as opposed to a
    geometry query. *)
Definition is_input (argv : list string) : bool :=
  match argv with
  | [_; _; _; _; command] => String.prefix "input " command
  | _ => false
  end.

(** The input commands among [calls], each with its process number,
    when the first of [calls] is process number [n]. *)
Fixpoint inputs_from (n : nat) (calls : list (list string))
  : list (nat * list string) :=
  match calls with
  | [] => []
  | c :: cs =>
      (if is_input c then [(n, c)] else []) ++ inputs_from (S n) cs
  end.

(** From [s] to [s']: geometry queries were added to the trace and
    nothing else changed. *)
Definition queried : relation Session :=
  fun s s' =>
    exists q, s' = set_trace (trace s ++ q) s /\ forall n, inputs_from n q = [].

(** Every cached slave geometry scales. *)
Definition cached_scale (ratio_x ratio_y : Py.float) (s : Session) : Prop :=
  forall d size, slave_screen_sizes s !! d = Some size -> scales ratio_x ratio_y size.

(** Resolving the geometry of [d] never raises and gives a geometry
    that scales, whenever it is tried. *)
Definition resolves (adb : nat -> list string -> Outcome)
    (ratio_x ratio_y : Py.float) (d : string) : Prop :=
  forall s, exists size,
    fst (get_screen_info adb d s) = Ok size /\ scales ratio_x ratio_y size.

Section Passes.

Variable adb : nat -> list string -> Outcome.
Variables (x y : Z) (ratio_x ratio_y : Py.float).

(** What the slave loop of [mirror_tap] records and sends for the slave
    [d], in a loop that ends in session [s']: the entry [r] names [d];
    the call, spawned as process number [n], is the tap for some
    geometry [size] of [d], the one cached at the end when it has a
    positive width; and the entry's flag is the outcome of that call. *)
Definition pass (s' : Session) (d : string) (r : SlaveResult)
    (nc : nat * list string) : Prop :=
  device r = d
  /\ delivered r = completed_ok (adb (fst nc) (snd nc))
  /\ exists size,
       snd nc = shell d (slave_tap_command x y ratio_x ratio_y size)
       /\ scales ratio_x ratio_y size
       /\ (slave_screen_sizes s' !! d = Some size \/ (0 <? width size) = false).

(** One pass per slave, in order. *)
Inductive passes (s' : Session)
  : list string -> list SlaveResult -> list (nat * list string) -> Prop :=
| passes_nil : passes s' [] [] []
| passes_cons d ds r rs nc ncs :
    pass s' d r nc -> passes s' ds rs ncs ->
    passes s' (d :: ds) (r :: rs) (nc :: ncs).

End Passes.

(** [respects R m]: running [m] takes a session to one related to it by
    [R], whether [m] returns or raises. *)
Definition respects {A} (R : relation Session) (m : M A) : Prop :=
  forall s, R s (snd (m s)).

(** Two sessions that look the same through the view [f]. *)
Definition same {X} (f : Session -> X) : relation Session :=
  fun s s' => f s' = f s.

Abbreviation preserves f := (respects (same f)).

(** The two geometry caches. *)
Definition caches (s : Session) : option Size * gmap string Size :=
  (master_screen_size s, slave_screen_sizes s).

(** What the pynput callbacks close over. *)
Definition listener (s : Session) : bool * option Z * option (Z * Z) * bool :=
  (running s, hwnd s, drag_start s, drag_active s).

(** Everything but the trace. *)
Definition untraced (s : Session) :=
  (devices s, caches s, listener s).

(** Everything but the trace and the master's cached geometry. *)
Definition but_master (s : Session) :=
  (devices s, slave_screen_sizes s, listener s).

(** The part of a client area that shows the picture when the aspect
    ratios differ, as [(x0, y0, width, height)]: full height and
    centred horizontally when the window is the wider one, full width
    and centred vertically otherwise. *)
Definition visible_rect (client_width client_height : Z)
    (window_aspect phone_aspect : Py.float) : result (Z * Z * Z * Z) :=
  (if Py.fgt window_aspect phone_aspect
   then
     do v <~ Py.mul_int_float client_height phone_aspect;
     do visible_width <~ Py.int_of_float v;
     Ok ((client_width - visible_width) / 2, 0, visible_width, client_height)
   else
     do v <~ Py.div_int_float client_width phone_aspect;
     do visible_height <~ Py.int_of_float v;
     Ok (0, (client_height - visible_height) / 2, client_width, visible_height))%res.

(** A client point lies on the rectangle, edges included. *)
Definition inside (rect : Z * Z * Z * Z) (x y : Z) : bool :=
  let '(x0, y0, w, h) := rect in
  (x0 <=? x) && (x <=? x0 + w) && (y0 <=? y) && (y <=? y0 + h).

(** The classifier of the specification: a press at [start] and a
    release at [stop], both mapped, make a drag when either axis moved
    by more than the threshold, a tap at the release point otherwise. *)
Inductive Gesture : Type :=
| Tap (p : Z * Z)
| Drag (start stop : Z * Z).

Definition classify (start stop : Z * Z) : Gesture :=
  if (10 <? Z.abs (fst stop - fst start)) || (10 <? Z.abs (snd stop - snd start))
  then Drag start stop
  else Tap stop.

(** What the release handler runs for a gesture. *)
Definition emit (adb : nat -> list string -> Outcome) (master_device : string)
    (slave_devices : list string) (g : Gesture) : M unit :=
  match g with
  | Tap (x, y) =>
      get_master_screen_size adb master_device ;;
      mirror_tap adb master_device slave_devices x y
  | Drag (x1, y1) (x2, y2) =>
      mirror_swipe adb master_device slave_devices x1 y1 x2 y2 300
  end.

(** *** The life of a session *)

(** What can happen to a controller once it is built: the calls of its
    public methods and the events the listener is handed. *)
Inductive Op : Type :=
| GetMasterScreenSize
| MirrorTap (x y : Z)
| MirrorSwipe (x1 y1 x2 y2 duration : Z)
| MirrorKey (keycode : string)
| MirrorText (text : string)
| Listen (running : bool) (hwnd : option Z)
| OnClick (win : Window) (x y : Z) (button : Button) (pressed : bool)
| OnScroll (win : Window) (x y dx dy : Z)
| MonitorAdbEvents.

Section Life.

Variable adb : nat -> list string -> Outcome.
Variable master_device : string.
Variable slave_devices : list string.

Definition run (op : Op) : M unit :=
  match op with
  | GetMasterScreenSize => get_master_screen_size adb master_device ;; ret tt
  | MirrorTap x y => mirror_tap adb master_device slave_devices x y
  | MirrorSwipe x1 y1 x2 y2 duration =>
      mirror_swipe adb master_device slave_devices x1 y1 x2 y2 duration
  | MirrorKey keycode => mirror_key adb master_device slave_devices keycode
  | MirrorText text => mirror_text adb slave_devices text
  | Listen r h => modify (set_listening r h)
  | OnClick win x y button pressed =>
      on_click adb master_device slave_devices win x y button pressed ;; ret tt
  | OnScroll win x y dx dy =>
      on_scroll adb master_device slave_devices win x y dx dy ;; ret tt
  | MonitorAdbEvents => monitor_adb_events_setup adb master_device
  end.

(** The session after [ops], each run to its return or its exception. *)
Definition exec (ops : list Op) (s : Session) : Session :=
  fold_left (fun s op => snd (run op s)) ops s.

(** The session a freshly built controller starts from. *)
Definition started : Session :=
  snd (init adb master_device slave_devices new_session).

End Life.

(** Every cached slave geometry has a positive width. *)
Definition widths_positive (s : Session) : Prop :=
  forall d size, slave_screen_sizes s !! d = Some size -> 0 < width size.

Definition keeps_positive : relation Session :=
  fun s s' => widths_positive s -> widths_positive s'.

(** From [s] to [s']: every cached slave geometry is still cached,
    unchanged; a cached master geometry of positive width is still the
    cached one; and the slave widths stay positive. *)
Definition settled : relation Session :=
  fun s s' =>
    (forall d size,
       slave_screen_sizes s !! d = Some size ->
       slave_screen_sizes s' !! d = Some size)
    /\ (forall size,
          master_screen_size s = Some size -> 0 < width size ->
          master_screen_size s' = Some size)
    /\ keeps_positive s s'.

(** ** Scenarios *)

Module Scenario.

Definition nl : string := String Text.newline EmptyString.

Definition completed (out : string) : Outcome := Ok (mkCompleted 0 out "").

Definition physical (wxh : string) : Outcome :=
  completed ("Physical size: " ++ wxh ++ nl).

(** A master [M] of 1080x2400 and one slave [S1] of 720x1600; every
    command succeeds. *)
Definition two_phones (n : nat) (argv : list string) : Outcome :=
  match argv with
  | ["adb"; "-s"; "M"; "shell"; "wm"; "size"] => physical "1080x2400"
  | ["adb"; "-s"; "S1"; "shell"; "wm size"] => physical "720x1600"
  | _ => completed ""
  end.

Definition two_phones_ready : Session :=
  snd (init two_phones "M" ["S1"] new_session).



(** A device on which [wm size] prints nothing and the display dump
    names both dimensions. *)
Definition dump_output : string :=
  "  mDisplayWidth=1080 mDisplayHeight=2400" ++ nl.

Definition dump_only (n : nat) (argv : list string) : Outcome :=
  match argv with
  | ["adb"; "-s"; _; "shell"; "dumpsys window displays"] => completed dump_output
  | ["adb"; "-s"; _; "shell"; "dumpsys"; "window"; "displays"] =>
      completed dump_output
  | _ => completed ""
  end.

(** [wm size] on a phone with display scaling in force. *)
Definition scaled_display_output : string :=
  "Physical size: 1080x2400" ++ nl ++ "Override size: 720x1600" ++ nl.

Definition scaled_display (n : nat) (argv : list string) : Outcome :=
  match argv with
  | ["adb"; "-s"; _; "shell"; "wm size"] => completed scaled_display_output
  | ["adb"; "-s"; _; "shell"; "wm"; "size"] => completed scaled_display_output
  | _ => completed ""
  end.

(** The listener started on that session, with the mirroring window
    found under handle 1. *)
Definition listening (s : Session) : Session := set_listening true (Some 1) s.

(** A mirroring window whose client area is the master's screen, pixel
    for pixel, at the origin of the desktop. *)
Definition full_window : Window :=
  mkWindow (Ok (0, 0, 1080, 2400)) (Ok (0, 0, 1080, 2400)) (Ok (0, 0)).

(** A square window of 1000x1000 around the same screen: the picture
    is 450 wide and centred, with a bar of 275 on either side. *)
Definition square_window : Window :=
  mkWindow (Ok (0, 0, 1000, 1000)) (Ok (0, 0, 1000, 1000)) (Ok (0, 0)).

(** A master [M] of 1080x2400 and three slaves of 720x1600; the tap
    sent to [S2] times out. *)
Definition one_timeout (n : nat) (argv : list string) : Outcome :=
  match argv with
  | ["adb"; "-s"; "M"; "shell"; "wm"; "size"] => physical "1080x2400"
  | ["adb"; "-s"; _; "shell"; "wm size"] => physical "720x1600"
  | ["adb"; "-s"; "S2"; "shell"; _] => Raise TimeoutExpired
  | _ => completed ""
  end.

Definition four_phones_ready : Session :=
  snd (init one_timeout "M" ["S1"; "S2"; "S3"] new_session).

(** A master [M] of 1080x2400 and three slaves: [S1] of 720x1600; [S2],
    whose geometry cannot be resolved ([wm size] exits with status 1
    and the dump shows nothing); [S3] of 720x1600, on which every input
    command times out. *)
Definition rough (n : nat) (argv : list string) : Outcome :=
  match argv with
  | ["adb"; "-s"; "M"; "shell"; "wm"; "size"] => physical "1080x2400"
  | ["adb"; "-s"; "S2"; "shell"; "wm size"] => Ok (mkCompleted 1 "" "")
  | ["adb"; "-s"; _; "shell"; "wm size"] => physical "720x1600"
  | ["adb"; "-s"; _; "shell"; "dumpsys window displays"] => completed ""
  | ["adb"; "-s"; "S3"; "shell"; _] => Raise TimeoutExpired
  | _ => completed ""
  end.

Definition rough_ready : Session :=
  snd (init rough "M" ["S1"; "S2"; "S3"] new_session).

(** A slave whose [wm size] reports a height of 0. *)
Definition flat_slave (n : nat) (argv : list string) : Outcome :=
  match argv with
  | ["adb"; "-s"; "M"; "shell"; "wm"; "size"] => physical "1080x2400"
  | ["adb"; "-s"; "S1"; "shell"; "wm size"] => physical "1080x0"
  | _ => completed ""
  end.

End Scenario.

(** ** The rest of the two controllers, and their callers *)

Module Str.

(** [str.lower] on one character below 256: the letters [A-Z] and the
    accented capitals [192..222] but the multiplication sign. *)
Definition lower_char (c : ascii) : ascii :=
  let n := Text.code c in
  if (((65 <=? n) && (n <=? 90))
      || ((192 <=? n) && (n <=? 222) && negb (n =? 215)))%N
  then ascii_of_N (n + 32) else c.

Fixpoint lower (s : string) : string :=
  match s with
  | String c s' => String (lower_char c) (lower s')
  | EmptyString => EmptyString
  end.

(** Every character of [s] passes [p]. *)
Fixpoint all (p : ascii -> bool) (s : string) : bool :=
  match s with
  | String c s' => p c && all p s'
  | EmptyString => true
  end.

(** A text without white space, as a serial number or a state name of
    [adb devices] is. *)
Definition solid (s : string) : bool := all (fun c => negb (Text.is_space c)) s.

End Str.

Section PhoneControllerRest.

Variable adb : nat -> list string -> Outcome.

(** [PhoneController.install_app]: success is read off the text the
    installer prints, not off its exit status. *)
Definition install_app (device_id apk_path : string) : M CmdResult :=
  try_except
    (do result <- subprocess_run adb false
                    ["adb"; "-s"; device_id; "install"; apk_path];
     ret (mkCmdResult device_id (Text.contains "Success" (stdout result))
                      (Some (stdout result)) None))
    (fun e => ret (mkCmdResult device_id false None (Some (StrOf e)))).

Section InstallAll.

Variable as_completed : list CmdResult -> list CmdResult.

(** [install_app_all] builds its pool with [max_workers=len(devices)]
    and has no test for an empty list: [ThreadPoolExecutor] refuses
    [max_workers=0] with [ValueError]. *)
Definition install_app_all (apk_path : string) : M (list CmdResult) :=
  do s <- get;
  match devices s with
  | [] => raise ValueError
  | ds =>
      do rs <- for_each (fun d => install_app d apk_path) ds;
      ret (as_completed rs)
  end.

End InstallAll.

(** The dict [take_screenshot] returns. *)
Record Screenshot : Type := mkScreenshot {
  shot_device : string;
  shot_success : bool;
  shot_path : option string;
  shot_error : option exn }.

Definition screencap_argv (device_id : string) : list string :=
  ["adb"; "-s"; device_id; "shell"; "screencap"; "-p"; "/sdcard/screenshot.png"].

Definition pull_argv (device_id save_path : string) : list string :=
  ["adb"; "-s"; device_id; "pull"; "/sdcard/screenshot.png"; save_path].

(** [take_screenshot(device_id, save_path=None)]: both processes run
    with [check=True]. *)
Definition take_screenshot (device_id : string) (save_path : option string)
  : M Screenshot :=
  let save_path :=
    match save_path with
    | Some p => p
    | None => "screenshot_" ++ device_id ++ ".png"
    end in
  try_except
    (subprocess_run adb true (screencap_argv device_id) ;;
     subprocess_run adb true (pull_argv device_id save_path) ;;
     ret (mkScreenshot device_id true (Some save_path) None))
    (fun e => ret (mkScreenshot device_id false None (Some e))).

(** The [commands] dict of [get_device_info], in insertion order. *)
Definition commands : list (string * string) :=
  [("model", "getprop ro.product.model");
   ("brand", "getprop ro.product.brand");
   ("android_version", "getprop ro.build.version.release");
   ("serial", "getprop ro.serialno")].

(** [for key, cmd in commands.items(): ...] over the dict [info]. *)
Fixpoint get_device_info_loop (device_id : string)
    (items : list (string * string)) (info : gmap string string)
  : M (gmap string string) :=
  match items with
  | [] => ret info
  | (key, cmd) :: items' =>
      do result <- execute_command adb device_id cmd;
      do info <- (if success result
                  then do output <- lift (item_output result);
                       ret (<[key := Text.strip output]> info)
                  else ret info);
      get_device_info_loop device_id items' info
  end.

Definition get_device_info (device_id : string) : M (gmap string string) :=
  get_device_info_loop device_id commands ∅.

(** *** WiFiADBManager and main *)

(** [WiFiADBManager.get_wifi_devices]: the devices of [adb devices]
    whose serial has a colon, as [IP:PORT] has. *)
Definition get_wifi_devices : M (list string) :=
  try_except
    (do result <- subprocess_run adb true ["adb"; "devices"];
     let lines := tl (Text.split_on Text.newline (Text.strip (stdout result))) in
     ret (flat_map
            (fun line =>
               if device_line line
               then
                 let device_id := hd "" (Text.split_on Text.tab line) in
                 if Text.contains ":" device_id then [device_id] else []
               else [])
            lines))
    (fun _ => ret []).

End PhoneControllerRest.

Section Main.

(** [int(user_input)] on a text: what it parses, or the [ValueError]. *)
Variable int_ : string -> result Z.

(** "Step 2: Select Master Device" of [main]: the number typed picks the
    master, the other devices are the slaves; anything else falls back
    to the first device. *)
Definition select_master (wifi_devices : list string) (typed : string)
  : result (string * list string) :=
  let user_input := Text.strip typed in
  let attempt : result (string * list string) :=
    (do choice <~ (if String.eqb user_input "" then Ok 0
                   else do n <~ int_ user_input; Ok (n - 1));
     if (choice <? 0) || (Z.of_nat (length wifi_devices) <=? choice)
     then Raise ValueError
     else
       match nth_error wifi_devices (Z.to_nat choice) with
       | Some master =>
           Ok (master,
               filter (fun d => negb (String.eqb d master)) wifi_devices)
       | None => Raise IndexError
       end)%res in
  match attempt with
  | Ok chosen => Ok chosen
  | Raise ValueError | Raise IndexError =>
      match wifi_devices with
      | master :: slaves => Ok (master, slaves)
      | [] => Raise IndexError
      end
  | Raise e => Raise e
  end.

End Main.

(** *** The window search of [_monitor_with_pynput] *)

(** A top-level window as [EnumWindows] hands it to the callback. *)
Record TopWindow : Type := mkTopWindow {
  handle : Z;
  is_visible : bool;         (* IsWindowVisible *)
  title : string }.        (* GetWindowText *)

(** The test of [enum_handler]. *)
Definition is_scrcpy_window (window_title : string) (w : TopWindow) : bool :=
  is_visible w
  && (Text.contains (Str.lower window_title) (Str.lower (title w))
      || Text.contains "scrcpy" (Str.lower (title w))).

(** [get_scrcpy_window()]: [windows[0] if windows else None]. *)
Definition get_scrcpy_window (window_title : string) (desktop : list TopWindow)
  : option Z :=
  match filter (is_scrcpy_window window_title) desktop with
  | w :: _ => Some (handle w)
  | [] => None
  end.

(** The list [find_any_scrcpy] collects. *)
Definition find_any_scrcpy (desktop : list TopWindow) : list (Z * string) :=
  map (fun w => (handle w, title w))
      (filter (fun w => is_visible w && Text.contains "scrcpy" (Str.lower (title w)))
              desktop).

(** [for attempt in range(max_attempts): hwnd = get_scrcpy_window();
    if hwnd: break], with the desktop as it is at each look. *)
Fixpoint poll_window (window_title : string) (desktop_at : nat -> list TopWindow)
    (attempt attempts_left : nat) (hwnd : option Z) : option Z :=
  match attempts_left with
  | O => hwnd
  | S attempts_left' =>
      let hwnd := get_scrcpy_window window_title (desktop_at attempt) in
      if truthy hwnd then hwnd
      else poll_window window_title desktop_at (S attempt) attempts_left' hwnd
  end.

Definition max_attempts : nat := 100.

(** The handle the listener is started with; [None] when the search
    gives up and [_monitor_with_pynput] returns. *)
Definition find_window (window_title : string)
    (desktop_at : nat -> list TopWindow) : option Z :=
  let hwnd := poll_window window_title desktop_at 0 max_attempts None in
  if truthy hwnd then hwnd
  else match find_any_scrcpy (desktop_at max_attempts) with
       | (h, _) :: _ => Some h
       | [] => None
       end.

(** ** Further reference definitions *)

(** What [adb devices] prints: the header, one row [serial<TAB>state]
    per device, and an empty line. *)
Definition device_row (row : string * string) : string :=
  fst row ++ String Text.tab (snd row).

Fixpoint device_rows (rows : list (string * string)) : string :=
  match rows with
  | [] => EmptyString
  | row :: rows' => String Text.newline (device_row row) ++ device_rows rows'
  end.

Definition adb_devices_output (header : string) (rows : list (string * string))
  : string :=
  header ++ device_rows rows
  ++ String Text.newline (String Text.newline EmptyString).

(** A row counts as a ready device when its state starts with
    [device]. *)
Definition ready (row : string * string) : bool := String.prefix "device" (snd row).

(** The first and the last character of a text are not white space. *)
Definition trimmed (s : string) : bool :=
  match s, Text.rev s with
  | String c _, String d _ => negb (Text.is_space c) && negb (Text.is_space d)
  | _, _ => false
  end.

(** What the [wm size] strategy of [get_screen_info] makes of the
    outcome of its process. *)
Definition wm_size_answer (o : Outcome) : option (result Size) :=
  match o with
  | Ok c => if returncode c =? 0
            then parse_wm_size (Text.strip (stdout c)) else None
  | Raise _ => None
  end.

(** The display dump ran and shows both [mDisplayWidth=] and
    [mDisplayHeight=]. *)
Definition dump_found (o : Outcome) : bool :=
  match o with
  | Ok c =>
      (returncode c =? 0)
      && match Text.search false Text.re_display_width (stdout c),
               Text.search false Text.re_display_height (stdout c) with
         | Some _, Some _ => true
         | _, _ => false
         end
  | Raise _ => false
  end.

(** What a [getprop] sent as process number [n] puts in the dict of
    [get_device_info]. *)
Definition getprop (adb : nat -> list string -> Outcome) (device_id : string)
    (n : nat) (cmd : string) : option string :=
  match adb n (shell device_id cmd) with
  | Ok c => if returncode c =? 0 then Some (Text.strip (stdout c)) else None
  | Raise _ => None
  end.

(** The swipe a slave of geometry [size] is sent for the four ratios of
    a master swipe: each end scaled and truncated, as it comes, or the
    master's own end points when the geometry is not usable. *)
Definition slave_swipe_command (x1 y1 x2 y2 duration : Z)
    (ratio_x1 ratio_y1 ratio_x2 ratio_y2 : Py.float) (size : Size) : string :=
  if (0 <? width size) && (0 <? height size)
  then input_swipe (value (Py.scaled (width size) ratio_x1))
                   (value (Py.scaled (height size) ratio_y1))
                   (value (Py.scaled (width size) ratio_x2))
                   (value (Py.scaled (height size) ratio_y2))
                   duration
  else input_swipe x1 y1 x2 y2 duration.

(** The four scalings of a usable geometry go through. *)
Definition scales_swipe (ratio_x1 ratio_y1 ratio_x2 ratio_y2 : Py.float)
    (size : Size) : bool :=
  if (0 <? width size) && (0 <? height size)
  then is_ok (Py.scaled (width size) ratio_x1)
       && is_ok (Py.scaled (height size) ratio_y1)
       && is_ok (Py.scaled (width size) ratio_x2)
       && is_ok (Py.scaled (height size) ratio_y2)
  else true.

(** The geometry cached for a slave, the sentinel when there is none. *)
Definition cached_size (s : Session) (slave : string) : Size :=
  default zero_size (slave_screen_sizes s !! slave).

(** From [s] to [s']: the trace grew by calls none of which carries an
    input command. *)
Definition only_asked : relation Session :=
  fun s s' =>
    exists q, trace s' = (trace s ++ q)%list /\ forall n, inputs_from n q = [].

(** The origin of the client area on the desktop, as
    [convert_to_phone_coords] takes it: from [ClientToScreen], or
    estimated from the window rectangle when that call fails. *)
Definition client_origin (win : Window) : option (Z * Z) :=
  match GetWindowRect win, GetClientRect win with
  | Ok (win_left, win_top, _, win_bottom), Ok (_, client_top, _, client_bottom) =>
      Some match ClientToScreen win with
           | Ok p => p
           | Raise _ =>
               (win_left,
                win_top + ((win_bottom - win_top) - (client_bottom - client_top)))
           end
  | _, _ => None
  end.

(** The point of the client area nearest to a desktop point. *)
Definition nearest_client_point (win : Window) (x y : Z) : Z * Z :=
  match client_origin win, GetClientRect win with
  | Some (ox, oy), Ok (client_left, client_top, client_right, client_bottom) =>
      (Z.max ox (Z.min x (ox + (client_right - client_left))),
       Z.max oy (Z.min y (oy + (client_bottom - client_top))))
  | _, _ => (x, y)
  end.

(** The shape of what [adb devices] prints: a header line that starts
    and ends on a visible character, and rows whose serial and state
    hold no white space, the state not empty. *)
Definition header_ok (header : string) : bool :=
  trimmed header && Str.all (fun c => negb (Ascii.eqb c Text.newline)) header.

Definition row_ok (row : string * string) : bool :=
  Str.solid (fst row) && Str.solid (snd row) && negb (String.eqb (snd row) "").

(** Every ampersand of [s] comes right after a backslash. *)
Fixpoint amp_guarded (after_backslash : bool) (s : string) : bool :=
  match s with
  | String c s' =>
      (if Ascii.eqb c "&" then after_backslash else true)
      && amp_guarded (Ascii.eqb c Text.backslash) s'
  | EmptyString => true
  end.

(** The number of groups of a pattern. *)
Fixpoint groups (p : list Text.atom) : nat :=
  match p with
  | [] => O
  | Text.Digits :: p' => S (groups p')
  | _ :: p' => groups p'
  end.

Definition install_argv (device_id apk_path : string) : list string :=
  ["adb"; "-s"; device_id; "install"; apk_path].

(** The dict [install_app] returns when its process is number [n]. *)
Definition install_outcome (adb : nat -> list string -> Outcome) (apk_path : string)
    (n : nat) (device_id : string) : CmdResult :=
  match adb n (install_argv device_id apk_path) with
  | Ok c => mkCmdResult device_id (Text.contains "Success" (stdout c))
                        (Some (stdout c)) None
  | Raise e => mkCmdResult device_id false None (Some (StrOf e))
  end.

(** The entry [execute_on_slaves] records for a slave whose command is
    process number [n]. *)
Definition slave_outcome (adb : nat -> list string -> Outcome) (command : string)
    (n : nat) (slave : string) : SlaveResult :=
  match adb n (shell slave command) with
  | Ok c => mkSlaveResult slave (returncode c =? 0) None None None
  | Raise e => mkSlaveResult slave false None None (Some e)
  end.

(** The check the loop of [_monitor_with_pynput] makes every five
    seconds: when no mirroring window is seen and a handle is held, the
    handle is replaced by what a second look finds.  The desktop may
    differ between the two looks. *)
Definition recheck_window (window_title : string)
    (first_look second_look : list TopWindow) : M unit :=
  do s <- get;
  let current_hwnd := get_scrcpy_window window_title first_look in
  if negb (truthy current_hwnd) && truthy (hwnd s)
  then modify (set_listening (running s)
                 (get_scrcpy_window window_title second_look))
  else ret tt.

(** The session after a run of such checks. *)
Definition watch (window_title : string)
    (checks : list (list TopWindow * list TopWindow)) (s : Session) : Session :=
  fold_left (fun s looks => snd (recheck_window window_title (fst looks) (snd looks) s))
            checks s.

Module More.

(** A master of 1080x2400, a slave [S1] of 720x1600, and a slave [S2]
    on which [wm size] prints nothing usable while the display dump
    names both dimensions. *)
Definition bad_slave (n : nat) (argv : list string) : Outcome :=
  match argv with
  | ["adb"; "-s"; "M"; "shell"; "wm"; "size"] => Scenario.physical "1080x2400"
  | ["adb"; "-s"; "S2"; "shell"; "dumpsys window displays"] =>
      Scenario.completed Scenario.dump_output
  | ["adb"; "-s"; "S1"; "shell"; "wm size"] => Scenario.physical "720x1600"
  | _ => Scenario.completed ""
  end.

(** [adb devices] with three rows, one of them offline. *)
Definition three_rows : list (string * string) :=
  [("192.168.1.100:5555", "device"); ("192.168.1.101:5555", "offline");
   ("emulator-5554", "device")].

Definition adb_devices (n : nat) (argv : list string) : Outcome :=
  match argv with
  | ["adb"; "devices"] =>
      Scenario.completed (adb_devices_output "List of devices attached" three_rows)
  | _ => Scenario.completed ""
  end.

(** A master whose geometry cannot be resolved. *)
Definition blind_master (n : nat) (argv : list string) : Outcome :=
  match argv with
  | ["adb"; "-s"; "S1"; "shell"; "wm size"] => Scenario.physical "720x1600"
  | _ => Scenario.completed ""
  end.

(** A desktop with a hidden window, an editor and two mirroring
    windows. *)
Definition desktop : list TopWindow :=
  [mkTopWindow 11 false "scrcpy"; mkTopWindow 12 true "Editor";
   mkTopWindow 13 true "Phone Master - Control Here";
   mkTopWindow 14 true "SCRCPY 2.4"].

(** A mirroring window with a title bar of 30 and a border of 8 around
    a client area of 1080x2400. *)
Definition framed_window : Window :=
  mkWindow (Ok (100, 100, 1196, 2538)) (Ok (0, 0, 1080, 2400)) (Ok (108, 130)).

End More.

(** * Properties *)

(** ** The session monad *)

Section MonadFacts.

Variable adb : nat -> list string -> Outcome.

Lemma bind_ok {A B} (m : M A) (k : A -> M B) s a s' :
  m s = (Ok a, s') -> bind m k s = k a s'.
Proof. intros H. unfold bind. now rewrite H. Qed.


(** One bridge call: the trace grows by the argument vector and nothing
    else changes. *)
Lemma subprocess_run_state check argv s :
  snd (subprocess_run adb check argv s) = set_trace (trace s ++ [argv]) s.
Proof.
  unfold subprocess_run.
  destruct (adb _ _) as [c|e]; [destruct (check && _)|]; reflexivity.
Qed.

(** A command sent inside [try ... except] always comes back. *)
Lemma send_plain_spec slave command s :
  send_plain adb slave command s =
  (Ok (match adb (length (trace s)) (shell slave command) with
       | Ok c => mkSlaveResult slave (returncode c =? 0) None None None
       | Raise e => mkSlaveResult slave false None None (Some e)
       end),
   set_trace (trace s ++ [shell slave command]) s).
Proof.
  unfold send_plain, try_except, bind, subprocess_run, ret. simpl.
  destruct (adb _ _); reflexivity.
Qed.

Lemma send_master_spec master command s :
  send_master adb master command s =
  (Ok tt, set_trace (trace s ++ [shell master command]) s).
Proof.
  unfold send_master, try_except, bind, subprocess_run, ret. simpl.
  destruct (adb _ _); reflexivity.
Qed.

Lemma execute_command_spec d command s :
  execute_command adb d command s =
  (Ok (match adb (length (trace s)) (shell d command) with
       | Ok c => mkCmdResult d (returncode c =? 0)
                             (Some (stdout c)) (Some (Stderr (stderr c)))
       | Raise TimeoutExpired =>
           mkCmdResult d false None (Some (Message "Command timeout"))
       | Raise e => mkCmdResult d false None (Some (StrOf e))
       end),
   set_trace (trace s ++ [shell d command]) s).
Proof.
  unfold execute_command, try_except, bind, subprocess_run, ret, shell. simpl.
  destruct (adb _ _) as [c|[]]; reflexivity.
Qed.

End MonadFacts.

Section Dispatch.

Variable adb : nat -> list string -> Outcome.

Lemma set_trace_set_trace t1 t2 s :
  set_trace t2 (set_trace t1 s) = set_trace t2 s.
Proof. reflexivity. Qed.

Lemma set_trace_id s : set_trace (trace s) s = s.
Proof. now destruct s. Qed.

Lemma for_each_execute_command command ds s :
  exists rs,
    for_each (fun d => execute_command adb d command) ds s =
      (Ok rs, set_trace (trace s ++ map (fun d => shell d command) ds) s)
    /\ map device_id rs = ds.
Proof.
  revert s. induction ds as [|d ds IH]; intros s; simpl.
  - exists []. rewrite app_nil_r, set_trace_id. now split.
  - erewrite bind_ok by apply execute_command_spec.
    destruct (IH (set_trace (trace s ++ [shell d command]) s)) as (rs & Hrs & Hids).
    erewrite bind_ok by exact Hrs.
    eexists. split.
    + unfold ret. simpl. rewrite set_trace_set_trace, <- app_assoc. reflexivity.
    + simpl. f_equal; [|exact Hids].
      now destruct (adb _ _) as [c|[]].
Qed.

Lemma for_each_send_plain slaves command s :
  exists rs,
    for_each (fun d => send_plain adb d command) slaves s =
      (Ok rs, set_trace (trace s ++ map (fun d => shell d command) slaves) s)
    /\ map device rs = slaves.
Proof.
  revert s. induction slaves as [|d ds IH]; intros s; simpl.
  - exists []. rewrite app_nil_r, set_trace_id. now split.
  - erewrite bind_ok by apply send_plain_spec.
    destruct (IH (set_trace (trace s ++ [shell d command]) s)) as (rs & Hrs & Hids).
    erewrite bind_ok by exact Hrs.
    eexists. split.
    + unfold ret. simpl. rewrite set_trace_set_trace, <- app_assoc. reflexivity.
    + simpl. f_equal; [|exact Hids].
      now destruct (adb _ _).
Qed.

(** C10.  [execute_all] on an empty device list returns [[]] and
    leaves the session as it was: nothing is sent.  On a non-empty list
    every device is sent the command once, in list order, and the value
    returned holds exactly one result per device: in list order when
    sequential, in completion order when parallel. *)
Theorem execute_all_one_result_per_device
    (as_completed : list CmdResult -> list CmdResult)
    (Hperm : forall l, Permutation (as_completed l) l)
    (command : string) (parallel : bool) (s : Session) :
  (devices s = [] ->
     execute_all adb as_completed command parallel s = (Ok [], s))
  /\ exists rs,
       execute_all adb as_completed command parallel s =
         (Ok rs, set_trace (trace s ++ map (fun d => shell d command) (devices s)) s)
       /\ length rs = length (devices s)
       /\ Permutation (map device_id rs) (devices s)
       /\ (parallel = false -> map device_id rs = devices s).
Proof.
  split.
  - intros Hd. unfold execute_all, bind, get. now rewrite Hd.
  - unfold execute_all, bind at 1, get.
    destruct (devices s) as [|d ds] eqn:Hd.
    + exists []. simpl. rewrite app_nil_r, set_trace_id. repeat split; auto.
    + destruct (for_each_execute_command command (d :: ds) s) as (rs & Hrs & Hids).
      destruct parallel.
      * exists (as_completed rs). erewrite bind_ok by exact Hrs.
        unfold ret. split; [reflexivity|].
        assert (Hp : Permutation (map device_id (as_completed rs)) (d :: ds)).
        { rewrite <- Hids. apply Permutation_map, Hperm. }
        repeat split; [|exact Hp|discriminate].
        rewrite <- (length_map device_id). now apply Permutation_length.
      * exists rs. rewrite Hrs. split; [reflexivity|].
        repeat split; [|now rewrite Hids|auto].
        now rewrite <- (length_map device_id), Hids.
Qed.

End Dispatch.

(** Two devices, the results collected in the reverse of submission
    order. *)
Lemma execute_all_one_result_per_device_witness :
  let s := set_devices ["M"; "S1"] new_session in
  exists rs,
    execute_all Scenario.two_phones (@List.rev CmdResult)
                "input keyevent KEYCODE_HOME" true s =
      (Ok rs,
       set_trace (trace s ++ map (fun d => shell d "input keyevent KEYCODE_HOME")
                                 (devices s)) s)
    /\ length rs = length (devices s)
    /\ Permutation (map device_id rs) (devices s)
    /\ (true = false -> map device_id rs = devices s).
Proof.
  intros s.
  exact (proj2 (execute_all_one_result_per_device
                  Scenario.two_phones (@List.rev CmdResult)
                  (fun l => Permutation_sym (Permutation_rev l))
                  "input keyevent KEYCODE_HOME" true s)).
Defined.


(** ** Text dispatch *)

Lemma replace_amp_escape_char c rest :
  Text.replace "&" (String Text.backslash "&")
    (Text.replace " " "%s" (String c rest)) =
  escape_char c ++
  Text.replace "&" (String Text.backslash "&") (Text.replace " " "%s" rest).
Proof.
  unfold escape_char. simpl.
  destruct (Ascii.eqb c " ") eqn:Hsp; simpl.
  - reflexivity.
  - now destruct (Ascii.eqb c "&").
Qed.

(** The two [replace] passes of the source escape each character on its
    own: the [%s] the first pass writes holds no ampersand. *)
Lemma escape_is_escape_each text : escape text = escape_each text.
Proof.
  unfold escape. induction text as [|c rest IH]; [reflexivity|].
  rewrite replace_amp_escape_char, IH. reflexivity.
Qed.

(** C8, as the code has it.  [mirror_text] sends
    [input text "<escaped>"] to every slave, in list order, where the
    text is escaped character by character (space to [%s], ampersand to
    backslash-ampersand) and no coordinate is involved; the master is
    sent nothing, and with no slave nothing is sent at all. *)
Theorem mirror_text_reaches_slaves_only
    (adb : nat -> list string -> Outcome)
    (slave_devices : list string) (text : string) (s : Session) :
  mirror_text adb slave_devices text s =
  (Ok tt,
   set_trace
     (trace s ++
      map (fun slave => shell slave (input_text_command (escape_each text)))
          slave_devices) s).
Proof.
  unfold mirror_text. destruct slave_devices as [|d ds] eqn:Hs.
  - simpl. now rewrite app_nil_r, set_trace_id.
  - rewrite <- Hs. unfold execute_on_slaves.
    destruct (for_each_send_plain adb slave_devices
                (input_text_command (escape text)) s)
      as (rs & Hrs & _).
    erewrite bind_ok by exact Hrs.
    rewrite escape_is_escape_each. reflexivity.
Qed.

(** C8 as stated fails: with master [M] and slave [S1], dispatching the
    text [a b&c] sends one command, to [S1]; [M] is sent nothing. *)
Lemma mirror_text_skips_master :
  let s := Scenario.two_phones_ready in
  let s' := snd (mirror_text Scenario.two_phones ["S1"] "a b&c" s) in
  trace s' =
    (trace s ++ [["adb"; "-s"; "S1"; "shell";
                  input_text_command "a%sb\&c"]])%list
  /\ Forall (fun argv => nth_error argv 2 <> Some "M")
            (skipn (length (trace s)) (trace s')).
Proof.
  vm_compute. split; [reflexivity|].
  repeat constructor. discriminate.
Qed.

(** ** Geometry resolution *)

Lemma parse_wm_size_first_match output :
  parse_wm_size output = first_match strategies output.
Proof.
  unfold parse_wm_size, strategies. simpl.
  repeat (destruct (Text.search true _ output); [reflexivity|]).
  reflexivity.
Qed.

Section Resolution.

Variable adb : nat -> list string -> Outcome.





End Resolution.



(** C7 fails on the code.  When [wm size] gives nothing and the dump
    names both dimensions, [height_match.group(2)] raises [IndexError]
    out of [get_screen_info]: the pattern has one group.  The master's
    resolver runs the same line inside its [try] and answers the
    sentinel. *)
Lemma get_screen_info_raises_on_dump :
  fst (get_screen_info Scenario.dump_only "S1" new_session) = Raise IndexError
  /\ fst (get_master_screen_size Scenario.dump_only "M" new_session) = Ok zero_size.
Proof. split; vm_compute; reflexivity. Qed.


(** ** What a computation leaves alone *)

Lemma inputs_from_app n a b :
  inputs_from n (a ++ b) = (inputs_from n a ++ inputs_from (n + length a) b)%list.
Proof.
  revert n. induction a as [|c a IH]; intros n; simpl.
  - now rewrite Nat.add_0_r.
  - rewrite IH, <- app_assoc.
    now replace (S n + length a)%nat with (n + S (length a))%nat by lia.
Qed.

Global Instance same_preorder {X} (f : Session -> X) : PreOrder (same f).
Proof.
  split.
  - intros s. reflexivity.
  - intros s1 s2 s3 H12 H23. unfold same in *. congruence.
Qed.

Section Respects.

Variable adb : nat -> list string -> Outcome.
Context (R : relation Session) `{!PreOrder R}.

Lemma respects_ret {A} (a : A) : respects R (ret a).
Proof. intros s. reflexivity. Qed.

Lemma respects_raise {A} e : respects R (@raise A e).
Proof. intros s. reflexivity. Qed.

Lemma respects_lift {A} (r : result A) : respects R (lift r).
Proof. intros s. reflexivity. Qed.

Lemma respects_get : respects R get.
Proof. intros s. reflexivity. Qed.

Lemma respects_bind {A B} (m : M A) (k : A -> M B) :
  respects R m -> (forall a, respects R (k a)) -> respects R (bind m k).
Proof.
  intros Hm Hk s. unfold bind. specialize (Hm s).
  destruct (m s) as [[a|e] s']; simpl in *.
  - etransitivity; [exact Hm | apply Hk].
  - exact Hm.
Qed.

Lemma respects_try_except {A} (m : M A) (h : exn -> M A) :
  respects R m -> (forall e, respects R (h e)) -> respects R (try_except m h).
Proof.
  intros Hm Hh s. unfold try_except. specialize (Hm s).
  destruct (m s) as [[a|e] s']; simpl in *.
  - exact Hm.
  - etransitivity; [exact Hm | apply Hh].
Qed.

Lemma respects_modify (g : Session -> Session) :
  (forall s, R s (g s)) -> respects R (modify g).
Proof. intros Hg s. apply Hg. Qed.

Lemma respects_for_each {A B} (body : A -> M B) (l : list A) :
  (forall a, respects R (body a)) -> respects R (for_each body l).
Proof.
  intros Hb. induction l as [|a l IH]; simpl.
  - apply respects_ret.
  - apply respects_bind; [apply Hb|]. intros b.
    apply respects_bind; [exact IH|]. intros bs. apply respects_ret.
Qed.

Lemma respects_for_ (body : string -> M unit) (l : list string) :
  (forall a, respects R (body a)) -> respects R (for_ l body).
Proof.
  intros Hb. induction l as [|a l IH]; simpl.
  - apply respects_ret.
  - apply respects_bind; [apply Hb|]. intros _. exact IH.
Qed.

Lemma respects_subprocess_run check argv :
  (forall s, R s (set_trace (trace s ++ [argv]) s)) ->
  respects R (subprocess_run adb check argv).
Proof. intros Ht s. rewrite subprocess_run_state. apply Ht. Qed.

(** A computation that keeps a view [f] respects every relation that
    only looks at [f]. *)
Lemma respects_of_preserves {X A} (f : Session -> X) (m : M A) :
  (forall s s', f s' = f s -> R s s') ->
  preserves f m -> respects R m.
Proof. intros HR Hm s. apply HR, Hm. Qed.

End Respects.

Create HintDb frames discriminated.

Ltac frame_side :=
  intros; first [ unfold same; reflexivity | solve [eauto with frames] ].

(** Decompose a computation of the model along its monadic structure. *)
Ltac frame_step :=
  first
    [ match goal with |- PreOrder _ => typeclasses eauto end
    | apply respects_ret | apply respects_raise | apply respects_lift
    | apply respects_get
    | apply respects_subprocess_run; frame_side
    | apply respects_modify; frame_side
    | solve [eauto with frames]
    | apply respects_bind; [| |intros ?]
    | apply respects_try_except; [| |intros ?]
    | apply respects_for_each; [|intros ?]
    | apply respects_for_; [|intros ?]
    | match goal with
      | |- respects _ (match ?x with _ => _ end) => destruct x eqn:?
      | |- respects _ (let '(_, _) := ?x in _) => destruct x
      end ].

Ltac frame := repeat frame_step.

(** From [s] to [s']: geometry queries were added to the trace and
    nothing else happened. *)
Global Instance queried_preorder : PreOrder queried.
Proof.
  split.
  - intros s. exists []. split; [|reflexivity].
    now rewrite app_nil_r, set_trace_id.
  - intros s1 s2 s3 (q1 & -> & H1) (q2 & -> & H2). exists (q1 ++ q2)%list. split.
    + simpl. now rewrite set_trace_set_trace, app_assoc.
    + intros n. now rewrite inputs_from_app, H1, H2.
Qed.

Lemma queried_query argv s :
  is_input argv = false -> queried s (set_trace (trace s ++ [argv]) s).
Proof.
  intros H. exists [argv]. split; [reflexivity|].
  intros n. simpl. now rewrite H.
Qed.

#[export] Hint Resolve queried_query : frames.

Section FrameFacts.

Variable adb : nat -> list string -> Outcome.
Variable master_device : string.
Variable slave_devices : list string.

Lemma execute_command_untraced d command :
  preserves untraced (execute_command adb d command).
Proof. unfold execute_command. frame. Qed.
Hint Resolve execute_command_untraced : frames.

Lemma get_screen_info_untraced d :
  preserves untraced (get_screen_info adb d).
Proof. unfold get_screen_info, get_screen_info_dumpsys. frame. Qed.

(** Resolving a geometry only adds queries to the trace. *)
Lemma get_screen_info_queried d : respects queried (get_screen_info adb d).
Proof. unfold get_screen_info, get_screen_info_dumpsys, execute_command. frame. Qed.

Lemma send_plain_untraced d command :
  preserves untraced (send_plain adb d command).
Proof. unfold send_plain. frame. Qed.
Hint Resolve send_plain_untraced : frames.

Lemma send_master_untraced command :
  preserves untraced (send_master adb master_device command).
Proof. unfold send_master. frame. Qed.

Lemma execute_on_slaves_untraced command :
  preserves untraced (execute_on_slaves adb slave_devices command).
Proof. unfold execute_on_slaves. frame. Qed.

Lemma get_master_screen_size_ref_but_master :
  preserves but_master (get_master_screen_size_ref adb master_device).
Proof.
  unfold get_master_screen_size_ref, resolve_or_sentinel, resolve_master. frame.
Qed.
Hint Resolve get_master_screen_size_ref_but_master : frames.

Lemma get_master_screen_size_but_master :
  preserves but_master (get_master_screen_size adb master_device).
Proof. unfold get_master_screen_size. frame. Qed.

End FrameFacts.

#[export] Hint Resolve execute_command_untraced get_screen_info_untraced
  send_plain_untraced send_master_untraced execute_on_slaves_untraced
  get_master_screen_size_ref_but_master get_master_screen_size_but_master
  : frames.

(** ** Tap and swipe dispatch *)

Lemma is_input_slave_tap d x y rx ry size :
  is_input (shell d (slave_tap_command x y rx ry size)) = true.
Proof. unfold slave_tap_command. now destruct (_ && _). Qed.

(** Split a conjunction into its parts, and nothing else. *)
Ltac splits := repeat match goal with |- _ /\ _ => split end.

Section TapDispatch.

Variable adb : nat -> list string -> Outcome.
Variable master_device : string.

Lemma get_master_screen_size_cached s size :
  master_screen_size s = Some size ->
  0 < width size ->
  get_master_screen_size adb master_device s = (Ok size, s).
Proof.
  intros Hm Hw. unfold get_master_screen_size, get_master_screen_size_ref.
  unfold bind at 1. unfold bind at 1. unfold get at 1. rewrite Hm.
  apply Z.ltb_lt in Hw. rewrite Hw. reflexivity.
Qed.

Lemma slave_size_of_cached d s size :
  slave_screen_sizes s !! d = Some size ->
  slave_size_of adb d s = (Ok size, s).
Proof.
  intros Hd. unfold slave_size_of, bind, get. now rewrite Hd.
Qed.

(** On a miss, a geometry that resolves is returned after its queries
    and is cached when its width is positive. *)
Lemma slave_size_of_miss d s size :
  slave_screen_sizes s !! d = None ->
  fst (get_screen_info adb d s) = Ok size ->
  exists q,
    (forall n, inputs_from n q = [])
    /\ slave_size_of adb d s =
         (Ok size,
          let s1 := set_trace (trace s ++ q) s in
          if 0 <? width size
          then set_slave_screen_sizes (<[d := size]> (slave_screen_sizes s)) s1
          else s1).
Proof.
  intros Hmiss Hsize.
  destruct (get_screen_info_queried adb d s) as (q & Hq & Hnone).
  exists q. split; [exact Hnone|].
  unfold slave_size_of, bind at 1, get at 1. rewrite Hmiss.
  unfold bind at 1.
  destruct (get_screen_info adb d s) as [r s1]. simpl in Hsize, Hq. subst r s1.
  unfold bind, cache_slave, bind, get, modify, ret.
  destruct (0 <? width size); reflexivity.
Qed.

Section Loop.

Variables (x y : Z) (rx ry : Py.float).

(** One pass of the slave loop of [mirror_tap], once the slave's
    geometry is known: one command, the scaled tap or the plain one,
    and an entry whose flag is that command's outcome. *)
Lemma tap_slave_sends d s size s1 :
  slave_size_of adb d s = (Ok size, s1) ->
  scales rx ry size ->
  let call := shell d (slave_tap_command x y rx ry size) in
  exists r,
    tap_slave adb x y rx ry d s =
      (Ok r, set_trace (trace s1 ++ [call]) s1)
    /\ device r = d
    /\ delivered r = completed_ok (adb (length (trace s1)) call).
Proof.
  intros Hsize Hsc call. subst call. unfold tap_slave.
  erewrite bind_ok by exact Hsize.
  unfold slave_tap_command, slave_point.
  destruct ((0 <? width size) && (0 <? height size)) eqn:Hres.
  - destruct (Hsc Hres) as [Hx Hy].
    destruct (Py.scaled (width size) rx) as [px|] eqn:Epx; [|discriminate].
    destruct (Py.scaled (height size) ry) as [py|] eqn:Epy; [|discriminate].
    unfold bind at 1, lift at 1. unfold bind at 1, lift at 1.
    unfold try_except, bind, subprocess_run, ret. simpl.
    destruct (adb _ _) as [c|e]; eexists; repeat split; reflexivity.
  - rewrite send_plain_spec. eexists. split; [reflexivity|].
    destruct (adb _ _); split; reflexivity.
Qed.

(** The slave loop of [mirror_tap] runs to its end whatever the bridge
    answers to the taps: every slave is sent one input command and gets
    one entry. *)
Lemma for_each_tap_slave slaves s :
  cached_scale rx ry s ->
  (forall d, In d slaves -> slave_screen_sizes s !! d = None ->
             resolves adb rx ry d) ->
  exists rs s' new,
    for_each (tap_slave adb x y rx ry) slaves s = (Ok rs, s')
    /\ trace s' = (trace s ++ new)%list
    /\ passes adb x y rx ry s' slaves rs (inputs_from (length (trace s)) new)
    /\ (forall d size, slave_screen_sizes s !! d = Some size ->
                       slave_screen_sizes s' !! d = Some size).
Proof.
  revert s. induction slaves as [|d ds IH]; intros s Hcached Hfresh; simpl.
  - exists [], s, []. rewrite app_nil_r. splits; auto. constructor.
  - (* the geometry of the first slave *)
    assert (Hsize : exists size s1 q,
               slave_size_of adb d s = (Ok size, s1)
               /\ scales rx ry size
               /\ trace s1 = (trace s ++ q)%list
               /\ (forall n, inputs_from n q = [])
               /\ (slave_screen_sizes s1 !! d = Some size
                   \/ (0 <? width size) = false)
               /\ cached_scale rx ry s1
               /\ (forall d' size', slave_screen_sizes s !! d' = Some size' ->
                                    slave_screen_sizes s1 !! d' = Some size')).
    { destruct (slave_screen_sizes s !! d) as [size|] eqn:Hd.
      - exists size, s, []. rewrite app_nil_r.
        splits; eauto using slave_size_of_cached.
      - destruct (Hfresh d (or_introl eq_refl) Hd s) as (size & Hinfo & Hsc).
        destruct (slave_size_of_miss d s size Hd Hinfo) as (q & Hq & Hs1).
        eexists size, _, q. split; [exact Hs1|].
        destruct (0 <? width size) eqn:Hw; simpl; splits; auto.
        + left. apply lookup_insert_eq.
        + intros d' size'. simpl. rewrite lookup_insert.
          destruct (decide (d = d')); [intros [= <-]; exact Hsc | apply Hcached].
        + intros d' size' Hd'. rewrite lookup_insert_ne; [exact Hd'|congruence]. }
    destruct Hsize as (size & s1 & q & Hs1 & Hsc & Hq & Hnone & Hkept & Hc1 & Hmono1).
    destruct (tap_slave_sends d s size s1 Hs1 Hsc) as (r & Hr & Hdev & Hdel).
    erewrite bind_ok by exact Hr.
    set (call := shell d (slave_tap_command x y rx ry size)) in *.
    (* the rest of the loop *)
    destruct (IH (set_trace (trace s1 ++ [call]) s1)) as (rs & s' & new & Hrs & Ht & Hp & Hmono).
    { exact Hc1. }
    { intros d' Hin Hd'. apply Hfresh; [now right|].
      destruct (slave_screen_sizes s !! d') eqn:E; [|reflexivity].
      apply Hmono1 in E. simpl in Hd'. congruence. }
    erewrite bind_ok by exact Hrs.
    exists (r :: rs), s', (q ++ call :: new)%list. unfold ret.
    simpl in Ht, Hmono. rewrite Hq in Ht. splits.
    + reflexivity.
    + rewrite Ht, <- !app_assoc. reflexivity.
    + rewrite inputs_from_app, Hnone. cbn [app inputs_from].
      unfold call at 1. rewrite is_input_slave_tap. cbn [app].
      constructor.
      * unfold pass. cbn [fst snd]. splits; [exact Hdev| |].
        -- rewrite Hdel, Hq, length_app. reflexivity.
        -- exists size. splits; auto.
           destruct Hkept as [Hk|Hk]; [left; now apply Hmono | now right].
      * cbn [trace set_trace] in Hp. rewrite Hq, !length_app in Hp.
        cbn [length] in Hp.
        now replace (S (length (trace s) + length q))
          with (length (trace s) + length q + 1)%nat by lia.
    + intros d' size' Hd'. now apply Hmono, Hmono1.
Qed.

End Loop.

(** [mirror_tap] when the master's geometry resolves: the master's
    command, then the slave loop. *)
Lemma mirror_tap_results_resolved slaves s x y msize s0 rx ry :
  get_master_screen_size adb master_device s = (Ok msize, s0) ->
  0 < width msize -> 0 < height msize ->
  Py.truediv x (width msize) = Ok rx ->
  Py.truediv y (height msize) = Ok ry ->
  mirror_tap_results adb master_device slaves x y s =
    for_each (tap_slave adb x y rx ry) slaves
      (set_trace (trace s0 ++ [shell master_device (input_tap x y)]) s0).
Proof.
  intros Hm Hw Hh Hrx Hry. unfold mirror_tap_results.
  erewrite bind_ok by exact Hm.
  assert (Hnz : (width msize =? 0) || (height msize =? 0) = false).
  { apply orb_false_iff. split; apply Z.eqb_neq; lia. }
  rewrite Hnz, Hrx, Hry.
  unfold bind at 1, lift at 1. unfold bind at 1, lift at 1.
  erewrite bind_ok by apply send_master_spec. reflexivity.
Qed.

(** A cache whose every entry passes the test scales. *)
Lemma cached_scale_check rx ry s :
  forallb (fun entry => scalesb rx ry (snd entry))
          (map_to_list (slave_screen_sizes s)) = true ->
  cached_scale rx ry s.
Proof.
  intros Hall d size Hd. rewrite forallb_forall in Hall.
  apply elem_of_map_to_list, list_elem_of_In in Hd.
  specialize (Hall _ Hd). simpl in Hall.
  unfold scalesb in Hall. unfold scales. intros Hres. rewrite Hres in Hall.
  now apply andb_true_iff in Hall.
Qed.

End TapDispatch.

Section PassesFacts.

Variable adb : nat -> list string -> Outcome.
Variables (x y : Z) (rx ry : Py.float).

Lemma passes_devices s' slaves rs taps :
  passes adb x y rx ry s' slaves rs taps ->
  map device rs = slaves /\ length taps = length slaves.
Proof.
  induction 1 as [|d ds r rs' nc ncs Hpass _ [IH1 IH2]]; simpl; [now split|].
  destruct Hpass as (Hd & _). now rewrite Hd, IH1, IH2.
Qed.

Lemma passes_outcomes s' slaves rs taps :
  passes adb x y rx ry s' slaves rs taps ->
  Forall2
    (fun r nc =>
       (exists command, snd nc = shell (device r) command)
       /\ delivered r = completed_ok (adb (fst nc) (snd nc)))
    rs taps.
Proof.
  induction 1 as [|d ds r rs' nc ncs Hpass _ IH]; [constructor|].
  constructor; [|exact IH].
  destruct Hpass as (Hd & Hdel & size & Hc & _). split; [|exact Hdel].
  rewrite Hd, Hc. eauto.
Qed.


End PassesFacts.

Section MirrorTap.

Variable adb : nat -> list string -> Outcome.
Variable master_device : string.
Variable slave_devices : list string.
Variables (s s0 : Session) (x y : Z) (msize : Size) (rx ry : Py.float).

(** The master's geometry resolves, from the cache or from the bridge,
    and the tap's ratios are taken on it. *)
Hypothesis master_resolves :
  get_master_screen_size adb master_device s = (Ok msize, s0).
Hypothesis master_w : 0 < width msize.
Hypothesis master_h : 0 < height msize.
Hypothesis ratio_x : Py.truediv x (width msize) = Ok rx.
Hypothesis ratio_y : Py.truediv y (height msize) = Ok ry.

(** No slave's geometry makes the loop raise: those cached scale, and
    those yet to be resolved resolve without raising and scale. *)
Hypothesis cached_ok : cached_scale rx ry s.
Hypothesis fresh_ok :
  forall d, In d slave_devices -> slave_screen_sizes s !! d = None ->
            resolves adb rx ry d.

Lemma mirror_tap_results_runs :
  exists rs s' new taps,
    mirror_tap_results adb master_device slave_devices x y s = (Ok rs, s')
    /\ trace s' = (trace s0 ++ new)%list
    /\ inputs_from (length (trace s0)) new =
         (length (trace s0), shell master_device (input_tap x y)) :: taps
    /\ passes adb x y rx ry s' slave_devices rs taps.
Proof.
  pose proof (get_master_screen_size_but_master adb master_device s) as Hb.
  rewrite master_resolves in Hb. unfold same, but_master in Hb. simpl in Hb.
  assert (Hslaves : slave_screen_sizes s0 = slave_screen_sizes s) by congruence.
  rewrite (mirror_tap_results_resolved adb master_device slave_devices
             s x y msize s0 rx ry) by assumption.
  set (s1 := set_trace (trace s0 ++ [shell master_device (input_tap x y)]) s0).
  destruct (for_each_tap_slave adb x y rx ry slave_devices s1)
    as (rs & s' & new & Hrs & Ht & Hp & _).
  { intros d size Hd. apply (cached_ok d size). simpl in Hd. congruence. }
  { intros d Hin Hd. apply fresh_ok; [exact Hin|]. simpl in Hd. congruence. }
  exists rs, s', (shell master_device (input_tap x y) :: new)%list.
  exists (inputs_from (length (trace s1)) new). splits.
  - exact Hrs.
  - rewrite Ht. subst s1. simpl. now rewrite <- app_assoc.
  - simpl. subst s1. simpl. rewrite length_app. simpl.
    now rewrite Nat.add_1_r.
  - exact Hp.
Qed.


(** C5, as the code has it.  When the master's geometry resolves and no
    geometry makes the slave loop raise, [mirror_tap] sends the
    master's tap and then one tap to every slave, whatever the bridge
    answers to any of them (exit status, timeout, any exception), and
    [results] holds one entry per slave, in list order, and none for
    the master; an entry's success flag is the outcome of that slave's
    own command. *)
Theorem mirror_tap_results_one_per_slave :
  exists rs s' new taps,
    mirror_tap_results adb master_device slave_devices x y s = (Ok rs, s')
    /\ trace s' = (trace s0 ++ new)%list
    /\ inputs_from (length (trace s0)) new =
         (length (trace s0), shell master_device (input_tap x y)) :: taps
    /\ map device rs = slave_devices
    /\ length taps = length slave_devices
    /\ Forall2
         (fun r nc =>
            (exists command, snd nc = shell (device r) command)
            /\ delivered r = completed_ok (adb (fst nc) (snd nc)))
         rs taps.
Proof.
  destruct mirror_tap_results_runs as (rs & s' & new & taps & Hrun & Ht & Hin & Hp).
  exists rs, s', new, taps.
  destruct (passes_devices adb x y rx ry s' slave_devices rs taps Hp)
    as [Hdev Hlen].
  splits; try assumption.
  now apply (passes_outcomes adb x y rx ry s' slave_devices rs taps).
Qed.

End MirrorTap.



Lemma rough_S2_resolves rx ry : resolves Scenario.rough rx ry "S2".
Proof.
  intros s1. exists zero_size. split; [|intros H; discriminate H].
  unfold get_screen_info, get_screen_info_dumpsys.
  erewrite bind_ok by apply execute_command_spec.
  cbn -[Text.strip parse_dumpsys]. reflexivity.
Qed.

(** One master and three slaves: the second slave's geometry cannot be
    resolved and the third slave's tap times out.  All three are sent a
    tap, the second at the master's own coordinates, and [results] has
    three entries, the last one a failure. *)
Lemma mirror_tap_results_one_per_slave_witness :
  let s := Scenario.rough_ready in
  slave_screen_sizes s !! "S2" = None
  /\ exists rs s',
       mirror_tap_results Scenario.rough "M" ["S1"; "S2"; "S3"] 540 1200 s
         = (Ok rs, s')
       /\ map device rs = ["S1"; "S2"; "S3"]
       /\ map delivered rs = [true; true; false]
       /\ map snd (inputs_from (length (trace s))
                               (skipn (length (trace s)) (trace s'))) =
            [shell "M" "input tap 540 1200";
             shell "S1" "input tap 360 800";
             shell "S2" "input tap 540 1200";
             shell "S3" "input tap 360 800"].
Proof.
  intros s. split; [vm_compute; reflexivity|].
  destruct (mirror_tap_results_one_per_slave
              Scenario.rough "M" ["S1"; "S2"; "S3"] s s 540 1200
              (mkSize 1080 2400 (Some false))
              (S754_finite false 4503599627370496 (-53))
              (S754_finite false 4503599627370496 (-53)))
    as (rs & s' & new & taps & Hrun & _ & _ & Hdev & _);
    try (vm_compute; reflexivity).
  { apply cached_scale_check. vm_compute. reflexivity. }
  { intros d [<-|[<-|[<-|[]]]] H; try (vm_compute in H; discriminate H).
    apply rough_S2_resolves. }
  exists rs, s'. split; [exact Hrun|]. split; [exact Hdev|].
  replace rs with (value_of (fst (mirror_tap_results Scenario.rough "M"
                                    ["S1"; "S2"; "S3"] 540 1200 s)))
    by now rewrite Hrun.
  replace s' with (snd (mirror_tap_results Scenario.rough "M"
                          ["S1"; "S2"; "S3"] 540 1200 s))
    by now rewrite Hrun.
  split; vm_compute; reflexivity.
Defined.

(** C5 as stated fails on the size of the result set: with one master
    and three slaves, one slave timing out, [results] has three
    entries, not four; the master's outcome is not recorded. *)
Lemma mirror_tap_results_leave_master_out :
  exists rs,
    fst (mirror_tap_results Scenario.one_timeout "M" ["S1"; "S2"; "S3"]
           540 1200 Scenario.four_phones_ready) = Ok rs
    /\ map device rs = ["S1"; "S2"; "S3"]
    /\ length rs <> 4%nat
    /\ length (filter (fun r => negb (delivered r)) rs) = 1%nat.
Proof.
  eexists. split; [vm_compute; reflexivity|].
  repeat split; try reflexivity. discriminate.
Qed.

(** C4 fails on the code for swipes.  [mirror_swipe] scales both end
    points for a slave and sends them as they come, with none of the
    clamping [mirror_tap] applies: a swipe starting 300 above the top
    edge of a 1080x2400 master reaches the 720x1600 slave with
    [y1 = -200]. *)
Lemma mirror_swipe_sends_unclamped :
  let s := Scenario.two_phones_ready in
  trace (snd (mirror_swipe Scenario.two_phones "M" ["S1"]
                540 (-300) 540 300 300 s)) =
    (trace s ++ [shell "M" "input swipe 540 -300 540 300 300";
                 shell "S1" "input swipe 360 -200 360 200 300"])%list.
Proof. vm_compute. reflexivity. Qed.

(** ** What the patterns capture *)

Lemma int_of_digits_from_nonneg s acc :
  0 <= acc ->
  Text.take_while Text.is_digit s = s ->
  0 <= Text.int_of_digits_from acc s.
Proof.
  revert acc. induction s as [|c s IH]; intros acc Hacc Hall; simpl; [exact Hacc|].
  simpl in Hall. destruct (Text.is_digit c) eqn:Hc; [|discriminate].
  injection Hall as Hall. apply IH; [|exact Hall].
  unfold Text.is_digit in Hc. apply andb_true_iff in Hc as [Hlo _].
  apply N.leb_le in Hlo. lia.
Qed.

Lemma take_while_idem p s :
  Text.take_while p (Text.take_while p s) = Text.take_while p s.
Proof.
  induction s as [|c s IH]; simpl; [reflexivity|].
  destruct (p c) eqn:Hc; simpl; [|reflexivity]. now rewrite Hc, IH.
Qed.

(** Every group a match captures is a run of digits. *)
Lemma match_here_digits ic p s g :
  Text.match_here ic p s = Some g ->
  Forall (fun d => Text.take_while Text.is_digit d = d) g.
Proof.
  revert s g. induction p as [|a p IH]; intros s g H; simpl in H.
  - injection H as <-. constructor.
  - destruct a.
    + destruct s as [|d s]; [discriminate|].
      destruct (Text.char_eqb ic c d); [eauto|discriminate].
    + eauto.
    + destruct (Text.take_while Text.is_digit s) as [|c ds] eqn:Hds; [discriminate|].
      destruct (Text.match_here ic p (Text.drop_while Text.is_digit s)) as [g'|] eqn:Hg;
        [|discriminate].
      injection H as <-. constructor; [|eauto].
      rewrite <- Hds. apply take_while_idem.
Qed.

Lemma search_digits ic p s g :
  Text.search ic p s = Some g ->
  Forall (fun d => Text.take_while Text.is_digit d = d) g.
Proof.
  induction s as [|c s IH]; simpl.
  - destruct (Text.match_here ic p "") eqn:H; [|discriminate].
    intros [= <-]. eapply match_here_digits; eauto.
  - destruct (Text.match_here ic p (String c s)) eqn:H.
    + intros [= <-]. eapply match_here_digits; eauto.
    + exact IH.
Qed.

Lemma group_digits m i g :
  Forall (fun d => Text.take_while Text.is_digit d = d) m ->
  Text.group m i = Ok g ->
  0 <= Text.int_of_digits g.
Proof.
  intros Hall Hg. unfold Text.group in Hg.
  destruct (nth_error m (Nat.pred i)) as [g'|] eqn:Hn; [|discriminate].
  injection Hg as <-. apply nth_error_In in Hn.
  rewrite List.Forall_forall in Hall.
  apply int_of_digits_from_nonneg; [lia | now apply Hall].
Qed.

Lemma size_of_match_nonneg m ov size :
  Forall (fun d => Text.take_while Text.is_digit d = d) m ->
  size_of_match m ov = Ok size ->
  0 <= width size /\ 0 <= height size.
Proof.
  intros Hall H. unfold size_of_match, rbind in H.
  destruct (Text.group m 1) as [w|] eqn:Hw; [|discriminate].
  destruct (Text.group m 2) as [h|] eqn:Hh; [|discriminate].
  injection H as <-. simpl. split; eapply group_digits; eauto.
Qed.

(** A size parsed from [wm size] has no negative dimension. *)
Lemma parse_wm_size_nonneg output size :
  parse_wm_size output = Some (Ok size) ->
  0 <= width size /\ 0 <= height size.
Proof.
  unfold parse_wm_size. intros H.
  repeat match type of H with
         | match Text.search ?ic ?p ?o with _ => _ end = _ =>
             let E := fresh "E" in
             destruct (Text.search ic p o) eqn:E;
             [injection H as H; eapply size_of_match_nonneg;
              [eapply search_digits; exact E | exact H]|]
         end.
  discriminate.
Qed.

Lemma match_here_lit ic w p s g :
  Text.match_here ic (Text.lit w ++ p) s = Some g ->
  exists s', Text.match_here ic p s' = Some g.
Proof.
  revert s. induction w as [|c w IH]; intros s H; simpl in H; [eauto|].
  destruct s as [|d s]; [discriminate|].
  destruct (Text.char_eqb ic c d); [eauto|discriminate].
Qed.

Lemma search_lit_digits ic w s g :
  Text.search ic (Text.lit w ++ [Text.Digits]) s = Some g ->
  exists d, g = [d].
Proof.
  assert (Hhere : forall s0, Text.match_here ic (Text.lit w ++ [Text.Digits]) s0 = Some g ->
                             exists d, g = [d]).
  { intros s0 H. apply match_here_lit in H as (s' & H). simpl in H.
    destruct (Text.take_while Text.is_digit s'); [discriminate|].
    injection H as <-. eauto. }
  induction s as [|c s IH]; simpl.
  - destruct (Text.match_here ic _ "") eqn:H; [|discriminate].
    intros [= <-]. eauto.
  - destruct (Text.match_here ic _ (String c s)) eqn:H; [|exact IH].
    intros [= <-]. eauto.
Qed.

(** The dump branch never yields a size: whenever both patterns occur,
    reading group 2 of the one-group height match raises. *)
Lemma parse_dumpsys_raises output r :
  parse_dumpsys output = Some r -> r = Raise IndexError.
Proof.
  unfold parse_dumpsys.
  destruct (Text.search false Text.re_display_width output) as [wm|] eqn:Hw;
    [|discriminate].
  destruct (Text.search false Text.re_display_height output) as [hm|] eqn:Hh;
    [|discriminate].
  apply search_lit_digits in Hw as (w & ->).
  apply search_lit_digits in Hh as (h & ->).
  intros [= <-]. reflexivity.
Qed.

(** ** The gesture classifier *)

Section Classifier.

Variable adb : nat -> list string -> Outcome.
Variable master_device : string.
Variable slave_devices : list string.

Lemma get_master_screen_size_listener s :
  listener (snd (get_master_screen_size adb master_device s)) = listener s.
Proof.
  pose proof (get_master_screen_size_but_master adb master_device s) as H.
  unfold same, but_master in H. congruence.
Qed.

Lemma convert_to_phone_coords_listener win x y s :
  listener (snd (convert_to_phone_coords adb master_device win x y s)) = listener s.
Proof.
  unfold convert_to_phone_coords, bind.
  pose proof (get_master_screen_size_listener s) as H.
  destruct (get_master_screen_size adb master_device s) as [[size|e] s']; exact H.
Qed.

Lemma resolve_or_sentinel_returns s :
  exists r, fst (resolve_or_sentinel adb master_device s) = Ok r.
Proof.
  unfold resolve_or_sentinel, bind, try_except, ret.
  destruct (resolve_master adb master_device s) as [[r|e] s1]; eexists; reflexivity.
Qed.

(** [get_master_screen_size] never raises. *)
Lemma get_master_screen_size_returns s :
  exists size, fst (get_master_screen_size adb master_device s) = Ok size.
Proof.
  unfold get_master_screen_size, get_master_screen_size_ref.
  unfold bind at 1. unfold bind at 1. unfold get at 1.
  destruct (master_screen_size s) as [cached|];
    [destruct (0 <? width cached); [eexists; reflexivity|]|];
    destruct (resolve_or_sentinel_returns s) as (r & Hr);
    destruct (resolve_or_sentinel adb master_device s) as [r' s1];
    simpl in Hr; subst r'; eexists; reflexivity.
Qed.

(** What the [try] block of the master's resolver returns is stored
    and has no negative width. *)
Lemma resolve_master_stored s size s1 :
  resolve_master adb master_device s = (Ok (Some size), s1) ->
  master_screen_size s1 = Some size /\ 0 <= width size.
Proof.
  unfold resolve_master. unfold bind at 1.
  destruct (subprocess_run adb true _ s) as [[c|e] s0]; [|discriminate].
  destruct (parse_wm_size (Text.strip (stdout c))) as [[sz|e]|] eqn:Hp.
  - unfold bind, lift, modify, ret. intros [= <- <-].
    split; [reflexivity|]. now apply parse_wm_size_nonneg in Hp.
  - discriminate.
  - unfold bind at 1.
    destruct (subprocess_run adb true _ s0) as [[c'|e] s0']; [|discriminate].
    destruct (parse_dumpsys (stdout c')) as [r|] eqn:Hd; [|discriminate].
    apply parse_dumpsys_raises in Hd as ->. discriminate.
Qed.

Lemma resolve_or_sentinel_warm s size shared s1 :
  resolve_or_sentinel adb master_device s = (Ok (size, shared), s1) ->
  width size <> 0 ->
  master_screen_size s1 = Some size /\ 0 < width size.
Proof.
  unfold resolve_or_sentinel, bind, try_except, ret.
  destruct (resolve_master adb master_device s) as [[[sz|]|e] s0] eqn:Hr.
  - intros [= <- <- <-] Hnz.
    apply resolve_master_stored in Hr as [Hst Hge]. split; [exact Hst|lia].
  - intros [= <- <- <-] Hnz. now elim Hnz.
  - intros [= <- <- <-] Hnz. now elim Hnz.
Qed.

(** A master geometry of non-zero width, once returned, is the cached
    one and its width is positive. *)
Lemma get_master_screen_size_warm s size s1 :
  get_master_screen_size adb master_device s = (Ok size, s1) ->
  width size <> 0 ->
  master_screen_size s1 = Some size /\ 0 < width size.
Proof.
  unfold get_master_screen_size, get_master_screen_size_ref.
  unfold bind at 1. unfold bind at 1. unfold get at 1.
  destruct (master_screen_size s) as [cached|] eqn:Hm.
  - destruct (0 <? width cached) eqn:Hw.
    + unfold ret. simpl. intros [= <- <-] _. apply Z.ltb_lt in Hw. now split.
    + destruct (resolve_or_sentinel adb master_device s) as [[[sz b]|e] s0] eqn:Hb;
        simpl; [|discriminate].
      intros [= <- <-]. eapply resolve_or_sentinel_warm; eauto.
  - destruct (resolve_or_sentinel adb master_device s) as [[[sz b]|e] s0] eqn:Hb;
      simpl; [|discriminate].
    intros [= <- <-]. eapply resolve_or_sentinel_warm; eauto.
Qed.

(** When a point maps, the master's geometry is cached afterwards. *)
Lemma convert_to_phone_coords_warm win x y s p s1 :
  convert_to_phone_coords adb master_device win x y s = (Ok (Some p), s1) ->
  exists size, master_screen_size s1 = Some size /\ 0 < width size.
Proof.
  unfold convert_to_phone_coords. unfold bind.
  destruct (get_master_screen_size adb master_device s) as [[size|e] s0] eqn:Hg;
    [|discriminate].
  unfold ret, convert_with.
  destruct (width size =? 0) eqn:Hw; [discriminate|].
  intros [= _ <-]. exists size.
  apply get_master_screen_size_warm in Hg; [exact Hg|].
  now apply Z.eqb_neq.
Qed.

(** A press inside the window whose point maps: the point becomes the
    start of a gesture and nothing is sent. *)
Lemma on_click_press_mapped win x y s start s1 :
  running s = true -> truthy (hwnd s) = true ->
  is_point_in_window x y (hwnd s) win = true ->
  convert_to_phone_coords adb master_device win x y s = (Ok (Some start), s1) ->
  on_click adb master_device slave_devices win x y button_left true s =
    (Ok None, set_drag (Some start) true s1).
Proof.
  intros Hrun Hwnd Hin Hconv. unfold on_click.
  unfold bind at 1, get at 1. rewrite Hrun, Hwnd, Hin. cbn [negb].
  erewrite bind_ok by exact Hconv.
  destruct (convert_to_phone_coords_warm _ _ _ _ _ _ Hconv) as (size & Hm & Hw).
  destruct start as [px py].
  unfold bind at 1, modify at 1.
  erewrite bind_ok
    by (apply get_master_screen_size_cached with (size := size); assumption).
  reflexivity.
Qed.

(** C3.  While the listener runs on a window it found: a left press
    inside the window whose point maps to [start], followed by a left
    release inside the window whose point maps to [stop], makes the
    release handler send a swipe from [start] to [stop] when
    [|dx| > 10] or [|dy| > 10] and a tap at [stop] otherwise, and then
    clear the gesture; the press itself sends nothing.  A release with
    no press pending returns with the session untouched.  A press
    outside the window returns with no bridge call made, and a press
    whose point does not map does nothing beyond the mapping attempt. *)
Theorem on_click_classifies (s : Session) :
  running s = true ->
  truthy (hwnd s) = true ->
  (forall win1 x1 y1 start s1 win2 x2 y2 stop s3,
     is_point_in_window x1 y1 (hwnd s) win1 = true ->
     convert_to_phone_coords adb master_device win1 x1 y1 s
       = (Ok (Some start), s1) ->
     let pressed :=
       on_click adb master_device slave_devices win1 x1 y1 button_left true s in
     is_point_in_window x2 y2 (hwnd s) win2 = true ->
     convert_to_phone_coords adb master_device win2 x2 y2 (snd pressed)
       = (Ok (Some stop), s3) ->
     fst pressed = Ok None
     /\ trace (snd pressed) = trace s1
     /\ drag_start (snd pressed) = Some start
     /\ drag_active (snd pressed) = true
     /\ on_click adb master_device slave_devices win2 x2 y2 button_left false
          (snd pressed) =
        (emit adb master_device slave_devices (classify start stop) ;;
         modify (set_drag None false) ;;
         ret None) s3)
  /\ (forall win x y,
        drag_active s = false ->
        on_click adb master_device slave_devices win x y button_left false s
          = (Ok None, s))
  /\ (forall win x y button,
        is_point_in_window x y (hwnd s) win = false ->
        on_click adb master_device slave_devices win x y button true s
          = (Ok None, if drag_active s then set_drag None false s else s))
  /\ (forall win x y s1,
        is_point_in_window x y (hwnd s) win = true ->
        convert_to_phone_coords adb master_device win x y s = (Ok None, s1) ->
        on_click adb master_device slave_devices win x y button_left true s
          = (Ok None, s1)).
Proof.
  intros Hrun Hwnd. split; [|repeat split].
  - intros win1 x1 y1 start s1 win2 x2 y2 stop s3 Hin1 Hconv1 pressed.
    subst pressed.
    rewrite (on_click_press_mapped win1 x1 y1 s start s1) by assumption.
    cbn [fst snd]. intros Hin2 Hconv2.
    repeat split.
    pose proof (convert_to_phone_coords_listener win1 x1 y1 s) as Hl.
    rewrite Hconv1 in Hl. cbn [snd] in Hl. unfold listener in Hl.
    injection Hl as Hr1 Hh1 _ _.
    unfold on_click. unfold bind at 1, get at 1.
    cbn [running hwnd drag_active drag_start set_drag].
    rewrite Hr1, Hh1, Hrun, Hwnd, Hin2. cbn [negb].
    destruct start as [sx sy], stop as [px py].
    erewrite bind_ok by exact Hconv2.
    unfold classify, emit, drag_threshold. cbn [fst snd].
    destruct ((10 <? Z.abs (px - sx)) || (10 <? Z.abs (py - sy))); reflexivity.
  - intros win x y Hidle. unfold on_click, bind, get.
    rewrite Hrun, Hwnd, Hidle. simpl.
    destruct (is_point_in_window x y (hwnd s) win); reflexivity.
  - intros win x y button Hout. unfold on_click.
    unfold bind at 1, get at 1. rewrite Hrun, Hwnd, Hout. simpl.
    destruct (drag_active s); reflexivity.
  - intros win x y s1 Hin Hconv. unfold on_click.
    unfold bind at 1, get at 1. rewrite Hrun, Hwnd, Hin. cbn [negb].
    erewrite bind_ok by exact Hconv. reflexivity.
Qed.

End Classifier.

(** The specification's examples: a press and a release at (100, 100)
    make a tap there; a release at (500, 500) makes a drag. *)
Example classify_tap : classify (100, 100) (100, 100) = Tap (100, 100).
Proof. reflexivity. Qed.

Example classify_drag :
  classify (100, 100) (500, 500) = Drag (100, 100) (500, 500).
Proof. reflexivity. Qed.

(** A press at (100, 100) and a release at (500, 500) on a window that
    shows the master pixel for pixel: one swipe, scaled for the slave. *)
Lemma on_click_classifies_witness :
  let s := Scenario.listening Scenario.two_phones_ready in
  let click := on_click Scenario.two_phones "M" ["S1"] Scenario.full_window in
  let pressed := click 100 100 button_left true s in
  let released := click 500 500 button_left false (snd pressed) in
  running s = true
  /\ truthy (hwnd s) = true
  /\ fst pressed = Ok None
  /\ trace (snd pressed) = trace s
  /\ fst released = Ok None
  /\ trace (snd released) =
       (trace s ++ [shell "M" "input swipe 100 100 500 500 300";
                    shell "S1" "input swipe 66 66 333 333 300"])%list
  /\ drag_active (snd released) = false.
Proof.
  intros s click pressed released.
  destruct (on_click_classifies Scenario.two_phones "M" ["S1"] s eq_refl eq_refl)
    as (Hgesture & _).
  destruct (Hgesture Scenario.full_window 100 100 (100, 100) s
                     Scenario.full_window 500 500 (500, 500)
                     (set_drag (Some (100, 100)) true s))
    as (Hp & Ht & _ & _ & Hrel);
    try (vm_compute; reflexivity).
  split; [reflexivity | split; [reflexivity | split; [exact Hp | split; [exact Ht|]]]].
  subst released pressed click. rewrite Hrel.
  vm_compute. repeat split; reflexivity.
Defined.

(** ** Window-to-device mapping *)

Lemma client_point_bounds wl wt wh cw ch win x y :
  0 < cw -> 0 < ch ->
  let '(rel_x, rel_y) := client_point wl wt wh cw ch win x y in
  0 <= rel_x <= cw /\ 0 <= rel_y <= ch.
Proof.
  intros Hcw Hch. unfold client_point.
  destruct (match ClientToScreen win with Ok p => p | Raise _ => _ end) as [l t].
  lia.
Qed.

Section MappingInSession.

Variable adb : nat -> list string -> Outcome.
Variable master_device : string.
Variable slave_devices : list string.

Lemma convert_to_phone_coords_cached win x y s size :
  master_screen_size s = Some size -> 0 < width size ->
  convert_to_phone_coords adb master_device win x y s =
    (Ok (convert_with size win x y), s).
Proof.
  intros Hm Hw. unfold convert_to_phone_coords.
  erewrite bind_ok by (apply get_master_screen_size_cached; eassumption).
  reflexivity.
Qed.

(** A point that does not map is dropped by the handlers that map it:
    a left press, a left release and a scroll there make no bridge
    call. *)
Lemma unmapped_point_is_dropped win x y s size :
  master_screen_size s = Some size -> 0 < width size ->
  convert_with size win x y = None ->
  (forall pressed,
     trace (snd (on_click adb master_device slave_devices win x y
                          button_left pressed s)) = trace s)
  /\ (forall dx dy,
        trace (snd (on_scroll adb master_device slave_devices win x y dx dy s))
          = trace s).
Proof.
  intros Hm Hw Hnone.
  pose proof (convert_to_phone_coords_cached win x y s size Hm Hw) as Hc.
  rewrite Hnone in Hc. split.
  - intros pressed. unfold on_click. unfold bind at 1, get at 1.
    destruct (running s); [|reflexivity]. cbn [negb].
    destruct (truthy (hwnd s)); [|reflexivity]. cbn [negb].
    destruct (is_point_in_window x y (hwnd s) win).
    + destruct pressed.
      * erewrite bind_ok by exact Hc. reflexivity.
      * destruct (drag_active s); [|reflexivity].
        destruct (drag_start s) as [[sx sy]|]; [|reflexivity].
        erewrite bind_ok by exact Hc. reflexivity.
    + destruct (drag_active s); reflexivity.
  - intros dx dy. unfold on_scroll. unfold bind at 1, get at 1.
    destruct (running s); [|reflexivity]. cbn [negb].
    destruct (truthy (hwnd s) && is_point_in_window x y (hwnd s) win);
      [|reflexivity].
    erewrite bind_ok by exact Hc. reflexivity.
Qed.

End MappingInSession.

Section Letterbox.

Variables (screen_size : Size) (win : Window) (window_x window_y : Z).
Variables (wl wt wr wb cl ct cr cb : Z).
Variables (window_aspect phone_aspect scale_x scale_y : Py.float).
Variable rect : Z * Z * Z * Z.

Let client_width := cr - cl.
Let client_height := cb - ct.
Let rel := client_point wl wt (wb - wt) client_width client_height
                        win window_x window_y.

Hypothesis screen_w : 0 < width screen_size.
Hypothesis screen_h : 0 < height screen_size.
Hypothesis window_rect : GetWindowRect win = Ok (wl, wt, wr, wb).
Hypothesis client_rect : GetClientRect win = Ok (cl, ct, cr, cb).
Hypothesis client_w : 0 < client_width.
Hypothesis client_h : 0 < client_height.
Hypothesis window_aspect_is :
  Py.truediv client_width client_height = Ok window_aspect.
Hypothesis phone_aspect_is :
  Py.truediv (width screen_size) (height screen_size) = Ok phone_aspect.
Hypothesis scale_x_is : Py.truediv (width screen_size) client_width = Ok scale_x.
Hypothesis scale_y_is : Py.truediv (height screen_size) client_height = Ok scale_y.
Hypothesis mismatch :
  Py.fgt (Py.fabs (Py.fsub window_aspect phone_aspect)) Py.f0_01 = true.
Hypothesis visible : visible_rect client_width client_height
                                  window_aspect phone_aspect = Ok rect.

Lemma convert_with_letterbox :
  let '(x0, y0, _, _) := rect in
  (inside rect (fst rel) (snd rel) = false ->
     convert_with screen_size win window_x window_y = None)
  /\ (inside rect (fst rel) (snd rel) = true ->
      forall px py,
        Py.scaled (fst rel - x0) (Py.fmin scale_x scale_y) = Ok px ->
        Py.scaled (snd rel - y0) (Py.fmin scale_x scale_y) = Ok py ->
        convert_with screen_size win window_x window_y =
          Some (Py.clamp px (width screen_size - 1),
                Py.clamp py (height screen_size - 1))).
Proof.
  pose proof (client_point_bounds wl wt (wb - wt) client_width client_height
                win window_x window_y client_w client_h) as Hb.
  fold rel in Hb. destruct rel as [rel_x rel_y] eqn:Hrel. cbn [fst snd].
  assert (Hmain : convert_main screen_size win window_x window_y =
                  scale_point screen_size client_width client_height rel_x rel_y).
  { unfold convert_main. rewrite window_rect, client_rect. cbn [rbind].
    fold client_width client_height. subst rel. rewrite Hrel.
    apply Z.ltb_lt in client_w as ->. apply Z.ltb_lt in client_h as ->.
    reflexivity. }
  assert (Hnz : (width screen_size =? 0) || (height screen_size =? 0) = false).
  { apply orb_false_iff. split; apply Z.eqb_neq; lia. }
  unfold convert_with. rewrite Hnz, Hmain. clear Hmain Hnz.
  unfold scale_point.
  pose proof client_h as Hch. apply Z.ltb_lt in Hch. rewrite Hch.
  pose proof screen_h as Hsh. apply Z.ltb_lt in Hsh. rewrite Hsh.
  rewrite window_aspect_is, phone_aspect_is, scale_x_is, scale_y_is.
  cbn [rbind]. rewrite mismatch.
  revert visible. unfold visible_rect.
  destruct (Py.fgt window_aspect phone_aspect).
  - destruct (Py.mul_int_float client_height phone_aspect) as [v|]; [|discriminate].
    cbn [rbind]. destruct (Py.int_of_float v) as [vw|]; [|discriminate].
    cbn [rbind]. intros [= <-]. unfold inside.
    replace (rel_y - 0) with rel_y by lia.
    repeat match goal with
           | |- context [?a <=? ?b] => destruct (Z.leb_spec a b)
           | |- context [?a <? ?b] => destruct (Z.ltb_spec a b)
           end; try lia; cbn [orb andb rbind];
      (split; [intros Hin; try discriminate Hin; try reflexivity
              |intros Hin px py Hpx Hpy; try discriminate Hin;
               try (now rewrite Hpx, Hpy)]).
  - destruct (Py.div_int_float client_width phone_aspect) as [v|]; [|discriminate].
    cbn [rbind]. destruct (Py.int_of_float v) as [vh|]; [|discriminate].
    cbn [rbind]. intros [= <-]. unfold inside.
    replace (rel_x - 0) with rel_x by lia.
    repeat match goal with
           | |- context [?a <=? ?b] => destruct (Z.leb_spec a b)
           | |- context [?a <? ?b] => destruct (Z.ltb_spec a b)
           end; try lia; cbn [orb andb rbind];
      (split; [intros Hin; try discriminate Hin; try reflexivity
              |intros Hin px py Hpx Hpy; try discriminate Hin;
               try (now rewrite Hpx, Hpy)]).
Qed.

Variable adb : nat -> list string -> Outcome.
Variable master_device : string.
Variable slave_devices : list string.
Variable s : Session.

Hypothesis master_cached : master_screen_size s = Some screen_size.

(** C2.  With the master's geometry cached, a client area of positive
    size and aspect ratios more than 0.01 apart, the mapping works from
    the visible rectangle centred in the client area: a point off that
    rectangle maps to no point, and the left-click and scroll handlers
    then make no bridge call; a point on it is taken relative to the
    rectangle's origin, scaled on both axes by [min(scale_x, scale_y)],
    truncated and clamped to the phone's screen. *)
Theorem convert_to_phone_coords_letterbox :
  let '(x0, y0, _, _) := rect in
  (inside rect (fst rel) (snd rel) = false ->
     convert_to_phone_coords adb master_device win window_x window_y s
       = (Ok None, s)
     /\ (forall pressed,
          trace (snd (on_click adb master_device slave_devices
                               win window_x window_y button_left pressed s))
            = trace s)
     /\ (forall dx dy,
          trace (snd (on_scroll adb master_device slave_devices
                                win window_x window_y dx dy s))
            = trace s))
  /\ (inside rect (fst rel) (snd rel) = true ->
      forall px py,
        Py.scaled (fst rel - x0) (Py.fmin scale_x scale_y) = Ok px ->
        Py.scaled (snd rel - y0) (Py.fmin scale_x scale_y) = Ok py ->
        convert_to_phone_coords adb master_device win window_x window_y s =
          (Ok (Some (Py.clamp px (width screen_size - 1),
                     Py.clamp py (height screen_size - 1))), s)).
Proof.
  pose proof convert_with_letterbox as Hpure.
  destruct rect as [[[x0 y0] vw] vh]. destruct Hpure as [Hout Hin].
  split.
  - intros Hoff. specialize (Hout Hoff). split.
    + rewrite (convert_to_phone_coords_cached adb master_device _ _ _ s screen_size)
        by assumption.
      now rewrite Hout.
    + eapply unmapped_point_is_dropped; eassumption.
  - intros Hon px py Hpx Hpy.
    rewrite (convert_to_phone_coords_cached adb master_device _ _ _ s screen_size)
      by assumption.
    now rewrite (Hin Hon px py Hpx Hpy).
Qed.

End Letterbox.


(** A square window of 1000x1000 on a 1080x2400 master: the picture is
    the strip [[275, 725]]; a click at x = 100 lands on the left bar and
    is dropped, a click at (500, 500) maps to (243, 540). *)
Lemma convert_to_phone_coords_letterbox_witness :
  let s := Scenario.listening Scenario.two_phones_ready in
  let convert := convert_to_phone_coords Scenario.two_phones "M"
                                         Scenario.square_window in
  convert 100 500 s = (Ok None, s)
  /\ trace (snd (on_click Scenario.two_phones "M" ["S1"] Scenario.square_window
                          100 500 button_left true s)) = trace s
  /\ convert 500 500 s = (Ok (Some (243, 540)), s).
Proof.
  intros s convert.
  pose proof (fun x y =>
    convert_to_phone_coords_letterbox
      (mkSize 1080 2400 (Some false)) Scenario.square_window x y
      0 0 1000 1000 0 0 1000 1000
      (S754_finite false 4503599627370496 (-52))
      (S754_finite false 8106479329266893 (-54))
      (S754_finite false 4863887597560136 (-52))
      (S754_finite false 5404319552844595 (-51))
      (275, 0, 450, 1000)
      ltac:(simpl; lia) ltac:(simpl; lia) eq_refl eq_refl
      ltac:(lia) ltac:(lia) eq_refl eq_refl eq_refl eq_refl eq_refl eq_refl
      Scenario.two_phones "M" ["S1"] s eq_refl) as H.
  cbv beta iota in H.
  destruct (H 100 500) as [Hout _].
  destruct (Hout eq_refl) as (Hnone & Hclick & _).
  destruct (H 500 500) as [_ Hin].
  split; [exact Hnone | split; [apply Hclick |]].
  exact (Hin eq_refl 243 540 eq_refl eq_refl).
Defined.

(** ** The geometry caches over a session *)

Global Instance keeps_positive_preorder : PreOrder keeps_positive.
Proof.
  split.
  - intros s H. exact H.
  - intros s1 s2 s3 H12 H23 H. auto.
Qed.

Global Instance settled_preorder : PreOrder settled.
Proof.
  split.
  - intros s. repeat split; auto. intros H. exact H.
  - intros s1 s2 s3 (Hs12 & Hm12 & Hp12) (Hs23 & Hm23 & Hp23).
    repeat split; auto. intros H. auto.
Qed.

Lemma settled_of_caches s s' : caches s' = caches s -> settled s s'.
Proof.
  unfold caches. intros [= Hm Hs]. unfold settled, keeps_positive, widths_positive.
  rewrite Hm, Hs. auto.
Qed.

Lemma settled_of_untraced s s' : untraced s' = untraced s -> settled s s'.
Proof. unfold untraced. intros H. apply settled_of_caches. congruence. Qed.

(** With no usable master geometry cached, nothing is promised about
    the master's cache. *)
Lemma settled_of_cold s s' :
  master_cache_cold s -> but_master s' = but_master s -> settled s s'.
Proof.
  unfold master_cache_cold, but_master. intros Hcold Hb.
  assert (Hs : slave_screen_sizes s' = slave_screen_sizes s) by congruence.
  unfold settled, keeps_positive, widths_positive. rewrite Hs.
  repeat split; auto.
  intros size Hm Hw. rewrite Hm in Hcold. apply Z.ltb_lt in Hw. congruence.
Qed.

Lemma keeps_positive_of_slaves s s' :
  slave_screen_sizes s' = slave_screen_sizes s -> keeps_positive s s'.
Proof. unfold keeps_positive, widths_positive. now intros ->. Qed.

Lemma settled_set_trace t s : settled s (set_trace t s).
Proof. now apply settled_of_caches. Qed.

Lemma settled_set_drag p a s : settled s (set_drag p a s).
Proof. now apply settled_of_caches. Qed.

Lemma settled_set_listening r h s : settled s (set_listening r h s).
Proof. now apply settled_of_caches. Qed.

Lemma keeps_positive_set_trace t s : keeps_positive s (set_trace t s).
Proof. now apply keeps_positive_of_slaves. Qed.

Lemma keeps_positive_set_devices d s : keeps_positive s (set_devices d s).
Proof. now apply keeps_positive_of_slaves. Qed.

Lemma keeps_positive_set_master m s : keeps_positive s (set_master_screen_size m s).
Proof. now apply keeps_positive_of_slaves. Qed.

Lemma keeps_positive_reset s : keeps_positive s (set_slave_screen_sizes ∅ s).
Proof. intros _ d size H. simpl in H. now rewrite lookup_empty in H. Qed.

#[export] Hint Resolve settled_set_trace settled_set_drag settled_set_listening
  keeps_positive_set_trace keeps_positive_set_devices keeps_positive_set_master
  keeps_positive_reset : frames.

Section Caches.

Variable adb : nat -> list string -> Outcome.
Variable master_device : string.
Variable slave_devices : list string.

Lemma master_warm_or_cold s :
  (exists cached, master_screen_size s = Some cached /\ 0 < width cached)
  \/ master_cache_cold s.
Proof.
  unfold master_cache_cold. destruct (master_screen_size s) as [c|]; [|now right].
  destruct (0 <? width c) eqn:H; [left|now right].
  exists c. split; [reflexivity|now apply Z.ltb_lt].
Qed.

Lemma get_master_screen_size_ref_cached s size :
  master_screen_size s = Some size -> 0 < width size ->
  get_master_screen_size_ref adb master_device s = (Ok (size, true), s).
Proof.
  intros Hm Hw. unfold get_master_screen_size_ref, bind, get. rewrite Hm.
  apply Z.ltb_lt in Hw. now rewrite Hw.
Qed.

Lemma get_master_screen_size_ref_settled :
  respects settled (get_master_screen_size_ref adb master_device).
Proof.
  intros s. destruct (master_warm_or_cold s) as [(c & Hm & Hw)|Hcold].
  - rewrite (get_master_screen_size_ref_cached s c Hm Hw). reflexivity.
  - apply settled_of_cold; [exact Hcold|].
    apply get_master_screen_size_ref_but_master.
Qed.
Hint Resolve get_master_screen_size_ref_settled : frames.

Lemma get_master_screen_size_settled :
  respects settled (get_master_screen_size adb master_device).
Proof. unfold get_master_screen_size. frame. Qed.
Hint Resolve get_master_screen_size_settled : frames.

Lemma get_screen_info_settled d : respects settled (get_screen_info adb d).
Proof.
  eapply respects_of_preserves; [apply settled_of_untraced|].
  apply get_screen_info_untraced.
Qed.

Lemma send_plain_settled d command : respects settled (send_plain adb d command).
Proof.
  eapply respects_of_preserves; [apply settled_of_untraced|].
  apply send_plain_untraced.
Qed.

Lemma send_master_settled command :
  respects settled (send_master adb master_device command).
Proof.
  eapply respects_of_preserves; [apply settled_of_untraced|].
  apply send_master_untraced.
Qed.

Lemma execute_on_slaves_settled command :
  respects settled (execute_on_slaves adb slave_devices command).
Proof.
  eapply respects_of_preserves; [apply settled_of_untraced|].
  apply execute_on_slaves_untraced.
Qed.
Hint Resolve get_screen_info_settled send_plain_settled send_master_settled
  execute_on_slaves_settled : frames.

(** A slave's geometry is written to the cache only on a miss and only
    with a positive width. *)
Lemma slave_size_of_settled d : respects settled (slave_size_of adb d).
Proof.
  intros s. unfold slave_size_of, bind at 1, get at 1.
  destruct (slave_screen_sizes s !! d) as [size|] eqn:Hd; [reflexivity|].
  pose proof (get_screen_info_untraced adb d s) as Hu.
  unfold bind. destruct (get_screen_info adb d s) as [[size|e] s1]; simpl in Hu.
  - assert (Hc : caches s1 = caches s) by (unfold same, untraced in Hu; congruence).
    destruct (0 <? width size) eqn:Hw; simpl.
    + unfold caches in Hc. injection Hc as Hm Hs.
      unfold settled, keeps_positive, widths_positive. simpl. rewrite Hm, Hs.
      apply Z.ltb_lt in Hw. repeat split.
      * intros d' size' Hd'. rewrite lookup_insert_ne; [exact Hd'|congruence].
      * auto.
      * intros Hpos d' size'. rewrite lookup_insert.
        destruct (decide (d = d')); [intros [= <-]; exact Hw | apply Hpos].
    + now apply settled_of_caches.
  - apply settled_of_untraced. exact Hu.
Qed.
Hint Resolve slave_size_of_settled : frames.

Lemma mirror_tap_settled x y :
  respects settled (mirror_tap adb master_device slave_devices x y).
Proof. unfold mirror_tap, mirror_tap_results, tap_slave. frame. Qed.

Lemma mirror_swipe_settled x1 y1 x2 y2 duration :
  respects settled
    (mirror_swipe adb master_device slave_devices x1 y1 x2 y2 duration).
Proof. unfold mirror_swipe, swipe_slave. frame. Qed.

Lemma mirror_key_settled keycode :
  respects settled (mirror_key adb master_device slave_devices keycode).
Proof. unfold mirror_key. frame. Qed.

Lemma mirror_text_settled text :
  respects settled (mirror_text adb slave_devices text).
Proof. unfold mirror_text. frame. Qed.
Hint Resolve mirror_tap_settled mirror_swipe_settled mirror_key_settled
  mirror_text_settled : frames.

Lemma on_click_settled win x y button pressed :
  respects settled
    (on_click adb master_device slave_devices win x y button pressed).
Proof. unfold on_click, convert_to_phone_coords. frame. Qed.

Lemma on_scroll_settled win x y dx dy :
  respects settled (on_scroll adb master_device slave_devices win x y dx dy).
Proof. unfold on_scroll, convert_to_phone_coords. frame. Qed.

Lemma monitor_adb_events_setup_but_master :
  preserves but_master (monitor_adb_events_setup adb master_device).
Proof. unfold monitor_adb_events_setup. frame. Qed.

(** The write into the dict returned happens only when its width is 0,
    which a cache hit never returns. *)
Lemma monitor_adb_events_setup_settled :
  respects settled (monitor_adb_events_setup adb master_device).
Proof.
  intros s. destruct (master_warm_or_cold s) as [(c & Hm & Hw)|Hcold].
  - unfold monitor_adb_events_setup.
    erewrite bind_ok by (apply get_master_screen_size_ref_cached; eassumption).
    assert (Hnz : (width c =? 0) = false) by (apply Z.eqb_neq; lia).
    cbv beta iota. rewrite Hnz. reflexivity.
  - apply settled_of_cold; [exact Hcold|].
    apply monitor_adb_events_setup_but_master.
Qed.
Hint Resolve on_click_settled on_scroll_settled
  monitor_adb_events_setup_settled : frames.

Lemma run_settled op : respects settled (run adb master_device slave_devices op).
Proof. destruct op; unfold run; frame. Qed.

Lemma exec_settled ops s :
  settled s (exec adb master_device slave_devices ops s).
Proof.
  revert s. induction ops as [|op ops IH]; intros s; simpl.
  - reflexivity.
  - etransitivity; [apply run_settled | apply IH].
Qed.

Lemma keeps_positive_of_but_master s s' :
  but_master s' = but_master s -> keeps_positive s s'.
Proof.
  unfold but_master. intros H. apply keeps_positive_of_slaves. congruence.
Qed.

Lemma keeps_positive_of_untraced s s' :
  untraced s' = untraced s -> keeps_positive s s'.
Proof.
  unfold untraced, caches. intros H. apply keeps_positive_of_slaves. congruence.
Qed.

Lemma cache_slave_keeps_positive d size :
  (0 <? width size) = true -> respects keeps_positive (cache_slave d size).
Proof.
  intros Hw s Hpos d' size'. unfold cache_slave, bind, get, modify. simpl.
  rewrite lookup_insert. apply Z.ltb_lt in Hw.
  destruct (decide (d = d')); [intros [= <-]; exact Hw | apply Hpos].
Qed.

Lemma get_master_screen_size_keeps_positive :
  respects keeps_positive (get_master_screen_size adb master_device).
Proof.
  eapply respects_of_preserves; [apply keeps_positive_of_but_master|].
  apply get_master_screen_size_but_master.
Qed.

Lemma get_screen_info_keeps_positive d :
  respects keeps_positive (get_screen_info adb d).
Proof.
  eapply respects_of_preserves; [apply keeps_positive_of_untraced|].
  apply get_screen_info_untraced.
Qed.
Hint Resolve cache_slave_keeps_positive get_master_screen_size_keeps_positive
  get_screen_info_keeps_positive : frames.

Lemma init_keeps_positive :
  respects keeps_positive (init adb master_device slave_devices).
Proof. unfold init, scan_devices, _cache_screen_sizes. frame. Qed.

Lemma started_widths_positive :
  widths_positive (started adb master_device slave_devices).
Proof.
  apply init_keeps_positive. intros d size H. simpl in H.
  now rewrite lookup_empty in H.
Qed.

(** With no usable master geometry cached, [get_master_screen_size]
    goes back to the bridge: its first call is [wm size]. *)
Lemma get_master_screen_size_cold s :
  master_cache_cold s ->
  exists rest,
    trace (snd (get_master_screen_size adb master_device s)) =
      (trace s ++ wm_size_argv master_device :: rest)%list.
Proof.
  intros Hcold.
  assert (Hres : exists rest,
             trace (snd (resolve_master adb master_device s)) =
               (trace s ++ wm_size_argv master_device :: rest)%list).
  { unfold resolve_master. unfold bind at 1.
    pose proof (subprocess_run_state adb true (wm_size_argv master_device) s) as H1.
    unfold wm_size_argv in *.
    destruct (subprocess_run adb true _ s) as [[c|e] s0]; simpl in H1; subst s0.
    - destruct (parse_wm_size (Text.strip (stdout c))) as [[sz|e]|].
      + exists []. reflexivity.
      + exists []. reflexivity.
      + unfold bind at 1.
        match goal with
        | |- context [subprocess_run adb true ?argv ?s0] =>
            pose proof (subprocess_run_state adb true argv s0) as H2;
            destruct (subprocess_run adb true argv s0) as [[c'|e] s1];
            simpl in H2; subst s1
        end.
        * eexists [_]. destruct (parse_dumpsys (stdout c')) as [[sz|e]|];
            simpl; rewrite <- app_assoc; reflexivity.
        * eexists [_]. simpl. rewrite <- app_assoc. reflexivity.
    - exists []. reflexivity. }
  assert (Hsent : exists rest,
             trace (snd (resolve_or_sentinel adb master_device s)) =
               (trace s ++ wm_size_argv master_device :: rest)%list).
  { unfold resolve_or_sentinel, bind, try_except, ret.
    destruct (resolve_master adb master_device s) as [[r|e] s0]; exact Hres. }
  unfold get_master_screen_size, get_master_screen_size_ref, master_cache_cold in *.
  unfold bind at 1. unfold bind at 1. unfold get at 1.
  destruct (master_screen_size s) as [c|]; [rewrite Hcold|];
    destruct (resolve_or_sentinel adb master_device s) as [[r|e] s0]; exact Hsent.
Qed.

(** C9, as the code has it.  From the moment the controller is built
    and through every later call and event: a slave geometry in the
    cache has a positive width and is never replaced; a master geometry
    cached with a positive width is never replaced and is what
    [get_master_screen_size] returns without asking the bridge; a
    master geometry stored with width 0 is never returned as a hit, the
    bridge is asked again. *)
Theorem caches_keep_positive_widths (ops1 ops2 : list Op) :
  let s1 := exec adb master_device slave_devices ops1
                 (started adb master_device slave_devices) in
  let s2 := exec adb master_device slave_devices ops2 s1 in
  (forall d size,
     slave_screen_sizes s1 !! d = Some size ->
     0 < width size /\ slave_screen_sizes s2 !! d = Some size)
  /\ (forall size,
        master_screen_size s1 = Some size -> 0 < width size ->
        master_screen_size s2 = Some size
        /\ get_master_screen_size adb master_device s1 = (Ok size, s1))
  /\ (forall size,
        master_screen_size s1 = Some size -> width size = 0 ->
        exists rest,
          trace (snd (get_master_screen_size adb master_device s1)) =
            (trace s1 ++ wm_size_argv master_device :: rest)%list).
Proof.
  intros s1 s2.
  pose proof (exec_settled ops1 (started adb master_device slave_devices))
    as (_ & _ & Hpos1).
  pose proof (exec_settled ops2 s1) as (Hs & Hm & _).
  fold s1 in Hpos1. fold s2 in Hs, Hm.
  repeat split.
  - eapply Hpos1; [apply started_widths_positive | eassumption].
  - now apply Hs.
  - now apply Hm.
  - now apply get_master_screen_size_cached.
  - intros size Hm0 Hw0. apply get_master_screen_size_cold.
    unfold master_cache_cold. rewrite Hm0. apply Z.ltb_ge. lia.
Qed.

End Caches.

(** C9 as stated fails for a height of 0: a slave whose [wm size]
    reports [1080x0] is cached with that geometry when the controller
    is built, and a later tap reads it from the cache and falls back to
    the master's coordinates without resolving again. *)
Lemma zero_height_is_cached :
  let s := started Scenario.flat_slave "M" ["S1"] in
  slave_screen_sizes s !! "S1" = Some (mkSize 1080 0 (Some false))
  /\ trace (snd (mirror_tap Scenario.flat_slave "M" ["S1"] 540 1200 s)) =
       (trace s ++ [shell "M" "input tap 540 1200";
                    shell "S1" "input tap 540 1200"])%list.
Proof. split; vm_compute; reflexivity. Qed.


(** ** Further properties of the dispatch and mapping code *)

Section Further.

Variable adb : nat -> list string -> Outcome.
Variable master_device : string.
Variable slave_devices : list string.

(** X1.  The tap [mirror_tap] sends a slave whose geometry has positive
    width and height lies on that slave's screen:
    [0 <= x <= width - 1] and [0 <= y <= height - 1], wherever the
    master's point was. *)
Theorem tap_slave_point_on_screen x y rx ry d s size s1 :
  slave_size_of adb d s = (Ok size, s1) ->
  0 < width size -> 0 < height size ->
  scales rx ry size ->
  exists px py,
    trace (snd (tap_slave adb x y rx ry d s)) =
      (trace s1 ++ [shell d (input_tap px py)])%list
    /\ 0 <= px <= width size - 1
    /\ 0 <= py <= height size - 1.
Proof.
  intros Hsize Hw Hh Hsc.
  destruct (tap_slave_sends adb x y rx ry d s size s1 Hsize Hsc) as (r & Hr & _).
  rewrite Hr. cbn [snd trace set_trace].
  unfold slave_tap_command.
  assert (Hres : (0 <? width size) && (0 <? height size) = true).
  { apply andb_true_iff. split; now apply Z.ltb_lt. }
  rewrite Hres. eexists _, _. split; [reflexivity|].
  unfold slave_point, Py.clamp. cbn [fst snd]. lia.
Qed.

(** X2.  [get_master_screen_size] never raises: whatever the bridge
    does, it returns a geometry, the sentinel at worst. *)
Theorem get_master_screen_size_never_raises s :
  exists size, fst (get_master_screen_size adb master_device s) = Ok size.
Proof.
  unfold get_master_screen_size, get_master_screen_size_ref.
  unfold bind at 1. unfold bind at 1. unfold get at 1.
  assert (Hres : exists r, fst (resolve_or_sentinel adb master_device s) = Ok r).
  { unfold resolve_or_sentinel, bind, try_except, ret.
    destruct (resolve_master adb master_device s) as [[r|e] s1]; eexists; reflexivity. }
  destruct (master_screen_size s) as [cached|];
    [destruct (0 <? width cached); [eexists; reflexivity|]|];
    destruct Hres as (r & Hr);
    destruct (resolve_or_sentinel adb master_device s) as [r' s1];
    simpl in Hr; subst r'; eexists; reflexivity.
Qed.

Lemma get_screen_info_dumpsys_answers d s size :
  fst (get_screen_info_dumpsys adb d s) = Ok size -> size = zero_size.
Proof.
  unfold get_screen_info_dumpsys.
  erewrite bind_ok by apply execute_command_spec.
  destruct (adb _ _) as [c|e].
  - cbn [success output]. destruct (returncode c =? 0).
    + unfold bind at 1. unfold bind at 1. unfold lift at 1, item_output.
      cbn [output]. unfold ret at 1.
      destruct (parse_dumpsys (stdout c)) as [r|] eqn:Hp.
      * apply parse_dumpsys_raises in Hp as ->. discriminate.
      * now intros [= <-].
    + now intros [= <-].
  - destruct e; now intros [= <-].
Qed.

(** X3.  The display dump never yields a geometry.  What
    [get_screen_info] returns is the sentinel or the parse of the first
    pattern found in the output of a successful [wm size]. *)
Theorem get_screen_info_answers d s size :
  fst (get_screen_info adb d s) = Ok size ->
  size = zero_size
  \/ exists c,
       adb (length (trace s)) (shell d "wm size") = Ok c
       /\ returncode c = 0
       /\ first_match strategies (Text.strip (stdout c)) = Some (Ok size).
Proof.
  unfold get_screen_info.
  erewrite bind_ok by apply execute_command_spec.
  destruct (adb (length (trace s)) (shell d "wm size")) as [c|e] eqn:Hc.
  - cbn [success output]. destruct (returncode c =? 0) eqn:Hrc.
    + unfold bind at 1. unfold bind at 1. unfold lift at 1, item_output.
      cbn [output]. unfold ret at 1.
      rewrite parse_wm_size_first_match.
      destruct (first_match strategies (Text.strip (stdout c))) as [found|] eqn:Hf.
      * unfold lift. cbn [fst]. intros ->. right. exists c.
        apply Z.eqb_eq in Hrc. auto.
      * intros H. left. eapply get_screen_info_dumpsys_answers, H.
    + intros H. left. eapply get_screen_info_dumpsys_answers, H.
  - destruct e; intros H; left; eapply get_screen_info_dumpsys_answers, H.
Qed.

(** X4.  [mirror_key] sends [input keyevent <code>] to the master and
    then to every slave, in list order, whatever any of them answers. *)
Theorem mirror_key_reaches_master_and_slaves keycode s :
  mirror_key adb master_device slave_devices keycode s =
  (Ok tt,
   set_trace
     (trace s ++ shell master_device ("input keyevent " ++ keycode)
      :: map (fun slave => shell slave ("input keyevent " ++ keycode))
             slave_devices) s).
Proof.
  unfold mirror_key. erewrite bind_ok by apply send_master_spec.
  destruct slave_devices as [|d ds] eqn:Hs.
  - reflexivity.
  - rewrite <- Hs. unfold execute_on_slaves.
    destruct (for_each_send_plain adb slave_devices ("input keyevent " ++ keycode)
                (set_trace (trace s ++ [shell master_device
                                          ("input keyevent " ++ keycode)]) s))
      as (rs & Hrs & _).
    erewrite bind_ok by exact Hrs. unfold ret.
    cbn [trace set_trace]. rewrite set_trace_set_trace, <- app_assoc.
    reflexivity.
Qed.

Lemma scale_point_on_screen size cw ch rel_x rel_y px py :
  scale_point size cw ch rel_x rel_y = Ok (Some (px, py)) ->
  0 < width size -> 0 < height size ->
  0 <= px <= width size - 1 /\ 0 <= py <= height size - 1.
Proof.
  unfold scale_point, rbind. intros H Hw Hh.
  repeat match type of H with
         | context [match ?c with _ => _ end] =>
             destruct c eqn:?; try discriminate H
         end.
  all: injection H as <- <-; unfold Py.clamp; lia.
Qed.

(** X5.  A point [convert_to_phone_coords] maps lies on the master's
    screen: within [[0, width - 1] x [0, height - 1]] when the [try]
    block ran through, and within [[0, width] x [0, height]] when the
    point comes from the [except] block, which clamps to the full
    width and height. *)
Theorem convert_with_on_screen size win window_x window_y px py :
  0 < width size -> 0 < height size ->
  convert_with size win window_x window_y = Some (px, py) ->
  (0 <= px <= width size /\ 0 <= py <= height size)
  /\ (is_ok (convert_main size win window_x window_y) = true ->
      0 <= px <= width size - 1 /\ 0 <= py <= height size - 1).
Proof.
  intros Hw Hh. unfold convert_with.
  destruct ((width size =? 0) || (height size =? 0)); [discriminate|].
  destruct (convert_main size win window_x window_y) as [p|e] eqn:Hmain.
  - intros ->.
    assert (Hon : 0 <= px <= width size - 1 /\ 0 <= py <= height size - 1).
    { revert Hmain. unfold convert_main, rbind.
      destruct (GetWindowRect win) as [[[[wl wt] wr] wb]|]; [|discriminate].
      destruct (GetClientRect win) as [[[[cl ct] cr] cb]|]; [|discriminate].
      destruct (client_point _ _ _ _ _ _ _ _) as [rel_x rel_y].
      destruct ((0 <? cr - cl) && (0 <? cb - ct)); [|discriminate].
      intros H. eapply scale_point_on_screen; eauto. }
    split; [lia | intros _; exact Hon].
  - intros H. split; [|discriminate].
    revert H. unfold convert_fallback, rbind.
    destruct (GetWindowRect win) as [[[[wl wt] wr] wb]|]; [|discriminate].
    destruct ((0 <? wr - wl) && (0 <? wb - wt)); [|discriminate].
    destruct (Py.truediv (width size) (wr - wl)) as [scale_x|]; [|discriminate].
    destruct (Py.truediv (height size) (wb - wt)) as [scale_y|]; [|discriminate].
    destruct (Py.scaled (window_x - wl) scale_x) as [phone_x|]; [|discriminate].
    destruct (Py.scaled (window_y - wt) scale_y) as [phone_y|]; [|discriminate].
    intros [= <- <-]. unfold Py.clamp. lia.
Qed.

End Further.

Lemma tap_slave_point_on_screen_witness :
  let s := Scenario.two_phones_ready in
  let half := S754_finite false 4503599627370496 (-53) in
  exists px py,
    trace (snd (tap_slave Scenario.two_phones 540 1200 half half "S1" s)) =
      (trace s ++ [shell "S1" (input_tap px py)])%list
    /\ 0 <= px <= 720 - 1
    /\ 0 <= py <= 1600 - 1.
Proof.
  intros s half.
  apply (tap_slave_point_on_screen Scenario.two_phones 540 1200 half half
           "S1" s (mkSize 720 1600 (Some false)) s).
  - vm_compute. reflexivity.
  - simpl. lia.
  - simpl. lia.
  - intros _. split; vm_compute; reflexivity.
Defined.

Lemma get_screen_info_answers_witness :
  let size := mkSize 720 1600 (Some true) in
  size = zero_size
  \/ exists c,
       Scenario.scaled_display (length (trace new_session)) (shell "S1" "wm size")
         = Ok c
       /\ returncode c = 0
       /\ first_match strategies (Text.strip (stdout c)) = Some (Ok size).
Proof.
  intros size.
  apply (get_screen_info_answers Scenario.scaled_display "S1" new_session size).
  vm_compute. reflexivity.
Defined.

(** A click at the bottom right corner of a window whose client
    rectangle cannot be read: the [except] block answers the full
    width and height, one past the last pixel. *)
Lemma convert_with_on_screen_witness :
  let size := mkSize 1080 2400 (Some false) in
  let win := mkWindow (Ok (0, 0, 1080, 2400)) (Raise Win32Error) (Ok (0, 0)) in
  convert_with size win 1080 2400 = Some (1080, 2400)
  /\ (0 <= 1080 <= width size /\ 0 <= 2400 <= height size)
  /\ (is_ok (convert_main size win 1080 2400) = true ->
      0 <= 1080 <= width size - 1 /\ 0 <= 2400 <= height size - 1).
Proof.
  intros size win. split; [vm_compute; reflexivity|].
  apply (convert_with_on_screen size win 1080 2400 1080 2400).
  - simpl. lia.
  - simpl. lia.
  - vm_compute. reflexivity.
Defined.

(** ** Checks of the embedding against Python *)

(** [29 / 100] and [int(100 * (29 / 100)) = 28]: floats, not
    rationals. *)
Example truediv_29_100 :
  Py.truediv 29 100 = Ok (S754_finite false 5224175567749775 (-54))
  /\ (do r <~ Py.truediv 29 100; Py.scaled 100 r)%res = Ok 28.
Proof. split; reflexivity. Qed.

Example truediv_raises :
  Py.truediv 1 0 = Raise ZeroDivisionError
  /\ Py.truediv (10 ^ 400) 3 = Raise OverflowError
  /\ Py.truediv 1 (10 ^ 400) = Ok (S754_zero false)
  /\ Py.truediv 0 (-5) = Ok (S754_zero true).
Proof. repeat split; vm_compute; reflexivity. Qed.

Example int_of_float_truncates :
  (do r <~ Py.truediv (-7) 2; Py.int_of_float r)%res = Ok (-3).
Proof. reflexivity. Qed.

Example search_wm_size :
  Text.search true Text.re_override Scenario.scaled_display_output
    = Some ["720"; "1600"]
  /\ Text.search true Text.re_physical Scenario.scaled_display_output
      = Some ["1080"; "2400"]
  /\ Text.search true Text.re_size "12 34 X  56" = Some ["34"; "56"]
  /\ Text.search false Text.re_wxh "12 34 X  56" = None.
Proof. repeat split; vm_compute; reflexivity. Qed.

Example scan_devices_lists_devices :
  let adb (n : nat) (argv : list string) : Outcome :=
    Scenario.completed
      ("List of devices attached" ++ Scenario.nl
       ++ "192.168.1.100:5555" ++ String Text.tab "device" ++ Scenario.nl
       ++ "192.168.1.101:5555" ++ String Text.tab "offline" ++ Scenario.nl
       ++ "emulator-5554" ++ String Text.tab "device" ++ Scenario.nl
       ++ Scenario.nl) in
  fst (scan_devices adb new_session)
    = Ok ["192.168.1.100:5555"; "emulator-5554"].
Proof. vm_compute. reflexivity. Qed.

Example escape_text : escape "a b & c" = "a%sb%s\&%sc".
Proof. reflexivity. Qed.

Example str_renders :
  Text.str (-200) = "-200" /\ Text.str 0 = "0" /\ Text.str 1080 = "1080".
Proof. repeat split. Qed.


(** ** Texts *)

Section TextFacts.

Lemma append_cons c (a b : string) : String c a ++ b = String c (a ++ b).
Proof. reflexivity. Qed.

Lemma append_nil_r (s : string) : s ++ "" = s.
Proof. induction s; [reflexivity|]. rewrite append_cons. congruence. Qed.

Lemma append_assoc (a b c : string) : (a ++ b) ++ c = a ++ (b ++ c).
Proof. induction a; [reflexivity|]. rewrite !append_cons. congruence. Qed.

Lemma rev_onto_spec s acc : Text.rev_onto s acc = Text.rev s ++ acc.
Proof.
  unfold Text.rev. revert acc. induction s as [|c s IH]; intros acc; simpl.
  - reflexivity.
  - rewrite IH, (IH (String c "")), append_assoc. reflexivity.
Qed.

Lemma rev_cons c s : Text.rev (String c s) = Text.rev s ++ String c "".
Proof. unfold Text.rev at 1. simpl. apply rev_onto_spec. Qed.

Lemma rev_append a b : Text.rev (a ++ b) = Text.rev b ++ Text.rev a.
Proof.
  induction a as [|c a IH].
  - change ("" ++ b) with b. now rewrite append_nil_r.
  - now rewrite append_cons, !rev_cons, IH, append_assoc.
Qed.

Lemma rev_rev s : Text.rev (Text.rev s) = s.
Proof.
  induction s as [|c s IH]; [reflexivity|].
  now rewrite rev_cons, rev_append, IH.
Qed.

Lemma rev_nil s : Text.rev s = "" -> s = "".
Proof. intros H. rewrite <- (rev_rev s), H. reflexivity. Qed.

Lemma all_append p a b : Str.all p (a ++ b) = Str.all p a && Str.all p b.
Proof.
  induction a as [|c a IH]; [reflexivity|].
  rewrite append_cons. simpl. now rewrite IH, andb_assoc.
Qed.

Lemma all_rev p s : Str.all p (Text.rev s) = Str.all p s.
Proof.
  induction s as [|c s IH]; [reflexivity|].
  rewrite rev_cons, all_append, IH. simpl. rewrite andb_true_r. apply andb_comm.
Qed.

Lemma all_impl (p q : ascii -> bool) s :
  (forall c, p c = true -> q c = true) -> Str.all p s = true -> Str.all q s = true.
Proof.
  intros Hpq. induction s as [|c s IH]; simpl; [reflexivity|].
  intros [Hc Hs]%andb_true_iff. now rewrite (Hpq c Hc), IH.
Qed.

Lemma drop_while_all p ws t :
  Str.all p ws = true -> Text.drop_while p (ws ++ t) = Text.drop_while p t.
Proof.
  induction ws as [|c ws IH]; [reflexivity|].
  rewrite append_cons. simpl.
  intros [Hc Hs]%andb_true_iff. rewrite Hc. now apply IH.
Qed.

Lemma drop_while_nil p s : Text.drop_while p s = "" -> Str.all p s = true.
Proof.
  induction s as [|c s IH]; simpl; [reflexivity|].
  destruct (p c); [exact IH | discriminate].
Qed.

Lemma drop_while_head p s c t : Text.drop_while p s = String c t -> p c = false.
Proof.
  induction s as [|d s IH]; simpl; [discriminate|].
  destruct (p d) eqn:Hd; [exact IH | now intros [= <- _]].
Qed.

(** [strip] takes nothing off a text that starts and ends on a visible
    character, and all of the white space after it. *)
Lemma strip_trimmed body ws :
  trimmed body = true -> Str.all Text.is_space ws = true ->
  Text.strip (body ++ ws) = body.
Proof.
  unfold trimmed, Text.strip. intros Hb Hws.
  destruct body as [|c body']; [discriminate|].
  destruct (Text.rev (String c body')) as [|d r] eqn:Hrev; [discriminate|].
  apply andb_true_iff in Hb as [Hc Hd].
  apply negb_true_iff in Hc, Hd.
  rewrite append_cons. cbn [Text.drop_while]. rewrite Hc, <- append_cons.
  rewrite rev_append, drop_while_all by now rewrite all_rev.
  rewrite Hrev. cbn [Text.drop_while]. rewrite Hd, <- Hrev. apply rev_rev.
Qed.

(** A text that strips to nothing is white space throughout. *)
Lemma strip_nil s : Text.strip s = "" -> Str.all Text.is_space s = true.
Proof.
  unfold Text.strip. intros H. apply rev_nil, drop_while_nil in H.
  rewrite all_rev in H.
  destruct (Text.drop_while Text.is_space s) as [|c t] eqn:Hd.
  - now apply drop_while_nil.
  - apply drop_while_head in Hd. simpl in H. now rewrite Hd in H.
Qed.

Lemma split_on_whole sep a :
  Str.all (fun c => negb (Ascii.eqb c sep)) a = true ->
  Text.split_on sep a = [a].
Proof.
  induction a as [|c a IH]; simpl; [reflexivity|].
  intros [Hc Ha]%andb_true_iff. apply negb_true_iff in Hc. rewrite Hc.
  now rewrite IH.
Qed.

Lemma split_on_append sep a b :
  Str.all (fun c => negb (Ascii.eqb c sep)) a = true ->
  Text.split_on sep (a ++ String sep b) = a :: Text.split_on sep b.
Proof.
  induction a as [|c a IH].
  - intros _. change ("" ++ String sep b) with (String sep b). simpl.
    now rewrite Ascii.eqb_refl.
  - rewrite append_cons. simpl.
    intros [Hc Ha]%andb_true_iff. apply negb_true_iff in Hc. rewrite Hc.
    now rewrite IH.
Qed.

Lemma prefix_cons a s1 b s2 :
  String.prefix (String a s1) (String b s2) = Ascii.eqb a b && String.prefix s1 s2.
Proof.
  simpl. destruct (Ascii.eqb_spec a b) as [->|Hne].
  - now destruct (ascii_dec b b).
  - now destruct (ascii_dec a b).
Qed.

(** A text in which the first character of the needle does not occur
    does not hold the needle. *)
Lemma contains_absent a needle s :
  Str.all (fun c => negb (Ascii.eqb c a)) s = true ->
  Text.contains (String a needle) s = false.
Proof.
  induction s as [|c s IH]; [reflexivity|].
  intros [Hc Hs]%andb_true_iff. apply negb_true_iff in Hc.
  cbn [Text.contains]. rewrite prefix_cons, IH by exact Hs.
  rewrite Ascii.eqb_sym, Hc. reflexivity.
Qed.

Lemma contains_after a needle s t :
  Str.all (fun c => negb (Ascii.eqb c a)) s = true ->
  Str.all (fun c => negb (Ascii.eqb c a)) t = true ->
  Text.contains (String a needle) (s ++ String a t) = String.prefix needle t.
Proof.
  intros Hs Ht. induction s as [|c s IH].
  - change ("" ++ String a t) with (String a t).
    cbn [Text.contains]. rewrite prefix_cons, Ascii.eqb_refl.
    rewrite contains_absent by exact Ht. now rewrite orb_false_r.
  - apply andb_true_iff in Hs as [Hc Hs]. apply negb_true_iff in Hc.
    rewrite append_cons.
    cbn [Text.contains]. rewrite prefix_cons, IH by exact Hs.
    rewrite Ascii.eqb_sym, Hc. reflexivity.
Qed.

End TextFacts.

(** ** Listing the devices *)

Lemma solid_no_char a s :
  Text.is_space a = true ->
  Str.solid s = true -> Str.all (fun c => negb (Ascii.eqb c a)) s = true.
Proof.
  intros Ha. apply all_impl. intros c Hc.
  destruct (Ascii.eqb_spec c a) as [->|]; [|reflexivity].
  now rewrite Ha in Hc.
Qed.

(** The last character of a text that ends on a text without white
    space is visible. *)
Lemma rev_solid_head a b :
  Str.solid b = true -> b <> "" ->
  exists d r, Text.rev (a ++ b) = String d r /\ Text.is_space d = false.
Proof.
  intros Hb Hne. rewrite rev_append.
  destruct (Text.rev b) as [|d r] eqn:Hrev.
  - now apply rev_nil in Hrev.
  - exists d, (r ++ Text.rev a). split; [reflexivity|].
    unfold Str.solid in Hb. rewrite <- all_rev, Hrev in Hb. simpl in Hb.
    apply andb_true_iff in Hb as [Hd _]. now apply negb_true_iff in Hd.
Qed.

Lemma device_rows_end header rows :
  trimmed header = true ->
  Forall (fun row => row_ok row = true) rows ->
  trimmed (header ++ device_rows rows) = true.
Proof.
  intros Hh Hrows. unfold trimmed in *.
  destruct header as [|c header']; [discriminate|].
  rewrite append_cons.
  destruct (Text.rev (String c header')) as [|d r] eqn:Hrev; [discriminate|].
  apply andb_true_iff in Hh as [Hc Hd]. rewrite <- append_cons.
  destruct rows as [|row rows].
  - simpl. rewrite append_nil_r, Hrev. now rewrite Hc, Hd.
  - assert (Hlast : exists pre st,
               device_rows (row :: rows) = pre ++ st
               /\ Str.solid st = true /\ st <> "").
    { clear Hrev. revert row Hrows. induction rows as [|row' rows IH]; intros row Hrows.
      - inversion Hrows as [|? ? Hrow _]; subst.
        unfold row_ok in Hrow.
        apply andb_true_iff in Hrow as [[_ Hst]%andb_true_iff Hne].
        exists (String Text.newline (fst row ++ String Text.tab "")), (snd row).
        split; [|split; [exact Hst|]].
        + simpl. rewrite append_nil_r. unfold device_row.
          rewrite append_cons, append_assoc. reflexivity.
        + intros E. now rewrite E in Hne.
      - inversion Hrows as [|? ? _ Hrest]; subst.
        destruct (IH row' Hrest) as (pre & st & Hpre & Hst & Hne).
        exists (String Text.newline (device_row row) ++ pre), st.
        split; [|now split].
        change (device_rows (row :: row' :: rows))
          with (String Text.newline (device_row row) ++ device_rows (row' :: rows)).
        now rewrite Hpre, append_assoc. }
    destruct Hlast as (pre & st & -> & Hst & Hne).
    rewrite <- append_assoc.
    destruct (rev_solid_head (String c header' ++ pre) st Hst Hne)
      as (d' & r' & -> & Hd').
    now rewrite Hc, Hd'.
Qed.

Lemma split_device_rows header rows :
  Str.all (fun c => negb (Ascii.eqb c Text.newline)) header = true ->
  Forall (fun row => row_ok row = true) rows ->
  Text.split_on Text.newline (header ++ device_rows rows)
    = header :: map device_row rows.
Proof.
  revert header. induction rows as [|row rows IH]; intros header Hh Hrows.
  - simpl. rewrite append_nil_r. now apply split_on_whole.
  - inversion Hrows as [|? ? Hrow Hrest]; subst.
    change (device_rows (row :: rows))
      with (String Text.newline (device_row row) ++ device_rows rows).
    rewrite append_cons, split_on_append by exact Hh.
    rewrite IH; [reflexivity| |exact Hrest].
    unfold row_ok in Hrow.
    apply andb_true_iff in Hrow as [[Hid Hst]%andb_true_iff _].
    unfold device_row. rewrite all_append. simpl.
    rewrite !solid_no_char by (assumption || reflexivity). reflexivity.
Qed.

(** The test [line.strip() and '\tdevice' in line] on a row: the state
    starts with [device]. *)
Lemma device_line_row row :
  row_ok row = true -> device_line (device_row row) = ready row.
Proof.
  unfold row_ok, device_line, device_row, ready.
  intros [[Hid Hst]%andb_true_iff _]%andb_true_iff.
  rewrite contains_after by (apply solid_no_char; [reflexivity|assumption]).
  destruct (String.prefix "device" (snd row)) eqn:Hp; [|apply andb_false_r].
  rewrite andb_true_r. apply negb_true_iff, String.eqb_neq. intros Hnil.
  apply strip_nil in Hnil. rewrite all_append in Hnil. simpl in Hnil.
  destruct (snd row) as [|c st]; [discriminate|].
  rewrite prefix_cons in Hp. apply andb_true_iff in Hp as [Hc _].
  apply Ascii.eqb_eq in Hc. subst c. simpl in Hnil.
  now rewrite andb_false_r in Hnil.
Qed.

Lemma device_id_row row :
  row_ok row = true -> hd "" (Text.split_on Text.tab (device_row row)) = fst row.
Proof.
  unfold row_ok, device_row.
  intros [[Hid _]%andb_true_iff _]%andb_true_iff.
  rewrite split_on_append by (apply solid_no_char; [reflexivity|assumption]).
  reflexivity.
Qed.

Lemma filter_cons_bool {A} (p : A -> bool) x l :
  filter p (x :: l) = if p x then x :: filter p l else filter p l.
Proof. rewrite filter_cons. now destruct (p x). Qed.

Lemma filter_device_rows rows :
  Forall (fun row => row_ok row = true) rows ->
  map (fun line => hd "" (Text.split_on Text.tab line))
      (filter device_line (map device_row rows))
    = map fst (filter ready rows).
Proof.
  induction 1 as [|row rows Hrow _ IH]; [reflexivity|].
  cbn [map]. rewrite !filter_cons_bool, device_line_row by exact Hrow.
  destruct (ready row); cbn [map]; [|exact IH].
  now rewrite device_id_row, IH.
Qed.

Lemma flat_map_filter {A B} (p : A -> bool) (f : A -> B) (q : B -> bool) l :
  flat_map (fun a => if p a then if q (f a) then [f a] else [] else []) l
    = filter q (map f (filter p l)).
Proof.
  induction l as [|a l IH]; [reflexivity|].
  cbn [flat_map]. rewrite filter_cons_bool.
  destruct (p a); cbn [map app]; [|exact IH].
  rewrite filter_cons_bool. destruct (q (f a)); cbn [app]; now rewrite IH.
Qed.

Section Listing.

Variable adb : nat -> list string -> Outcome.

(** X6.  [scan_devices] never raises.  It spawns [adb devices] once;
    when that process completes with status 0 the list it returns is
    also the list it stores in [devices]; when it exits with another
    status or cannot be run the value is [[]] while [devices] keeps the
    list of the scan before. *)
Theorem scan_devices_keeps_devices_on_failure s :
  exists found,
    fst (scan_devices adb s) = Ok found
    /\ trace (snd (scan_devices adb s)) = (trace s ++ [["adb"; "devices"]])%list
    /\ (completed_ok (adb (length (trace s)) ["adb"; "devices"]) = true ->
        devices (snd (scan_devices adb s)) = found)
    /\ (completed_ok (adb (length (trace s)) ["adb"; "devices"]) = false ->
        found = [] /\ devices (snd (scan_devices adb s)) = devices s).
Proof.
  unfold scan_devices, try_except, bind, subprocess_run, modify, ret, completed_ok.
  destruct (adb (length (trace s)) ["adb"; "devices"]) as [c|e].
  - cbn [andb]. destruct (returncode c =? 0); cbn [negb].
    + eexists. split; [reflexivity|]. split; [reflexivity|].
      split; [intros _; reflexivity | intros H; discriminate H].
    + exists []. split; [reflexivity|]. split; [reflexivity|].
      split; [intros H; discriminate H | intros _; split; reflexivity].
  - exists []. split; [reflexivity|]. split; [reflexivity|].
    split; [intros H; discriminate H | intros _; split; reflexivity].
Qed.

(** X7.  On the output [adb devices] prints (a header line, one row
    [serial<TAB>state] per device, an empty line) [scan_devices] lists,
    in order, the serials of exactly the rows whose state starts with
    [device], and stores that list in [devices]. *)
Theorem scan_devices_lists_ready_rows header rows c s :
  adb (length (trace s)) ["adb"; "devices"] = Ok c ->
  returncode c = 0 ->
  stdout c = adb_devices_output header rows ->
  header_ok header = true ->
  Forall (fun row => row_ok row = true) rows ->
  scan_devices adb s =
    (Ok (map fst (filter ready rows)),
     set_devices (map fst (filter ready rows))
       (set_trace (trace s ++ [["adb"; "devices"]]) s)).
Proof.
  intros Hadb Hrc Hout [Hh Hnl]%andb_true_iff Hrows.
  unfold scan_devices, try_except, bind, subprocess_run, modify, ret.
  rewrite Hadb, Hrc. cbn [andb negb Z.eqb]. rewrite Hout.
  unfold adb_devices_output. rewrite <- append_assoc.
  rewrite strip_trimmed by (try reflexivity; now apply device_rows_end).
  rewrite split_device_rows by assumption.
  cbn [tl]. now rewrite filter_device_rows.
Qed.

(** X8.  [get_wifi_devices] is [scan_devices] seen through a filter:
    whatever the bridge answers, it returns the devices [scan_devices]
    would list whose serial holds a colon, in the same order, makes the
    same single call, and leaves [devices] alone. *)
Theorem get_wifi_devices_filters_scan s :
  fst (get_wifi_devices adb s) =
    Ok (filter (Text.contains ":") (value_of (fst (scan_devices adb s))))
  /\ trace (snd (get_wifi_devices adb s)) = trace (snd (scan_devices adb s))
  /\ devices (snd (get_wifi_devices adb s)) = devices s.
Proof.
  unfold get_wifi_devices, scan_devices, try_except, bind, subprocess_run,
    modify, ret.
  destruct (adb (length (trace s)) ["adb"; "devices"]) as [c|e].
  - cbn [andb]. destruct (returncode c =? 0); cbn [negb].
    + cbn [fst snd value_of]. rewrite flat_map_filter. now repeat split.
    + now repeat split.
  - now repeat split.
Qed.

End Listing.

Lemma scan_devices_lists_ready_rows_witness :
  scan_devices More.adb_devices new_session =
    (Ok ["192.168.1.100:5555"; "emulator-5554"],
     set_devices ["192.168.1.100:5555"; "emulator-5554"]
       (set_trace [["adb"; "devices"]] new_session)).
Proof.
  apply (scan_devices_lists_ready_rows More.adb_devices
           "List of devices attached" More.three_rows
           (mkCompleted 0 (adb_devices_output "List of devices attached"
                                              More.three_rows) "")
           new_session).
  - reflexivity.
  - reflexivity.
  - reflexivity.
  - vm_compute. reflexivity.
  - repeat constructor.
Defined.

(** ** The rest of PhoneController *)

Lemma amp_guarded_escape_each text b :
  amp_guarded b (escape_each text) = true.
Proof.
  revert b. induction text as [|c text IH]; intros b; [reflexivity|].
  cbn [escape_each]. unfold escape_char.
  destruct (Ascii.eqb c " ") eqn:Hsp.
  - rewrite !append_cons. change ("" ++ escape_each text) with (escape_each text).
    cbn [amp_guarded]. change (Ascii.eqb "%" "&") with false.
    change (Ascii.eqb "s" "&") with false. cbn [andb]. apply IH.
  - destruct (Ascii.eqb c "&") eqn:Hamp.
    + rewrite !append_cons. change ("" ++ escape_each text) with (escape_each text).
      cbn [amp_guarded]. change (Ascii.eqb Text.backslash "&") with false.
      rewrite Ascii.eqb_refl. cbn [andb].
      change (Ascii.eqb "&" "&") with true. cbn [andb]. apply IH.
    + rewrite append_cons. change ("" ++ escape_each text) with (escape_each text).
      cbn [amp_guarded]. rewrite Hamp. cbn [andb]. apply IH.
Qed.

Lemma no_space_escape_each text :
  Str.all (fun c => negb (Ascii.eqb c " ")) (escape_each text) = true.
Proof.
  induction text as [|c text IH]; [reflexivity|].
  cbn [escape_each]. rewrite all_append, IH, andb_true_r. unfold escape_char.
  destruct (Ascii.eqb c " ") eqn:Hsp; [reflexivity|].
  destruct (Ascii.eqb c "&"); [reflexivity|].
  cbn [Str.all]. now rewrite Hsp.
Qed.

(** X9.  The escaping of [input_text], [input_text_all] and
    [mirror_text] leaves no space in the text, and every ampersand of
    the escaped text comes right after a backslash. *)
Theorem escape_leaves_no_space text :
  Str.all (fun c => negb (Ascii.eqb c " ")) (escape text) = true
  /\ amp_guarded false (escape text) = true.
Proof.
  rewrite escape_is_escape_each. split.
  - apply no_space_escape_each.
  - apply amp_guarded_escape_each.
Qed.

Lemma match_here_groups ic p s g :
  Text.match_here ic p s = Some g -> length g = groups p.
Proof.
  revert s g. induction p as [|a p IH]; intros s g; simpl.
  - now intros [= <-].
  - destruct a.
    + destruct s as [|d s]; [discriminate|].
      destruct (Text.char_eqb ic c d); [apply IH | discriminate].
    + apply IH.
    + destruct (Text.take_while Text.is_digit s) as [|d ds]; [discriminate|].
      destruct (Text.match_here ic p _) as [g'|] eqn:Hm; [|discriminate].
      intros [= <-]. simpl. f_equal. eapply IH, Hm.
Qed.

Lemma search_groups ic p s g :
  Text.search ic p s = Some g -> length g = groups p.
Proof.
  induction s as [|c s IH]; simpl.
  - destruct (Text.match_here ic p "") eqn:Hm; [|discriminate].
    intros [= <-]. eapply match_here_groups, Hm.
  - destruct (Text.match_here ic p (String c s)) eqn:Hm.
    + intros [= <-]. eapply match_here_groups, Hm.
    + exact IH.
Qed.

Lemma size_of_match_ok m ov :
  length m = 2%nat -> exists size, size_of_match m ov = Ok size.
Proof.
  destruct m as [|w [|h [|? ?]]]; try discriminate.
  intros _. eexists. reflexivity.
Qed.

(** A match of one of the [wm size] patterns always parses. *)
Lemma parse_wm_size_ok output r :
  parse_wm_size output = Some r -> exists size, r = Ok size.
Proof.
  unfold parse_wm_size.
  destruct (Text.search true Text.re_override output) as [m|] eqn:H1.
  { intros [= <-]. apply size_of_match_ok. now apply search_groups in H1. }
  destruct (Text.search true Text.re_physical output) as [m|] eqn:H2.
  { intros [= <-]. apply size_of_match_ok. now apply search_groups in H2. }
  destruct (Text.search true Text.re_size output) as [m|] eqn:H3; [|discriminate].
  intros [= <-]. apply size_of_match_ok. now apply search_groups in H3.
Qed.

Section Controller.

Variable adb : nat -> list string -> Outcome.

(** [get_screen_info] in closed form: the answer of [wm size] when it
    ran and matched; otherwise the [IndexError] of the display dump
    when that ran and matched, the sentinel when it did not. *)
Lemma get_screen_info_closed d s :
  fst (get_screen_info adb d s) =
    match wm_size_answer (adb (length (trace s)) (shell d "wm size")) with
    | Some r => r
    | None =>
        if dump_found (adb (S (length (trace s)))
                           (shell d "dumpsys window displays"))
        then Raise IndexError else Ok zero_size
    end.
Proof.
  assert (Hdump : forall s1,
    fst (get_screen_info_dumpsys adb d s1) =
      if dump_found (adb (length (trace s1)) (shell d "dumpsys window displays"))
      then Raise IndexError else Ok zero_size).
  { intros s1. unfold get_screen_info_dumpsys, dump_found.
    erewrite bind_ok by apply execute_command_spec.
    destruct (adb _ _) as [c|e].
    - cbn [success output]. destruct (returncode c =? 0).
      + unfold bind at 1. unfold bind at 1. unfold lift at 1, item_output.
        cbn [output]. unfold ret at 1. unfold parse_dumpsys.
        destruct (Text.search false Text.re_display_width (stdout c)) as [wm|] eqn:Hw;
          [|reflexivity].
        destruct (Text.search false Text.re_display_height (stdout c)) as [hm|] eqn:Hh;
          [|reflexivity].
        apply search_lit_digits in Hh as [h ->].
        apply search_lit_digits in Hw as [w ->]. reflexivity.
      + reflexivity.
    - destruct e; reflexivity. }
  assert (Hnext : forall s0,
    length (trace (set_trace (trace s ++ [shell d "wm size"]) s0))
      = S (length (trace s))).
  { intros s0. simpl. rewrite length_app. simpl. lia. }
  unfold get_screen_info, wm_size_answer.
  erewrite bind_ok by apply execute_command_spec.
  destruct (adb (length (trace s)) (shell d "wm size")) as [c|e].
  - cbn [success output]. destruct (returncode c =? 0).
    + unfold bind at 1. unfold bind at 1. unfold lift at 1, item_output.
      cbn [output]. unfold ret at 1.
      destruct (parse_wm_size (Text.strip (stdout c))) as [r|]; [reflexivity|].
      now rewrite Hdump, Hnext.
    + unfold bind at 1, ret at 1. now rewrite Hdump, Hnext.
  - assert (He : forall r : CmdResult, success r = false ->
              fst ((do found <- (if success r
                                 then do output <- lift (item_output r);
                                      ret (parse_wm_size (Text.strip output))
                                 else ret None);
                    match found with
                    | Some size => lift size
                    | None => get_screen_info_dumpsys adb d
                    end) (set_trace (trace s ++ [shell d "wm size"]) s))
              = if dump_found (adb (S (length (trace s)))
                                   (shell d "dumpsys window displays"))
                then Raise IndexError else Ok zero_size).
    { intros r Hr. rewrite Hr. unfold bind at 1, ret at 1.
      now rewrite Hdump, Hnext. }
    destruct e; apply He; reflexivity.
Qed.

Lemma wm_size_answer_ok o r :
  wm_size_answer o = Some r -> exists size, r = Ok size.
Proof.
  unfold wm_size_answer. destruct o as [c|]; [|discriminate].
  destruct (returncode c =? 0); [|discriminate].
  apply parse_wm_size_ok.
Qed.

(** The one exception [get_screen_info] can raise. *)
Lemma get_screen_info_raises_index d s e :
  fst (get_screen_info adb d s) = Raise e -> e = IndexError.
Proof.
  rewrite get_screen_info_closed.
  destruct (wm_size_answer _) as [r|] eqn:Hwm.
  - apply wm_size_answer_ok in Hwm as [size ->]. discriminate.
  - destruct (dump_found _); [now intros [= <-] | discriminate].
Qed.


(** X11.  A geometry [get_screen_info] returns never has a negative
    width or height. *)
Theorem get_screen_info_nonnegative d s size :
  fst (get_screen_info adb d s) = Ok size ->
  0 <= width size /\ 0 <= height size.
Proof.
  rewrite get_screen_info_closed.
  destruct (wm_size_answer _) as [r|] eqn:Hwm.
  - intros ->. unfold wm_size_answer in Hwm.
    destruct (adb _ _) as [c|]; [|discriminate].
    destruct (returncode c =? 0); [|discriminate].
    eapply parse_wm_size_nonneg, Hwm.
  - destruct (dump_found _); [discriminate|].
    intros [= <-]. simpl. lia.
Qed.

Lemma for_each_install_app apk ds s :
  for_each (fun d => install_app adb d apk) ds s =
    (Ok (imap (fun i d => install_outcome adb apk (length (trace s) + i) d) ds),
     set_trace (trace s ++ map (fun d => install_argv d apk) ds) s).
Proof.
  revert s. induction ds as [|d ds IH]; intros s.
  - simpl. now rewrite app_nil_r, set_trace_id.
  - cbn [for_each].
    assert (Hone : install_app adb d apk s =
              (Ok (install_outcome adb apk (length (trace s)) d),
               set_trace (trace s ++ [install_argv d apk]) s)).
    { unfold install_app, install_outcome, install_argv, try_except, bind,
        subprocess_run, ret. simpl.
      destruct (adb _ _); reflexivity. }
    erewrite bind_ok by exact Hone.
    erewrite bind_ok by apply IH.
    unfold ret. cbn [trace set_trace]. rewrite set_trace_set_trace, <- app_assoc.
    cbn [imap map app]. rewrite Nat.add_0_r. do 3 f_equal.
    apply imap_ext. intros i x _. cbn. rewrite length_app. cbn [length].
    f_equal. lia.
Qed.


(** X13.  With devices, [install_app_all] never raises: it runs
    [adb -s <device> install <apk>] once per device and returns one
    result per device (in completion order), whose success flag tells
    whether the installer printed [Success], whatever its exit status. *)
Theorem install_app_all_one_result_per_device
    (as_completed : list CmdResult -> list CmdResult)
    (Hperm : forall l, Permutation (as_completed l) l) apk s :
  devices s <> [] ->
  let submitted :=
    imap (fun i d => install_outcome adb apk (length (trace s) + i) d)
         (devices s) in
  install_app_all adb as_completed apk s =
    (Ok (as_completed submitted),
     set_trace (trace s ++ map (fun d => install_argv d apk) (devices s)) s)
  /\ Permutation (map device_id (as_completed submitted)) (devices s).
Proof.
  intros Hd submitted. split.
  - unfold install_app_all, bind at 1, get.
    destruct (devices s) as [|d ds] eqn:E; [contradiction|].
    erewrite bind_ok by apply for_each_install_app. reflexivity.
  - rewrite Hperm. subst submitted.
    assert (Hids : forall n ds,
      map device_id (imap (fun i d => install_outcome adb apk (n + i) d) ds) = ds).
    { intros n ds. revert n. induction ds as [|d ds IH]; intros n; [reflexivity|].
      cbn [imap map]. f_equal.
      - unfold install_outcome. now destruct (adb _ _).
      - rewrite <- (IH (S n)) at 2. f_equal. apply imap_ext. intros i x _.
        cbn. f_equal. lia. }
    now rewrite Hids.
Qed.

(** X14.  [take_screenshot] never raises.  The file is pulled only
    after [screencap] exited with status 0, and the result reports
    success, with the path, exactly when both processes exited with
    status 0. *)
Theorem take_screenshot_pulls_after_capture d save_path s :
  let path := default ("screenshot_" ++ d ++ ".png") save_path in
  let n := length (trace s) in
  exists shot s',
    take_screenshot adb d save_path s = (Ok shot, s')
    /\ shot_device shot = d
    /\ trace s' =
         (trace s ++ screencap_argv d ::
            if completed_ok (adb n (screencap_argv d))
            then [pull_argv d path] else [])%list
    /\ shot_success shot =
         completed_ok (adb n (screencap_argv d))
         && completed_ok (adb (S n) (pull_argv d path))
    /\ shot_path shot = if shot_success shot then Some path else None.
Proof.
  intros path n. subst n.
  assert (Hpath : match save_path with
                  | Some p => p
                  | None => "screenshot_" ++ d ++ ".png"
                  end = path) by now destruct save_path.
  unfold take_screenshot. rewrite Hpath.
  unfold try_except, bind, subprocess_run, ret, completed_ok.
  destruct (adb (length (trace s)) (screencap_argv d)) as [c1|e1].
  - cbn [andb]. destruct (returncode c1 =? 0); cbn [negb].
    + cbn [trace set_trace]. rewrite length_app. cbn [length].
      rewrite Nat.add_1_r.
      destruct (adb (S (length (trace s))) (pull_argv d path)) as [c2|e2].
      * cbn [andb]. destruct (returncode c2 =? 0); cbn [negb];
          eexists _, _; (split; [reflexivity|]); cbn;
          rewrite <- ?app_assoc; auto.
      * eexists _, _. split; [reflexivity|]. cbn. rewrite <- ?app_assoc. auto.
    + eexists _, _. split; [reflexivity|]. cbn. auto.
  - eexists _, _. split; [reflexivity|]. cbn. auto.
Qed.

Lemma get_device_info_loop_spec d items info s :
  List.NoDup (map fst items) ->
  exists info',
    get_device_info_loop adb d items info s =
      (Ok info', set_trace (trace s ++ map (fun kc => shell d (snd kc)) items) s)
    /\ (forall i key cmd,
          nth_error items i = Some (key, cmd) ->
          info' !! key =
            match getprop adb d (length (trace s) + i) cmd with
            | Some v => Some v
            | None => info !! key
            end)
    /\ (forall key, ~ In key (map fst items) -> info' !! key = info !! key).
Proof.
  revert info s. induction items as [|[key cmd] items IH]; intros info s Hnd.
  - exists info. simpl. rewrite app_nil_r, set_trace_id.
    split; [reflexivity|]. split; [|reflexivity].
    intros [|i] ? ? H; discriminate H.
  - inversion Hnd as [|? ? Hfresh Hnd']; subst.
    cbn [get_device_info_loop].
    erewrite bind_ok by apply execute_command_spec.
    set (s1 := set_trace (trace s ++ [shell d cmd]) s).
    set (info1 := match getprop adb d (length (trace s)) cmd with
                  | Some v => <[key := v]> info
                  | None => info
                  end).
    assert (Hstep :
      (if success (match adb (length (trace s)) (shell d cmd) with
                   | Ok c => mkCmdResult d (returncode c =? 0)
                               (Some (stdout c)) (Some (Stderr (stderr c)))
                   | Raise TimeoutExpired =>
                       mkCmdResult d false None (Some (Message "Command timeout"))
                   | Raise e => mkCmdResult d false None (Some (StrOf e))
                   end)
       then do output <- lift (item_output
                 (match adb (length (trace s)) (shell d cmd) with
                  | Ok c => mkCmdResult d (returncode c =? 0)
                              (Some (stdout c)) (Some (Stderr (stderr c)))
                  | Raise TimeoutExpired =>
                      mkCmdResult d false None (Some (Message "Command timeout"))
                  | Raise e => mkCmdResult d false None (Some (StrOf e))
                  end));
            ret (<[key := Text.strip output]> info)
       else ret info) s1 = (Ok info1, s1)).
    { subst info1. unfold getprop.
      destruct (adb (length (trace s)) (shell d cmd)) as [c|e].
      - cbn [success]. destruct (returncode c =? 0); reflexivity.
      - destruct e; reflexivity. }
    erewrite bind_ok by exact Hstep.
    destruct (IH info1 s1 Hnd') as (info' & Hrun & Hat & Hout).
    exists info'. split; [|split].
    + rewrite Hrun. subst s1. cbn [trace set_trace map].
      rewrite set_trace_set_trace, <- app_assoc. reflexivity.
    + intros [|i] key' cmd' Hnth.
      * injection Hnth as <- <-. rewrite Nat.add_0_r.
        rewrite (Hout key Hfresh). subst info1.
        destruct (getprop adb d (length (trace s)) cmd); [|reflexivity].
        apply lookup_insert_eq.
      * cbn [nth_error] in Hnth. rewrite (Hat i key' cmd' Hnth).
        subst s1. cbn [trace set_trace]. rewrite length_app. cbn [length].
        replace (length (trace s) + 1 + i)%nat with (length (trace s) + S i)%nat by lia.
        destruct (getprop adb d (length (trace s) + S i) cmd'); [reflexivity|].
        subst info1.
        destruct (getprop adb d (length (trace s)) cmd); [|reflexivity].
        apply lookup_insert_ne. intros ->. apply Hfresh.
        apply nth_error_In in Hnth. now apply (in_map fst) in Hnth.
    + intros key' Hnot. rewrite Hout by (intros H; apply Hnot; now right).
      subst info1.
      destruct (getprop adb d (length (trace s)) cmd); [|reflexivity].
      apply lookup_insert_ne. intros ->. apply Hnot. now left.
Qed.

(** X15.  [get_device_info] never raises and always asks its four
    [getprop] questions, in the order model, brand, android_version,
    serial.  The dict it returns holds a key exactly when that key's
    process exited with status 0, mapped to the stripped output, and
    holds no other key. *)
Theorem get_device_info_answers d s :
  let n := length (trace s) in
  exists info,
    get_device_info adb d s =
      (Ok info,
       set_trace (trace s ++ [shell d "getprop ro.product.model";
                              shell d "getprop ro.product.brand";
                              shell d "getprop ro.build.version.release";
                              shell d "getprop ro.serialno"]) s)
    /\ info !! "model" = getprop adb d n "getprop ro.product.model"
    /\ info !! "brand" = getprop adb d (n + 1) "getprop ro.product.brand"
    /\ info !! "android_version" =
         getprop adb d (n + 2) "getprop ro.build.version.release"
    /\ info !! "serial" = getprop adb d (n + 3) "getprop ro.serialno"
    /\ (forall key, ~ In key ["model"; "brand"; "android_version"; "serial"] ->
                    info !! key = None).
Proof.
  intros n. subst n.
  destruct (get_device_info_loop_spec d commands ∅ s) as (info & Hrun & Hat & Hout).
  { repeat constructor; simpl; intuition discriminate. }
  exists info. split; [exact Hrun|].
  pose proof (Hat 0%nat _ _ eq_refl) as H0.
  pose proof (Hat 1%nat _ _ eq_refl) as H1.
  pose proof (Hat 2%nat _ _ eq_refl) as H2.
  pose proof (Hat 3%nat _ _ eq_refl) as H3.
  rewrite Nat.add_0_r in H0. rewrite lookup_empty in H0, H1, H2, H3.
  repeat split.
  - rewrite H0. now destruct (getprop adb d (length (trace s)) _).
  - rewrite H1. now destruct (getprop adb d (length (trace s) + 1) _).
  - rewrite H2. now destruct (getprop adb d (length (trace s) + 2) _).
  - rewrite H3. now destruct (getprop adb d (length (trace s) + 3) _).
  - intros key Hnot. rewrite (Hout key Hnot). apply lookup_empty.
Qed.

End Controller.


Lemma install_app_all_one_result_per_device_witness :
  let s := set_devices ["M"; "S1"] new_session in
  install_app_all Scenario.two_phones (@List.rev CmdResult) "app.apk" s =
    (Ok [mkCmdResult "S1" false (Some "") None; mkCmdResult "M" false (Some "") None],
     set_trace [install_argv "M" "app.apk"; install_argv "S1" "app.apk"] s)
  /\ Permutation ["S1"; "M"] ["M"; "S1"].
Proof.
  intros s.
  apply (install_app_all_one_result_per_device
           Scenario.two_phones (@List.rev CmdResult)
           (fun l => Permutation_sym (Permutation_rev l)) "app.apk" s).
  discriminate.
Defined.

Lemma get_screen_info_nonnegative_witness :
  let size := mkSize 720 1600 (Some true) in
  fst (get_screen_info Scenario.scaled_display "S1" new_session) = Ok size
  /\ 0 <= width size /\ 0 <= height size.
Proof.
  intros size.
  assert (H : fst (get_screen_info Scenario.scaled_display "S1" new_session)
              = Ok size) by (vm_compute; reflexivity).
  split; [exact H|].
  exact (get_screen_info_nonnegative Scenario.scaled_display "S1" new_session
           size H).
Defined.


(** ** The rest of ScreenMirrorController *)

#[export] Instance only_asked_preorder : PreOrder only_asked.
Proof.
  split.
  - intros s. exists []. split; [now rewrite app_nil_r | reflexivity].
  - intros s1 s2 s3 (q1 & H1 & N1) (q2 & H2 & N2).
    exists (q1 ++ q2)%list. split.
    + now rewrite H2, H1, app_assoc.
    + intros n. now rewrite inputs_from_app, N1, N2.
Qed.

Lemma only_asked_query argv s :
  is_input argv = false -> only_asked s (set_trace (trace s ++ [argv]) s).
Proof.
  intros H. exists [argv]. split; [reflexivity|].
  intros n. simpl. now rewrite H.
Qed.

Lemma only_asked_set_master m s : only_asked s (set_master_screen_size m s).
Proof. exists []. split; [simpl; now rewrite app_nil_r | reflexivity]. Qed.

#[export] Hint Resolve only_asked_query only_asked_set_master : frames.

Section ControllerRest.

Variable adb : nat -> list string -> Outcome.
Variable master_device : string.
Variable slave_devices : list string.

Lemma get_master_screen_size_only_asked :
  respects only_asked (get_master_screen_size adb master_device).
Proof.
  unfold get_master_screen_size, get_master_screen_size_ref,
    resolve_or_sentinel, resolve_master.
  frame.
Qed.

Lemma for_each_send_plain_closed slaves command s :
  for_each (fun d => send_plain adb d command) slaves s =
    (Ok (imap (fun i d => slave_outcome adb command (length (trace s) + i) d) slaves),
     set_trace (trace s ++ map (fun d => shell d command) slaves) s).
Proof.
  revert s. induction slaves as [|d ds IH]; intros s.
  - simpl. now rewrite app_nil_r, set_trace_id.
  - cbn [for_each].
    erewrite bind_ok by apply send_plain_spec.
    erewrite bind_ok by apply IH.
    unfold ret. cbn [trace set_trace]. rewrite set_trace_set_trace, <- app_assoc.
    cbn [imap map app]. rewrite Nat.add_0_r. unfold slave_outcome at 2.
    do 3 f_equal.
    apply imap_ext. intros i x _. cbn. rewrite length_app. cbn [length].
    f_equal. lia.
Qed.

Lemma devices_of_outcomes command n ds :
  map device (imap (fun i d => slave_outcome adb command (n + i) d) ds) = ds.
Proof.
  revert n. induction ds as [|d ds IH]; intros n; [reflexivity|].
  cbn [imap map]. f_equal.
  - unfold slave_outcome. now destruct (adb _ _).
  - rewrite <- (IH (S n)) at 2. f_equal. apply imap_ext. intros i x _.
    cbn. f_equal. lia.
Qed.

(** X16.  [execute_on_slaves] never raises.  Whatever the bridge
    answers, every slave is sent the command once, in list order, and
    the list returned holds one entry per slave, in the same order,
    whose success flag is the outcome of that slave's own process. *)
Theorem execute_on_slaves_one_entry_per_slave command s :
  let rs := imap (fun i d => slave_outcome adb command (length (trace s) + i) d)
                 slave_devices in
  execute_on_slaves adb slave_devices command s =
    (Ok rs,
     set_trace (trace s ++ map (fun d => shell d command) slave_devices) s)
  /\ map device rs = slave_devices
  /\ (forall (i : nat) r, rs !! i = Some r ->
        exists d, slave_devices !! i = Some d
                  /\ device r = d
                  /\ delivered r =
                       completed_ok (adb (length (trace s) + i) (shell d command))).
Proof.
  intros rs. split; [apply for_each_send_plain_closed|].
  assert (Hat : forall (i : nat) r, rs !! i = Some r ->
            exists d, slave_devices !! i = Some d
                      /\ r = slave_outcome adb command (length (trace s) + i) d).
  { intros i r Hr. subst rs. rewrite list_lookup_imap in Hr.
    destruct (slave_devices !! i) as [d|] eqn:Hd; [|discriminate].
    exists d. split; [reflexivity|].
    simpl in Hr. congruence. }
  split.
  - apply devices_of_outcomes.
  - intros i r Hr. destruct (Hat i r Hr) as (d & Hd & ->).
    exists d. split; [exact Hd|].
    unfold slave_outcome, completed_ok. now destruct (adb _ _).
Qed.


Section Swipe.

Variables (s s0 : Session) (x1 y1 x2 y2 duration : Z) (msize : Size).
Variables (rx1 ry1 rx2 ry2 : Py.float).

Hypothesis master_resolves :
  get_master_screen_size adb master_device s = (Ok msize, s0).
Hypothesis master_w : 0 < width msize.
Hypothesis master_h : 0 < height msize.
Hypothesis ratio_x1 : Py.truediv x1 (width msize) = Ok rx1.
Hypothesis ratio_y1 : Py.truediv y1 (height msize) = Ok ry1.
Hypothesis ratio_x2 : Py.truediv x2 (width msize) = Ok rx2.
Hypothesis ratio_y2 : Py.truediv y2 (height msize) = Ok ry2.

(** Every slave has its geometry in the cache, and the scalings of the
    four ratios go through on it. *)
Hypothesis slaves_cached :
  forall d, In d slave_devices ->
    exists size, slave_screen_sizes s !! d = Some size
                 /\ scales_swipe rx1 ry1 rx2 ry2 size = true.

Lemma swipe_slave_cached d s1 :
  slave_screen_sizes s1 = slave_screen_sizes s ->
  In d slave_devices ->
  swipe_slave adb x1 y1 x2 y2 duration rx1 ry1 rx2 ry2 d s1 =
    (Ok tt,
     set_trace
       (trace s1 ++
        [shell d (slave_swipe_command x1 y1 x2 y2 duration rx1 ry1 rx2 ry2
                    (cached_size s d))]) s1).
Proof.
  intros Hsame Hin. destruct (slaves_cached d Hin) as (size & Hd & Hsc).
  assert (Hsize : cached_size s d = size) by (unfold cached_size; now rewrite Hd).
  rewrite Hsize. unfold swipe_slave, slave_swipe_command.
  erewrite bind_ok by (apply slave_size_of_cached; rewrite Hsame; exact Hd).
  unfold scales_swipe in Hsc.
  destruct ((0 <? width size) && (0 <? height size)).
  - destruct (Py.scaled (width size) rx1) as [a|]; [|discriminate].
    destruct (Py.scaled (height size) ry1) as [b|]; [|discriminate].
    destruct (Py.scaled (width size) rx2) as [c|]; [|discriminate].
    destruct (Py.scaled (height size) ry2) as [e|]; [|discriminate].
    unfold bind, lift, try_except, subprocess_run, ret. cbn [value].
    destruct (adb _ _); reflexivity.
  - unfold bind, lift, try_except, subprocess_run, ret.
    destruct (adb _ _); reflexivity.
Qed.

Lemma for_swipe_slave_cached l s1 :
  slave_screen_sizes s1 = slave_screen_sizes s ->
  (forall d, In d l -> In d slave_devices) ->
  for_ l (swipe_slave adb x1 y1 x2 y2 duration rx1 ry1 rx2 ry2) s1 =
    (Ok tt,
     set_trace
       (trace s1 ++
        map (fun d => shell d (slave_swipe_command x1 y1 x2 y2 duration
                                 rx1 ry1 rx2 ry2 (cached_size s d))) l) s1).
Proof.
  revert s1. induction l as [|d l IH]; intros s1 Hsame Hsub.
  - simpl. now rewrite app_nil_r, set_trace_id.
  - cbn [for_].
    erewrite bind_ok by (apply swipe_slave_cached; [exact Hsame | apply Hsub; now left]).
    rewrite IH; [|exact Hsame | intros d' Hd'; apply Hsub; now right].
    cbn [trace set_trace map]. now rewrite set_trace_set_trace, <- app_assoc.
Qed.

(** X18.  [mirror_swipe] with the master's geometry resolved and every
    slave's geometry cached: the master is sent the swipe as given, and
    then every slave, in list order, the swipe whose two end points are
    [int(slave.width * (x / master.width))] and
    [int(slave.height * (y / master.height))], as they come out of the
    scaling, with no clamping to the slave's screen; a slave whose
    cached height is 0 is sent the master's own coordinates.  The call
    returns whatever the bridge answers. *)
Theorem mirror_swipe_scales_both_ends :
  mirror_swipe adb master_device slave_devices x1 y1 x2 y2 duration s =
    (Ok tt,
     set_trace
       (trace s0 ++
        shell master_device (input_swipe x1 y1 x2 y2 duration)
        :: map (fun d => shell d (slave_swipe_command x1 y1 x2 y2 duration
                                    rx1 ry1 rx2 ry2 (cached_size s d)))
               slave_devices) s0).
Proof.
  pose proof (get_master_screen_size_but_master adb master_device s) as Hb.
  rewrite master_resolves in Hb. unfold same, but_master in Hb. simpl in Hb.
  assert (Hslaves : slave_screen_sizes s0 = slave_screen_sizes s) by congruence.
  unfold mirror_swipe. erewrite bind_ok by exact master_resolves.
  assert (Hnz : (width msize =? 0) || (height msize =? 0) = false).
  { apply orb_false_iff. split; apply Z.eqb_neq; lia. }
  rewrite Hnz, ratio_x1, ratio_y1, ratio_x2, ratio_y2.
  unfold bind at 1, lift at 1. unfold bind at 1, lift at 1.
  unfold bind at 1, lift at 1. unfold bind at 1, lift at 1.
  erewrite bind_ok by apply send_master_spec.
  rewrite for_swipe_slave_cached; [|exact Hslaves | auto].
  cbn [trace set_trace]. now rewrite set_trace_set_trace, <- app_assoc.
Qed.

End Swipe.

Lemma cache_loop_raises d l s :
  In d l ->
  (forall s1, exists e, fst (get_screen_info adb d s1) = Raise e) ->
  exists s',
    for_ l (fun slave =>
              do size <- get_screen_info adb slave;
              if 0 <? width size then cache_slave slave size else ret tt) s
      = (Raise IndexError, s').
Proof.
  intros Hin Hbad. revert s. induction l as [|d0 l IH]; intros s; [contradiction|].
  cbn [for_].
  destruct (get_screen_info adb d0 s) as [[size|e] s1] eqn:Hinfo.
  - assert (Hbody : exists s2,
              (do size <- get_screen_info adb d0;
               if 0 <? width size then cache_slave d0 size else ret tt) s
                = (Ok tt, s2)).
    { unfold bind at 1. rewrite Hinfo.
      destruct (0 <? width size); eexists; reflexivity. }
    destruct Hbody as (s2 & Hbody). erewrite bind_ok by exact Hbody.
    destruct Hin as [<-|Hin].
    + destruct (Hbad s) as (e & He). rewrite Hinfo in He. discriminate He.
    + now apply IH.
  - assert (He : e = IndexError).
    { apply (get_screen_info_raises_index adb d0 s e). now rewrite Hinfo. }
    subst e. exists s1. unfold bind at 1. unfold bind at 1. now rewrite Hinfo.
Qed.

Lemma scan_devices_returns s :
  exists found s', scan_devices adb s = (Ok found, s').
Proof.
  unfold scan_devices, try_except, bind, subprocess_run, modify, ret.
  destruct (adb _ _) as [c|e].
  - destruct (true && negb (returncode c =? 0)); eexists _, _; reflexivity.
  - eexists _, _; reflexivity.
Qed.

(** X19.  Building a [ScreenMirrorController] is not best effort: when
    the geometry resolution of one slave raises (the [IndexError] of
    the display dump), the constructor raises with it, whatever the
    master and the other slaves answer. *)
Theorem init_raises_on_bad_slave d s :
  In d slave_devices ->
  (forall s1, exists e, fst (get_screen_info adb d s1) = Raise e) ->
  fst (init adb master_device slave_devices s) = Raise IndexError.
Proof.
  intros Hin Hbad. unfold init, _cache_screen_sizes.
  unfold bind at 1, modify at 1.
  destruct (scan_devices_returns (set_devices [] s)) as (found & s1 & Hscan).
  erewrite bind_ok by exact Hscan.
  unfold bind at 1, modify at 1. unfold bind at 1, modify at 1.
  set (s2 := set_slave_screen_sizes ∅ (set_master_screen_size None s1)).
  destruct (get_master_screen_size adb master_device s2) as [r s3] eqn:Hm.
  destruct (get_master_screen_size_returns adb master_device s2) as (msize & Hr).
  rewrite Hm in Hr. simpl in Hr. subst r.
  erewrite bind_ok by exact Hm.
  unfold bind at 1, modify at 1.
  destruct (cache_loop_raises d slave_devices
              (set_master_screen_size (Some msize) s3) Hin Hbad) as (s' & Hloop).
  now rewrite Hloop.
Qed.

(** X20.  While the master's geometry cannot be resolved (width 0 or
    height 0), the listener drops every left click and every scroll:
    each event only asks the bridge for the geometry again, and no
    input command is sent to any device. *)
Theorem unresolved_master_drops_events win x y s msize s0 :
  get_master_screen_size adb master_device s = (Ok msize, s0) ->
  width msize = 0 \/ height msize = 0 ->
  (forall pressed,
     only_asked s (snd (on_click adb master_device slave_devices win x y
                                 button_left pressed s)))
  /\ (forall dx dy,
        only_asked s (snd (on_scroll adb master_device slave_devices win x y
                                     dx dy s))).
Proof.
  intros Hm Hzero.
  assert (Hz : (width msize =? 0) || (height msize =? 0) = true).
  { apply orb_true_iff. destruct Hzero as [H|H]; [left|right]; now apply Z.eqb_eq. }
  assert (Hc : convert_to_phone_coords adb master_device win x y s = (Ok None, s0)).
  { unfold convert_to_phone_coords. erewrite bind_ok by exact Hm.
    unfold ret, convert_with. now rewrite Hz. }
  pose proof (get_master_screen_size_only_asked s) as Hask.
  rewrite Hm in Hask. simpl in Hask.
  assert (Hdrag : forall p a, only_asked s (set_drag p a s0)).
  { intros p a. destruct Hask as (q & Hq & Hn). exists q. now split. }
  split.
  - intros pressed. unfold on_click. unfold bind at 1, get at 1.
    destruct (running s); [|reflexivity]. cbn [negb].
    destruct (truthy (hwnd s)); [|reflexivity]. cbn [negb].
    destruct (is_point_in_window x y (hwnd s) win).
    + destruct pressed.
      * erewrite bind_ok by exact Hc. exact Hask.
      * destruct (drag_active s); [|reflexivity].
        destruct (drag_start s) as [[sx sy]|]; [|reflexivity].
        erewrite bind_ok by exact Hc. simpl. apply Hdrag.
    + destruct (drag_active s); [|reflexivity].
      exists []. split; [simpl; now rewrite app_nil_r | reflexivity].
  - intros dx dy. unfold on_scroll. unfold bind at 1, get at 1.
    destruct (running s); [|reflexivity]. cbn [negb].
    destruct (truthy (hwnd s) && is_point_in_window x y (hwnd s) win);
      [|reflexivity].
    erewrite bind_ok by exact Hc. exact Hask.
Qed.

End ControllerRest.


(** The swipe a scroll at the top of the master's screen makes: the
    slave's swipe starts above its screen. *)
Lemma mirror_swipe_scales_both_ends_witness :
  let s := Scenario.two_phones_ready in
  mirror_swipe Scenario.two_phones "M" ["S1"] 540 (-300) 540 300 300 s =
    (Ok tt,
     set_trace (trace s ++ [shell "M" "input swipe 540 -300 540 300 300";
                            shell "S1" "input swipe 360 -200 360 200 300"]) s).
Proof.
  intros s.
  apply (mirror_swipe_scales_both_ends Scenario.two_phones "M" ["S1"]
           s s 540 (-300) 540 300 300 (mkSize 1080 2400 (Some false))
           (S754_finite false 4503599627370496 (-53))
           (S754_finite true 4503599627370496 (-55))
           (S754_finite false 4503599627370496 (-53))
           (S754_finite false 4503599627370496 (-55))).
  - vm_compute. reflexivity.
  - simpl. lia.
  - simpl. lia.
  - vm_compute. reflexivity.
  - vm_compute. reflexivity.
  - vm_compute. reflexivity.
  - vm_compute. reflexivity.
  - intros d [<-|[]]. exists (mkSize 720 1600 (Some false)).
    split; vm_compute; reflexivity.
Defined.

(** A master and two slaves, the second one with the display dump that
    raises: the controller cannot be built. *)
Lemma init_raises_on_bad_slave_witness :
  fst (init More.bad_slave "M" ["S1"; "S2"] new_session) = Raise IndexError.
Proof.
  apply (init_raises_on_bad_slave More.bad_slave "M" ["S1"; "S2"] "S2" new_session).
  - right. left. reflexivity.
  - intros s1. exists IndexError. rewrite get_screen_info_closed. reflexivity.
Defined.

Lemma unresolved_master_drops_events_witness :
  let s := Scenario.listening new_session in
  (forall pressed,
     only_asked s (snd (on_click More.blind_master "M" ["S1"] Scenario.full_window
                                 540 1200 button_left pressed s)))
  /\ (forall dx dy,
        only_asked s (snd (on_scroll More.blind_master "M" ["S1"]
                                     Scenario.full_window 540 1200 dx dy s))).
Proof.
  intros s.
  exact (unresolved_master_drops_events More.blind_master "M" ["S1"]
           Scenario.full_window 540 1200 s zero_size
           (snd (get_master_screen_size More.blind_master "M" s))
           eq_refl (or_introl eq_refl)).
Defined.

(** ** The listener, the window search and the choice of the master *)

Section ListenerRest.

Variable adb : nat -> list string -> Outcome.
Variable master_device : string.
Variable slave_devices : list string.

(** X21.  The mapping looks at a desktop point only through the nearest
    point of the client area: a click on the title bar or on a border,
    inside the window rectangle but off the client area, is not
    discarded; it maps as the point of the client area's edge next to
    it does. *)
Theorem convert_main_nearest_client_point size win x y :
  convert_main size win x y =
    convert_main size win (fst (nearest_client_point win x y))
                          (snd (nearest_client_point win x y))
  /\ (is_ok (convert_main size win x y) = true ->
      convert_with size win x y =
        convert_with size win (fst (nearest_client_point win x y))
                              (snd (nearest_client_point win x y))).
Proof.
  assert (Hmain : convert_main size win x y =
            convert_main size win (fst (nearest_client_point win x y))
                                  (snd (nearest_client_point win x y))).
  { unfold convert_main, nearest_client_point, client_origin.
    destruct (GetWindowRect win) as [[[[wl wt] wr] wb]|]; [|reflexivity].
    destruct (GetClientRect win) as [[[[cl ct] cr] cb]|]; [|reflexivity].
    cbn [rbind].
    assert (Hrel :
      client_point wl wt (wb - wt) (cr - cl) (cb - ct) win x y =
      client_point wl wt (wb - wt) (cr - cl) (cb - ct) win
        (fst (let '(ox, oy) :=
                match ClientToScreen win with
                | Ok p => p
                | Raise _ => (wl, wt + (wb - wt - (cb - ct)))
                end in
              (Z.max ox (Z.min x (ox + (cr - cl))),
               Z.max oy (Z.min y (oy + (cb - ct))))))
        (snd (let '(ox, oy) :=
                match ClientToScreen win with
                | Ok p => p
                | Raise _ => (wl, wt + (wb - wt - (cb - ct)))
                end in
              (Z.max ox (Z.min x (ox + (cr - cl))),
               Z.max oy (Z.min y (oy + (cb - ct))))))).
    { unfold client_point.
      destruct (match ClientToScreen win with
                | Ok p => p
                | Raise _ => (wl, wt + (wb - wt - (cb - ct)))
                end) as [ox oy].
      cbn [fst snd]. f_equal; lia. }
    now rewrite <- Hrel. }
  split; [exact Hmain|].
  intros Hok. unfold convert_with.
  destruct ((width size =? 0) || (height size =? 0)); [reflexivity|].
  rewrite <- Hmain.
  now destruct (convert_main size win x y).
Qed.

(** X22.  Buttons other than the left one: a right press inside the
    window sends [KEYCODE_BACK] to the master and then to every slave
    and leaves a drag in progress as it is; a right release and the
    middle button do nothing. *)
Theorem on_click_right_sends_back win x y s :
  running s = true ->
  truthy (hwnd s) = true ->
  is_point_in_window x y (hwnd s) win = true ->
  on_click adb master_device slave_devices win x y button_right true s =
    (Ok None,
     set_trace
       (trace s ++ shell master_device "input keyevent KEYCODE_BACK"
        :: map (fun d => shell d "input keyevent KEYCODE_BACK") slave_devices) s)
  /\ on_click adb master_device slave_devices win x y button_right false s
       = (Ok None, s)
  /\ (forall pressed,
        on_click adb master_device slave_devices win x y button_middle pressed s
          = (Ok None, s)).
Proof.
  intros Hrun Hwnd Hin.
  assert (Hkey :
    mirror_key adb master_device slave_devices "KEYCODE_BACK" s =
    (Ok tt,
     set_trace
       (trace s ++ shell master_device "input keyevent KEYCODE_BACK"
        :: map (fun d => shell d "input keyevent KEYCODE_BACK") slave_devices) s)).
  { unfold mirror_key.
    change ("input keyevent " ++ "KEYCODE_BACK") with "input keyevent KEYCODE_BACK".
    erewrite bind_ok by apply send_master_spec.
    destruct slave_devices as [|d ds] eqn:Hs; [reflexivity|].
    rewrite <- Hs. unfold execute_on_slaves.
    erewrite bind_ok by apply for_each_send_plain_closed.
    unfold ret. cbn [trace set_trace].
    now rewrite set_trace_set_trace, <- app_assoc. }
  split; [|split; [|intros pressed]];
    unfold on_click; unfold bind at 1, get at 1;
    rewrite Hrun, Hwnd, Hin; cbn [negb]; try reflexivity.
  erewrite bind_ok by exact Hkey. reflexivity.
Qed.

(** X23.  A drag that leaves the window is abandoned: any button event
    outside the window rectangle, a release included, sends nothing
    and clears the pending press, so that no later release can turn it
    into a tap or a swipe. *)
Theorem on_click_outside_abandons_drag win x y button pressed s :
  running s = true ->
  truthy (hwnd s) = true ->
  is_point_in_window x y (hwnd s) win = false ->
  let s' := if drag_active s then set_drag None false s else s in
  on_click adb master_device slave_devices win x y button pressed s = (Ok None, s')
  /\ trace s' = trace s
  /\ drag_active s' = false
  /\ (forall win' x' y',
        on_click adb master_device slave_devices win' x' y' button_left false s'
          = (Ok None, s')).
Proof.
  intros Hrun Hwnd Hout s'.
  assert (Hact : drag_active s' = false).
  { subst s'. destruct (drag_active s) eqn:E; [reflexivity | exact E]. }
  assert (Hrun' : running s' = true).
  { subst s'. now destruct (drag_active s). }
  assert (Hwnd' : hwnd s' = hwnd s).
  { subst s'. now destruct (drag_active s). }
  split; [|split; [|split]].
  - unfold on_click. unfold bind at 1, get at 1.
    rewrite Hrun, Hwnd, Hout. cbn [negb]. subst s'.
    destruct (drag_active s); reflexivity.
  - subst s'. now destruct (drag_active s).
  - exact Hact.
  - intros win' x' y'. unfold on_click. unfold bind at 1, get at 1.
    rewrite Hrun', Hwnd', Hwnd, Hact. cbn [negb].
    destruct (is_point_in_window x' y' (hwnd s) win'); reflexivity.
Qed.

(** X24.  [on_scroll] looks at the vertical direction of the scroll
    only: the number of notches and any horizontal scrolling change
    nothing, and a purely horizontal scroll sends no input command. *)
Theorem on_scroll_reads_direction_only win x y dx dy s :
  on_scroll adb master_device slave_devices win x y dx dy s =
    on_scroll adb master_device slave_devices win x y 0 (Z.sgn dy) s
  /\ (dy = 0 ->
      only_asked s (snd (on_scroll adb master_device slave_devices
                                   win x y dx dy s))).
Proof.
  assert (Hpos : (0 <? Z.sgn dy) = (0 <? dy)).
  { destruct (Z.ltb_spec 0 dy), (Z.ltb_spec 0 (Z.sgn dy)); lia. }
  assert (Hneg : (Z.sgn dy <? 0) = (dy <? 0)).
  { destruct (Z.ltb_spec dy 0), (Z.ltb_spec (Z.sgn dy) 0); lia. }
  split.
  - unfold on_scroll. now rewrite Hpos, Hneg.
  - intros ->. unfold on_scroll. unfold bind at 1, get at 1.
    destruct (running s); [|reflexivity]. cbn [negb].
    destruct (truthy (hwnd s) && is_point_in_window x y (hwnd s) win);
      [|reflexivity].
    unfold convert_to_phone_coords.
    pose proof (get_master_screen_size_only_asked adb master_device s) as Hask.
    unfold bind.
    destruct (get_master_screen_size adb master_device s) as [[size|e] s1];
      [|exact Hask].
    unfold ret.
    destruct (convert_with size win x y) as [[px py]|]; exact Hask.
Qed.

End ListenerRest.

(** A click on the title bar of a window framed around a client area of
    the master's size maps to the top row of the screen. *)
Example title_bar_click_maps_to_top_row :
  nearest_client_point More.framed_window 600 110 = (600, 130)
  /\ convert_with (mkSize 1080 2400 (Some false)) More.framed_window 600 110
       = Some (492, 0).
Proof. split; vm_compute; reflexivity. Qed.

Lemma convert_main_nearest_client_point_witness :
  let size := mkSize 1080 2400 (Some false) in
  convert_main size More.framed_window 600 110 =
    convert_main size More.framed_window 600 130
  /\ (true = true ->
      convert_with size More.framed_window 600 110 =
        convert_with size More.framed_window 600 130).
Proof.
  intros size.
  exact (convert_main_nearest_client_point size More.framed_window 600 110).
Defined.

Lemma on_click_right_sends_back_witness :
  let s := Scenario.listening Scenario.two_phones_ready in
  on_click Scenario.two_phones "M" ["S1"] Scenario.full_window 10 10
           button_right true s =
    (Ok None,
     set_trace (trace s ++ [shell "M" "input keyevent KEYCODE_BACK";
                            shell "S1" "input keyevent KEYCODE_BACK"]) s).
Proof.
  intros s.
  apply (on_click_right_sends_back Scenario.two_phones "M" ["S1"]
           Scenario.full_window 10 10 s); reflexivity.
Defined.

Lemma on_click_outside_abandons_drag_witness :
  let s := set_drag (Some (100, 100)) true
             (Scenario.listening Scenario.two_phones_ready) in
  let s' := set_drag None false s in
  on_click Scenario.two_phones "M" ["S1"] Scenario.full_window 5000 5000
           button_left false s = (Ok None, s')
  /\ trace s' = trace s
  /\ drag_active s' = false
  /\ (forall win' x' y',
        on_click Scenario.two_phones "M" ["S1"] win' x' y' button_left false s'
          = (Ok None, s')).
Proof.
  intros s s'.
  apply (on_click_outside_abandons_drag Scenario.two_phones "M" ["S1"]
           Scenario.full_window 5000 5000 button_left false s); reflexivity.
Defined.

(** ** The window search *)

Lemma filter_nil_all {A} (p : A -> bool) l :
  filter p l = [] -> Forall (fun a => p a = false) l.
Proof.
  induction l as [|a l IH]; [constructor|].
  rewrite filter_cons_bool. destruct (p a) eqn:Hp; [discriminate|].
  intros H. constructor; auto.
Qed.

Lemma filter_first {A} (p : A -> bool) l a rest :
  filter p l = a :: rest ->
  exists before after,
    l = (before ++ a :: after)%list
    /\ p a = true
    /\ Forall (fun b => p b = false) before.
Proof.
  induction l as [|b l IH]; [discriminate|].
  rewrite filter_cons_bool. destruct (p b) eqn:Hp.
  - intros [= -> _]. exists [], l. repeat split; auto.
  - intros H. destruct (IH H) as (before & after & -> & Ha & Hb).
    exists (b :: before), after. repeat split; auto.
Qed.

Lemma poll_window_still window_title desktop attempt attempts_left hwnd :
  poll_window window_title (fun _ => desktop) attempt attempts_left hwnd =
    match attempts_left with
    | O => hwnd
    | S _ => get_scrcpy_window window_title desktop
    end.
Proof.
  revert attempt hwnd. induction attempts_left as [|n IH]; intros attempt hwnd;
    [reflexivity|].
  cbn [poll_window].
  destruct (truthy (get_scrcpy_window window_title desktop)); [reflexivity|].
  rewrite IH. now destruct n.
Qed.

(** X25.  On a desktop that does not change during the search, the
    listener is started on the first visible window whose title holds
    the configured title or [scrcpy], letter case apart; the second
    search, for any scrcpy window, never finds one the first did not
    find: when the first search fails the listener is not started. *)
Theorem find_window_on_still_desktop window_title desktop :
  Forall (fun w => handle w <> 0) desktop ->
  find_window window_title (fun _ => desktop)
    = get_scrcpy_window window_title desktop
  /\ match get_scrcpy_window window_title desktop with
     | Some h =>
         exists before w after,
           desktop = (before ++ w :: after)%list
           /\ handle w = h
           /\ is_scrcpy_window window_title w = true
           /\ Forall (fun b => is_scrcpy_window window_title b = false) before
     | None =>
         Forall (fun w => is_scrcpy_window window_title w = false) desktop
         /\ find_any_scrcpy desktop = []
     end.
Proof.
  intros Hnz. unfold find_window. rewrite poll_window_still. cbn [max_attempts].
  unfold get_scrcpy_window.
  destruct (filter (is_scrcpy_window window_title) desktop) as [|w rest] eqn:Hf.
  - apply filter_nil_all in Hf.
    assert (Hany : find_any_scrcpy desktop = []).
    { unfold find_any_scrcpy. clear Hnz.
      induction Hf as [|a l Ha _ IH]; [reflexivity|].
      rewrite filter_cons_bool. unfold is_scrcpy_window in Ha.
      destruct (is_visible a); [|exact IH]. cbn [andb] in Ha |- *.
      apply orb_false_iff in Ha as [_ ->]. exact IH. }
    cbn [truthy]. rewrite Hany. now repeat split.
  - destruct (filter_first _ _ _ _ Hf) as (before & after & Hd & Hw & Hb).
    split.
    + assert (Hh : handle w <> 0).
      { rewrite List.Forall_forall in Hnz. apply Hnz. rewrite Hd.
        apply in_or_app. right. now left. }
      cbn [truthy]. apply Z.eqb_neq in Hh. now rewrite Hh.
    + exists before, w, after. now repeat split.
Qed.

Lemma find_window_on_still_desktop_witness :
  find_window "Phone Master - Control Here" (fun _ => More.desktop) = Some 13
  /\ exists before w after,
       More.desktop = (before ++ w :: after)%list
       /\ handle w = 13
       /\ is_scrcpy_window "Phone Master - Control Here" w = true
       /\ Forall (fun b => is_scrcpy_window "Phone Master - Control Here" b = false)
                 before.
Proof.
  apply (find_window_on_still_desktop "Phone Master - Control Here" More.desktop).
  repeat constructor; discriminate.
Defined.

(** ** The choice of the master *)

Lemma filter_others_In master (l : list string) d :
  In d (filter (fun d => negb (String.eqb d master)) l) <-> In d l /\ d <> master.
Proof.
  induction l as [|a l IH]; [simpl; tauto|].
  rewrite filter_cons_bool.
  destruct (String.eqb_spec a master) as [->|Hne]; cbn [negb In]; rewrite IH.
  - split; [tauto|]. intros [[<-|H] Hd]; [contradiction | tauto].
  - split; [intros [<-|H]; tauto | tauto].
Qed.

Lemma filter_others_perm master (l : list string) :
  List.NoDup l -> In master l ->
  Permutation (master :: filter (fun d => negb (String.eqb d master)) l) l.
Proof.
  induction 1 as [|a l Ha Hnd IH]; [contradiction|].
  rewrite filter_cons_bool.
  destruct (String.eqb_spec a master) as [->|Hne]; cbn [negb].
  - intros _. constructor.
    assert (Hall : filter (fun d => negb (String.eqb d master)) l = l).
    { clear IH Hnd. induction l as [|b l IHl]; [reflexivity|].
      rewrite filter_cons_bool.
      destruct (String.eqb_spec b master) as [->|_]; cbn [negb].
      - exfalso. apply Ha. now left.
      - f_equal. apply IHl. intros H. apply Ha. now right. }
    now rewrite Hall.
  - intros [E|Hin]; [contradiction|].
    etransitivity; [apply perm_swap|]. constructor. now apply IH.
Qed.

Section Choice.

Variable int_ : string -> result Z.

(** X26.  Whatever is typed at the prompt of [main], and whatever
    [int] makes of it, a master and slaves that are chosen come from
    the device list; when the serials are distinct the master is not
    among its own slaves and the slaves are all the other devices.  A
    number from 1 to the number of devices picks that device; anything
    else that [int] can parse, or cannot, picks the first. *)
Theorem select_master_splits_devices wifi_devices typed master slaves :
  select_master int_ wifi_devices typed = Ok (master, slaves) ->
  In master wifi_devices
  /\ (forall d, In d slaves -> In d wifi_devices)
  /\ (List.NoDup wifi_devices ->
      ~ In master slaves /\ Permutation (master :: slaves) wifi_devices)
  /\ (forall n, Text.strip typed <> "" -> int_ (Text.strip typed) = Ok n ->
        nth_error wifi_devices
          (if (1 <=? n) && (n <=? Z.of_nat (length wifi_devices))
           then Z.to_nat (n - 1) else O) = Some master).
Proof.
  unfold select_master.
  set (user_input := Text.strip typed).
  set (fallback := match wifi_devices with
                   | m :: sl => Ok (m, sl)
                   | [] => Raise IndexError
                   end).
  assert (Hfall : fallback = Ok (master, slaves) ->
            In master wifi_devices
            /\ (forall d, In d slaves -> In d wifi_devices)
            /\ (List.NoDup wifi_devices ->
                ~ In master slaves /\ Permutation (master :: slaves) wifi_devices)
            /\ nth_error wifi_devices O = Some master).
  { subst fallback. destruct wifi_devices as [|m sl]; [discriminate|].
    intros [= -> ->]. split; [now left|]. split; [intros d Hd; now right|].
    split; [|reflexivity].
    intros Hnd. inversion Hnd; subst. now split. }
  assert (Hpick : forall choice,
            ((choice <? 0) || (Z.of_nat (length wifi_devices) <=? choice)) = false ->
            nth_error wifi_devices (Z.to_nat choice) = Some master ->
            slaves = filter (fun d => negb (String.eqb d master)) wifi_devices ->
            In master wifi_devices
            /\ (forall d, In d slaves -> In d wifi_devices)
            /\ (List.NoDup wifi_devices ->
                ~ In master slaves /\ Permutation (master :: slaves) wifi_devices)).
  { intros choice _ Hnth ->. apply nth_error_In in Hnth.
    split; [exact Hnth|]. split.
    - intros d Hd. now apply filter_others_In in Hd.
    - intros Hnd. split.
      + intros H. apply filter_others_In in H. now destruct H.
      + now apply filter_others_perm. }
  destruct (String.eqb_spec user_input "") as [Hempty|Hfull].
  - (* nothing typed: the first device *)
    cbn [rbind].
    destruct ((0 <? 0) || (Z.of_nat (length wifi_devices) <=? 0)) eqn:Hrange.
    + intros H. destruct (Hfall H) as (H1 & H2 & H3 & _).
      repeat split; try apply H3; auto. intros n Hn. contradiction.
    + change (Z.to_nat 0) with O.
      destruct (nth_error wifi_devices 0) as [m|] eqn:Hnth.
      * intros [= -> <-].
        destruct (Hpick 0 Hrange Hnth eq_refl) as (H1 & H2 & H3).
        repeat split; try apply H3; auto. intros n Hn. contradiction.
      * intros H. destruct (Hfall H) as (H1 & H2 & H3 & _).
        repeat split; try apply H3; auto. intros n Hn. contradiction.
  - destruct (int_ user_input) as [n|e] eqn:Hint; cbn [rbind].
    + destruct ((n - 1 <? 0) || (Z.of_nat (length wifi_devices) <=? n - 1))
        eqn:Hrange.
      * intros H. destruct (Hfall H) as (H1 & H2 & H3 & H4).
        repeat split; try apply H3; auto.
        intros n' _ [= <-].
        assert (Hout : (1 <=? n) && (n <=? Z.of_nat (length wifi_devices)) = false).
        { apply orb_true_iff in Hrange. apply andb_false_iff.
          destruct Hrange as [Hlo|Hhi];
            [left; apply Z.leb_gt; apply Z.ltb_lt in Hlo; lia
            |right; apply Z.leb_gt; apply Z.leb_le in Hhi; lia]. }
        now rewrite Hout.
      * destruct (nth_error wifi_devices (Z.to_nat (n - 1))) as [m|] eqn:Hnth.
        -- intros [= -> <-].
           destruct (Hpick (n - 1) Hrange Hnth eq_refl) as (H1 & H2 & H3).
           repeat split; try apply H3; auto.
           intros n' _ [= <-].
           assert (Hin : (1 <=? n) && (n <=? Z.of_nat (length wifi_devices)) = true).
           { apply orb_false_iff in Hrange as [Ha Hb].
             apply Z.ltb_ge in Ha. apply Z.leb_gt in Hb.
             apply andb_true_iff. split; apply Z.leb_le; lia. }
           now rewrite Hin.
        -- exfalso. apply nth_error_None in Hnth.
           apply orb_false_iff in Hrange as [Ha Hb].
           apply Z.ltb_ge in Ha. apply Z.leb_gt in Hb. lia.
    + destruct e; try discriminate;
        (intros H; destruct (Hfall H) as (H1 & H2 & H3 & _);
         repeat split; try apply H3; auto; intros n' _ Hn'; discriminate Hn').
Qed.

End Choice.

Lemma select_master_splits_devices_witness :
  let devices := ["192.168.1.100:5555"; "192.168.1.101:5555"; "192.168.1.102:5555"] in
  In "192.168.1.101:5555" devices
  /\ (forall d, In d ["192.168.1.100:5555"; "192.168.1.102:5555"] -> In d devices)
  /\ (List.NoDup devices ->
      ~ In "192.168.1.101:5555" ["192.168.1.100:5555"; "192.168.1.102:5555"]
      /\ Permutation
           ("192.168.1.101:5555" :: ["192.168.1.100:5555"; "192.168.1.102:5555"])
           devices)
  /\ (forall n, Text.strip " 2 " <> "" -> Ok 2 = Ok n ->
        nth_error devices
          (if (1 <=? n) && (n <=? Z.of_nat (length devices))
           then Z.to_nat (n - 1) else O) = Some "192.168.1.101:5555").
Proof.
  intros devices.
  apply (select_master_splits_devices (fun _ => Ok 2) devices " 2 "
           "192.168.1.101:5555" ["192.168.1.100:5555"; "192.168.1.102:5555"]).
  vm_compute. reflexivity.
Defined.

(** ** Mapping without letterbox, and the two text paths *)

Section Direct.

Variables (screen_size : Size) (win : Window) (window_x window_y : Z).
Variables (wl wt wr wb cl ct cr cb : Z).
Variables (window_aspect phone_aspect scale_x scale_y : Py.float).

Let client_width := cr - cl.
Let client_height := cb - ct.
Let rel := client_point wl wt (wb - wt) client_width client_height
                        win window_x window_y.

Hypothesis screen_w : 0 < width screen_size.
Hypothesis screen_h : 0 < height screen_size.
Hypothesis window_rect : GetWindowRect win = Ok (wl, wt, wr, wb).
Hypothesis client_rect : GetClientRect win = Ok (cl, ct, cr, cb).
Hypothesis client_w : 0 < client_width.
Hypothesis client_h : 0 < client_height.
Hypothesis window_aspect_is :
  Py.truediv client_width client_height = Ok window_aspect.
Hypothesis phone_aspect_is :
  Py.truediv (width screen_size) (height screen_size) = Ok phone_aspect.
Hypothesis scale_x_is : Py.truediv (width screen_size) client_width = Ok scale_x.
Hypothesis scale_y_is : Py.truediv (height screen_size) client_height = Ok scale_y.
Hypothesis aspects_agree :
  Py.fgt (Py.fabs (Py.fsub window_aspect phone_aspect)) Py.f0_01 = false.

(** X27.  When the aspect ratios of the client area and of the phone
    are at most 0.01 apart there is no letterbox: every point of the
    window maps, each axis scaled on its own,
    [x] by [width / client_width] and [y] by [height / client_height],
    truncated and clamped to the phone's screen. *)
Theorem convert_with_direct_scaling px py :
  Py.scaled (fst rel) scale_x = Ok px ->
  Py.scaled (snd rel) scale_y = Ok py ->
  convert_with screen_size win window_x window_y =
    Some (Py.clamp px (width screen_size - 1),
          Py.clamp py (height screen_size - 1)).
Proof.
  intros Hpx Hpy.
  destruct rel as [rel_x rel_y] eqn:Hrel. cbn [fst snd] in Hpx, Hpy.
  assert (Hmain : convert_main screen_size win window_x window_y =
                  scale_point screen_size client_width client_height rel_x rel_y).
  { unfold convert_main. rewrite window_rect, client_rect. cbn [rbind].
    fold client_width client_height. subst rel. rewrite Hrel.
    apply Z.ltb_lt in client_w as ->. apply Z.ltb_lt in client_h as ->.
    reflexivity. }
  assert (Hnz : (width screen_size =? 0) || (height screen_size =? 0) = false).
  { apply orb_false_iff. split; apply Z.eqb_neq; lia. }
  unfold convert_with. rewrite Hnz, Hmain. unfold scale_point.
  pose proof client_h as Hch. apply Z.ltb_lt in Hch. rewrite Hch.
  pose proof screen_h as Hsh. apply Z.ltb_lt in Hsh. rewrite Hsh.
  rewrite window_aspect_is, phone_aspect_is, scale_x_is, scale_y_is.
  cbn [rbind]. rewrite aspects_agree, Hpx, Hpy. reflexivity.
Qed.

End Direct.

Lemma convert_with_direct_scaling_witness :
  convert_with (mkSize 1080 2400 (Some false)) Scenario.full_window 540 1200 =
    Some (540, 1200).
Proof.
  exact (convert_with_direct_scaling
           (mkSize 1080 2400 (Some false)) Scenario.full_window 540 1200
           0 0 1080 2400 0 0 1080 2400
           (S754_finite false 8106479329266893 (-54))
           (S754_finite false 8106479329266893 (-54))
           (S754_finite false 4503599627370496 (-52))
           (S754_finite false 4503599627370496 (-52))
           ltac:(simpl; lia) ltac:(simpl; lia) eq_refl eq_refl
           ltac:(lia) ltac:(lia) eq_refl eq_refl eq_refl eq_refl eq_refl
           540 1200 eq_refl eq_refl).
Defined.

(** X28.  The two text paths agree: [mirror_text] sends every slave
    the very command [PhoneController.input_text] would send it, in
    list order. *)
Theorem mirror_text_sends_what_input_text_sends
    (adb : nat -> list string -> Outcome) (slave_devices : list string)
    (text : string) (s : Session) :
  trace (snd (mirror_text adb slave_devices text s)) =
  trace (snd (for_each (fun d => input_text adb d text) slave_devices s)).
Proof.
  destruct (for_each_execute_command adb (input_text_command (escape text))
              slave_devices s) as (rs & Hrs & _).
  change (for_each (fun d => input_text adb d text) slave_devices s)
    with (for_each (fun d => execute_command adb d
                               (input_text_command (escape text)))
                   slave_devices s).
  rewrite Hrs. unfold mirror_text.
  destruct slave_devices as [|d ds] eqn:Hs.
  - simpl. now rewrite app_nil_r.
  - rewrite <- Hs. unfold execute_on_slaves.
    destruct (for_each_send_plain adb slave_devices
                (input_text_command (escape text)) s) as (rs' & Hrs' & _).
    erewrite bind_ok by exact Hrs'. reflexivity.
Qed.

(** ** Keeping track of the window *)

Section Watch.

Variable adb : nat -> list string -> Outcome.
Variable master_device : string.
Variable slave_devices : list string.
Variable window_title : string.

Lemma recheck_window_lost first_look second_look s :
  truthy (hwnd s) = false ->
  recheck_window window_title first_look second_look s = (Ok tt, s).
Proof.
  intros Hlost. unfold recheck_window, bind, get.
  now rewrite Hlost, andb_false_r.
Qed.

Lemma recheck_window_seen first_look second_look s :
  truthy (get_scrcpy_window window_title first_look) = true ->
  recheck_window window_title first_look second_look s = (Ok tt, s).
Proof.
  intros Hseen. unfold recheck_window, bind, get. now rewrite Hseen.
Qed.

(** X29.  Once the handle of the mirroring window is lost, the
    periodic check never adopts a window again, whatever appears on
    the desktop later: from then on [on_click] sends nothing and keeps
    answering [True] (keep listening) while the listener runs.  And as
    long as some mirroring window is seen at each check, the handle
    held is never replaced. *)
Theorem lost_window_is_never_found_again checks s :
  (truthy (hwnd s) = false ->
     watch window_title checks s = s
     /\ forall more win x y button pressed,
          on_click adb master_device slave_devices win x y button pressed
                   (watch window_title more s)
            = (Ok (Some (running s)), s))
  /\ (Forall (fun looks =>
                truthy (get_scrcpy_window window_title (fst looks)) = true)
             checks ->
      watch window_title checks s = s).
Proof.
  assert (Hstay : forall l, truthy (hwnd s) = false -> watch window_title l s = s).
  { intros l Hlost. unfold watch. induction l as [|looks l IH]; [reflexivity|].
    cbn [fold_left]. now rewrite recheck_window_lost. }
  split.
  - intros Hlost. split; [now apply Hstay|].
    intros more win x y button pressed. rewrite Hstay by exact Hlost.
    unfold on_click, bind, get, ret.
    destruct (running s); cbn [negb]; [|reflexivity].
    now rewrite Hlost.
  - intros Hseen. unfold watch. induction Hseen as [|looks l Hl _ IH]; [reflexivity|].
    cbn [fold_left]. now rewrite recheck_window_seen.
Qed.

End Watch.

(** The window is closed and a new one is opened: the handle goes and
    does not come back. *)
Lemma lost_window_is_never_found_again_witness :
  let s := Scenario.listening Scenario.two_phones_ready in
  let closed := watch "Phone Master - Control Here" [([], [])] s in
  hwnd closed = None
  /\ watch "Phone Master - Control Here" [(More.desktop, More.desktop)] closed
     = closed
  /\ forall more win x y button pressed,
       on_click Scenario.two_phones "M" ["S1"] win x y button pressed
                (watch "Phone Master - Control Here" more closed)
         = (Ok (Some (running closed)), closed).
Proof.
  intros s closed. split; [reflexivity|].
  exact (proj1 (lost_window_is_never_found_again Scenario.two_phones "M" ["S1"]
                  "Phone Master - Control Here"
                  [(More.desktop, More.desktop)] closed) eq_refl).
Defined.
